(** * Finitii web shell: the API client, the route middleware, the page
    handlers and the Top 3 ranking rule.

    The frontend is TypeScript running in a browser.  Values that cross the
    network are untyped at run time, so they are modelled by a small type of
    JavaScript values; component state keeps the types of its [useState]
    declarations where nothing else is stored in it; the browser (storage, cookies, router, clock) and the
    backend (one outcome per [fetch]) form an explicit world that every
    handler threads through. *)

From Stdlib Require Import ZArith QArith List String Ascii Bool Lia.
From stdpp Require Import base gmap strings list pretty.

Open Scope Z_scope.
Set Warnings "-register-all".

(** ** JavaScript values *)

(** Numbers are exact rationals: no operation of the program rounds, the
    only questions asked of a number are whether it is zero and whether it
    equals a constant.  [VErr] is an instance of a native [Error] class
    ([TypeError], [SyntaxError]). *)
Inductive value : Type :=
| VUndef
| VNull
| VBool (b : bool)
| VNum (q : Q)
| VStr (s : string)
| VArr (xs : list value)
| VObj (fields : list (string * value))
| VErr (name message : string).

Inductive result (A : Type) : Type :=
| Ok (a : A)
| Throw (e : value).
Arguments Ok {A} a.
Arguments Throw {A} e.

(** [ToBoolean]. *)
Definition truthy (v : value) : bool :=
  match v with
  | VUndef | VNull => false
  | VBool b => b
  | VNum q => negb (Qeq_bool q 0)
  | VStr s => negb (String.eqb s "")
  | VArr _ | VObj _ | VErr _ _ => true
  end.

(** [a || b]. *)
Definition js_or (a b : value) : value := if truthy a then a else b.

Definition typeof (v : value) : string :=
  match v with
  | VUndef => "undefined"
  | VNull | VArr _ | VObj _ | VErr _ _ => "object"
  | VBool _ => "boolean"
  | VNum _ => "number"
  | VStr _ => "string"
  end.

Fixpoint assoc (k : string) (fields : list (string * value)) : option value :=
  match fields with
  | [] => None
  | (k', v) :: rest => if String.eqb k k' then Some v else assoc k rest
  end.

(** The fields of an object, each key once, as in an object literal or a
    parsed JSON object. *)
Definition field (k : string) (fields : list (string * value)) : value :=
  match assoc k fields with Some v => v | None => VUndef end.

Definition type_error (msg : string) : value := VErr "TypeError" msg.

(** [v.k] for the property names this program reads ([detail], [message],
    [id], [token], [current_step], ...), none of which is defined on a
    built-in prototype except [message] and [name] on errors. *)
Definition get_prop (v : value) (k : string) : result value :=
  match v with
  | VUndef | VNull => Throw (type_error "Cannot read properties")
  | VObj fields => Ok (field k fields)
  | VErr name message =>
      Ok (if String.eqb k "message" then VStr message
          else if String.eqb k "name" then VStr name
          else VUndef)
  | VBool _ | VNum _ | VStr _ | VArr _ => Ok VUndef
  end.

(** [k in v], for [v] an object ([typeof v === "object"], not null). *)
Definition has_in (k : string) (v : value) : bool :=
  match v with
  | VObj fields => bool_decide (is_Some (assoc k fields))
  | VErr _ _ => String.eqb k "message" || String.eqb k "name" || String.eqb k "stack"
  | _ => false
  end.

(** [ToPropertyKey(v)], the name under which [v in o] and [o[v]] look a
    value up.  A string names itself; an array is joined with commas, its
    [null] and [undefined] elements as empty strings; an object is
    "[object Object]" unless an entry of its own hides [toString]: a parsed
    entry is no function, and the conversion throws.  [None] is a key made
    of the digits of a number, or one with a comma in it: no property of
    this program or of [Object.prototype] has such a name. *)
Fixpoint property_key (v : value) : result (option string) :=
  match v with
  | VUndef => Ok (Some "undefined")
  | VNull => Ok (Some "null")
  | VBool b => Ok (Some (if b then "true" else "false"))
  | VNum _ => Ok None
  | VStr s => Ok (Some s)
  | VArr xs =>
      let element x :=
        match x with
        | VUndef | VNull => Ok (Some "")
        | _ => property_key x
        end in
      match xs with
      | [] => Ok (Some "")
      | [x] => element x
      | _ =>
          (fix joined (l : list value) : result (option string) :=
             match l with
             | [] => Ok None
             | y :: l' =>
                 match element y with
                 | Throw e => Throw e
                 | Ok _ => joined l'
                 end
             end) xs
      end
  | VObj fields =>
      match assoc "toString" fields with
      | Some _ => Throw (type_error "Cannot convert object to primitive value")
      | None => Ok (Some "[object Object]")
      end
  | VErr name message =>
      Ok (Some (if String.eqb message "" then name else name +:+ ": " +:+ message))
  end.

Definition is_array (v : value) : bool :=
  match v with VArr _ => true | _ => false end.

Definition of_option_string (o : option string) : value :=
  match o with Some s => VStr s | None => VNull end.

(** ** The world: browser and backend *)

Record Response : Type := {
  status : Z;
  (** the header lines as received *)
  headers : list (string * string);
  (** what [res.json()] resolves to; [None] when the body is not JSON and
      [res.json()] rejects *)
  body : option value
}.

(** How a call of [fetch] settles: the promise rejects or resolves.  A
    call that never settles is not among the outcomes: the handler that
    awaits it does not go on, and what is said of a handler is said of one
    whose calls have all settled. *)
Inductive FetchOutcome : Type :=
| NetworkFailure
| Responded (res : Response).

Record Request : Type := {
  req_method : string;
  req_url : string;
  req_headers : gmap string string;
  (** the value handed to [JSON.stringify], when there is a body *)
  req_body : option value
}.

Inductive Navigation : Type :=
| Replace (href : string)
| Push (href : string)
(** [router.push(`/cheat/run/${id}`)] *)
| PushRun (id : value).

Record World : Type := {
  (** [typeof window !== "undefined"] *)
  window_defined : bool;
  localStorage : gmap string string;
  (** the strings assigned to [document.cookie], oldest first *)
  cookie_writes : list string;
  (** [process.env.NEXT_PUBLIC_API_BASE_URL] *)
  NEXT_PUBLIC_API_BASE_URL : option string;
  (** the outcome of the n-th call of [fetch] *)
  server : nat -> FetchOutcome;
  (** the requests handed to [fetch], oldest first *)
  sent : list Request;
  (** the calls of [router.replace] and [router.push], oldest first *)
  navigations : list Navigation;
  (** the ISO string of the instant read by the i-th [new Date()] of a
      call, moved back by k calendar days *)
  date_iso : nat -> Z -> string;
  (** the runtime's [parseFloat], [None] for [NaN] *)
  parseFloat : string -> option Q;
  (** [Object.prototype] as a state setter meets it: for the name of a
      property that every object inherits ([constructor], [toString],
      [valueOf], [__proto__], ...), what [setState(Object.prototype[name])]
      makes of the state so far.  React calls a function on that state and
      keeps what it returns; where the call throws, the page is taken down
      at the next render and shows no control, as for a state that no
      panel answers to. *)
  Object_prototype : string -> option (value -> value)
}.

Definition set_localStorage (f : gmap string string -> gmap string string) (w : World) : World :=
  {| window_defined := window_defined w; localStorage := f (localStorage w);
     cookie_writes := cookie_writes w;
     NEXT_PUBLIC_API_BASE_URL := NEXT_PUBLIC_API_BASE_URL w;
     server := server w; sent := sent w; navigations := navigations w;
     date_iso := date_iso w; parseFloat := parseFloat w;
     Object_prototype := Object_prototype w |}.

Definition write_cookie (c : string) (w : World) : World :=
  {| window_defined := window_defined w; localStorage := localStorage w;
     cookie_writes := cookie_writes w ++ [c];
     NEXT_PUBLIC_API_BASE_URL := NEXT_PUBLIC_API_BASE_URL w;
     server := server w; sent := sent w; navigations := navigations w;
     date_iso := date_iso w; parseFloat := parseFloat w;
     Object_prototype := Object_prototype w |}.

Definition record_request (r : Request) (w : World) : World :=
  {| window_defined := window_defined w; localStorage := localStorage w;
     cookie_writes := cookie_writes w;
     NEXT_PUBLIC_API_BASE_URL := NEXT_PUBLIC_API_BASE_URL w;
     server := server w; sent := sent w ++ [r]; navigations := navigations w;
     date_iso := date_iso w; parseFloat := parseFloat w;
     Object_prototype := Object_prototype w |}.

Definition navigate (n : Navigation) (w : World) : World :=
  {| window_defined := window_defined w; localStorage := localStorage w;
     cookie_writes := cookie_writes w;
     NEXT_PUBLIC_API_BASE_URL := NEXT_PUBLIC_API_BASE_URL w;
     server := server w; sent := sent w; navigations := navigations w ++ [n];
     date_iso := date_iso w; parseFloat := parseFloat w;
     Object_prototype := Object_prototype w |}.

(** ** Computations that may throw and act on a state *)

(** [M S A]: a computation over a state [S] that returns an [A] or throws.
    An [await] is a call in sequence: a computation is a handler run to
    its end, each of its calls settled. *)
Definition M (S A : Type) : Type := S -> result A * S.

Definition ret {S A} (a : A) : M S A := fun s => (Ok a, s).

Definition throw {S A} (e : value) : M S A := fun s => (Throw e, s).

Definition bind {S A B} (m : M S A) (k : A -> M S B) : M S B :=
  fun s =>
    match m s with
    | (Ok a, s') => k a s'
    | (Throw e, s') => (Throw e, s')
    end.

Definition lift {S A} (r : result A) : M S A := fun s => (r, s).

(** [try { m } catch (e) { h e }] *)
Definition try_catch {S A} (m : M S A) (h : value -> M S A) : M S A :=
  fun s =>
    match m s with
    | (Ok a, s') => (Ok a, s')
    | (Throw e, s') => h e s'
    end.

(** [try { m } finally { f }], also when [m] leaves by [return] *)
Definition try_finally {S A} (m : M S A) (f : M S unit) : M S A :=
  fun s =>
    match m s with
    | (r, s') =>
        match f s' with
        | (Ok _, s'') => (r, s'')
        | (Throw e, s'') => (Throw e, s'')
        end
    end.

(** A page computation acts on the component state and on the world. *)
Definition api {S A} (m : M World A) : M (S * World) A :=
  fun st =>
    match m (snd st) with
    | (r, w') => (r, (fst st, w'))
    end.

(** [setX(...)]: a state setter of the component *)
Definition set {S} (f : S -> S) : M (S * World) unit :=
  fun st => (Ok tt, (f (fst st), snd st)).

Definition router {S} (n : Navigation) : M (S * World) unit :=
  fun st => (Ok tt, (fst st, navigate n (snd st))).

Definition world {S} : M (S * World) World :=
  fun st => (Ok (snd st), st).

Declare Scope js_scope.
Delimit Scope js_scope with js.
Notation "x <- m ;; k" := (bind m (fun x => k))
  (at level 100, m at next level, right associativity) : js_scope.
Notation "m ;;; k" := (bind m (fun _ => k))
  (at level 100, right associativity) : js_scope.

(** ** lib/api.ts *)

Module Api.

Definition fallback_base : string := "http://localhost:8000".

(** [const BASE = process.env.NEXT_PUBLIC_API_BASE_URL || "http://localhost:8000"] *)
Definition BASE (w : World) : string :=
  match NEXT_PUBLIC_API_BASE_URL w with
  | Some s => if String.eqb s "" then fallback_base else s
  | None => fallback_base
  end.

Record ApiError : Type := {
  message : value;
  requestId : option string;
  err_status : Z
}.

(** The object literal [{ message, requestId, status }]. *)
Definition ApiError_obj (e : ApiError) : value :=
  VObj [("message", message e);
        ("requestId", of_option_string (requestId e));
        ("status", VNum (inject_Z (err_status e)))].

Definition session_key : string := "session_token".

Definition getToken (w : World) : option string :=
  if window_defined w then localStorage w !! session_key else None.

Definition reference_error (name : string) : value :=
  VErr "ReferenceError" (name +:+ " is not defined").

(** Outside a browser [localStorage] is not defined and the first
    statement throws. *)
Definition setToken (token : string) : M World unit :=
  fun w =>
    if window_defined w then
      let w1 := set_localStorage (insert session_key token) w in
      (Ok tt, write_cookie ("session_token=" +:+ token +:+ "; path=/; SameSite=Lax") w1)
    else (Throw (reference_error "localStorage"), w).

Definition clearToken : M World unit :=
  fun w =>
    if window_defined w then
      let w1 := set_localStorage (delete session_key) w in
      (Ok tt, write_cookie "session_token=; path=/; expires=Thu, 01 Jan 1970 00:00:00 GMT" w1)
    else (Throw (reference_error "localStorage"), w).

(** [!!getToken()] *)
Definition hasToken (w : World) : bool :=
  truthy (of_option_string (getToken w)).

Record RequestInit : Type := {
  init_method : string;
  init_body : option value;
  init_headers : gmap string string
}.

Record Reply : Type := {
  data : value;
  reply_requestId : option string
}.

Definition lower_ascii (c : ascii) : ascii :=
  let n := N_of_ascii c in
  if ((65 <=? n) && (n <=? 90))%N then ascii_of_N (n + 32) else c.

Fixpoint lower (s : string) : string :=
  match s with
  | EmptyString => EmptyString
  | String c rest => String (lower_ascii c) (lower rest)
  end.

(** [Headers.get]: names compare without regard to case, the values of
    repeated lines are joined by a comma and a space. *)
Definition headers_get (h : list (string * string)) (name : string) : option string :=
  match List.filter (fun kv => String.eqb (lower (fst kv)) (lower name)) h with
  | [] => None
  | kvs => Some (String.concat ", " (List.map snd kvs))
  end.

(** [a || b] on the results of [Headers.get]. *)
Definition or_header (a b : option string) : option string :=
  if truthy (of_option_string a) then a else b.

(** [res.ok] *)
Definition ok (res : Response) : bool := (200 <=? status res) && (status res <=? 299).

Fixpoint includes_from (fuel : nat) (hay needle : string) : bool :=
  if String.prefix needle hay then true
  else match fuel, hay with
       | S fuel', String _ rest => includes_from fuel' rest needle
       | _, _ => false
       end.

(** [hay.includes(needle)] *)
Definition includes (hay needle : string) : bool :=
  includes_from (String.length hay) hay needle.

Definition request_failed (st : Z) : value :=
  VStr ("Request failed (" +:+ pretty st +:+ ")").

(** The [try] block of the error branch: [body.detail || body.message ||
    message], with [message] kept when [res.json()] rejects or a property
    read throws. *)
Definition error_message (res : Response) : value :=
  let message := request_failed (status res) in
  match body res with
  | None => message
  | Some b =>
      match get_prop b "detail" with
      | Throw _ => message
      | Ok d =>
          if truthy d then d
          else match get_prop b "message" with
               | Throw _ => message
               | Ok m => js_or m message
               end
      end
  end.

Definition request_headers (w : World) (opts : RequestInit) : gmap string string :=
  let headers := init_headers opts ∪ {["Content-Type" := "application/json"]} in
  match getToken w with
  | Some token =>
      if truthy (VStr token) then <["X-Session-Token" := token]> headers else headers
  | None => headers
  end.

Definition request (path : string) (opts : RequestInit) : M World Reply :=
  fun w =>
    let req := {| req_method := init_method opts;
                  req_url := BASE w +:+ path;
                  req_headers := request_headers w opts;
                  req_body := init_body opts |} in
    let w' := record_request req w in
    match server w (length (sent w)) with
    | NetworkFailure =>
        let hint :=
          if includes (BASE w) "localhost"
          then " Check that NEXT_PUBLIC_API_BASE_URL is set to your backend URL."
          else "" in
        (Throw (ApiError_obj {| message := VStr ("Cannot reach the server." +:+ hint);
                                requestId := None;
                                err_status := 0 |}), w')
    | Responded res =>
        let requestId :=
          or_header (headers_get (headers res) "x-request-id")
                    (headers_get (headers res) "X-Request-ID") in
        if negb (ok res) then
          (Throw (ApiError_obj {| message := error_message res;
                                  requestId := requestId;
                                  err_status := status res |}), w')
        else if status res =? 204 then
          (Ok {| data := VNull; reply_requestId := requestId |}, w')
        else
          match body res with
          | Some d => (Ok {| data := d; reply_requestId := requestId |}, w')
          | None => (Throw (VErr "SyntaxError" "Unexpected end of JSON input"), w')
          end
    end.

Definition with_body (method : string) (body : value) : RequestInit :=
  {| init_method := method;
     init_body := match body with VUndef => None | b => Some b end;
     init_headers := ∅ |}.

Definition get (path : string) : M World Reply :=
  request path {| init_method := "GET"; init_body := None; init_headers := ∅ |}.
Definition post (path : string) (body : value) : M World Reply :=
  request path (with_body "POST" body).
Definition put (path : string) (body : value) : M World Reply :=
  request path (with_body "PUT" body).
Definition patch (path : string) (body : value) : M World Reply :=
  request path (with_body "PATCH" body).
Definition delete (path : string) : M World Reply :=
  request path {| init_method := "DELETE"; init_body := None; init_headers := ∅ |}.

(** Raw fetch for file downloads: a network failure is not caught. *)
Definition raw (path : string) : M World Response :=
  fun w =>
    let headers : gmap string string :=
      match getToken w with
      | Some token => if truthy (VStr token) then {["X-Session-Token" := token]} else ∅
      | None => ∅
      end in
    let req := {| req_method := "GET"; req_url := BASE w +:+ path;
                  req_headers := headers; req_body := None |} in
    match server w (length (sent w)) with
    | NetworkFailure => (Throw (type_error "Failed to fetch"), record_request req w)
    | Responded res => (Ok res, record_request req w)
    end.

Definition isApiError (e : value) : bool :=
  String.eqb (typeof e) "object"
  && negb (match e with VNull => true | _ => false end)
  && has_in "message" e
  && has_in "status" e.

End Api.

(** ** lib/sample-transactions.ts *)

Module SampleTransactions.

Record Sample : Type := {
  raw_description : string;
  amount : Q;
  transaction_type : string;
  days_ago : Z
}.

Definition SAMPLE_TRANSACTIONS : list Sample :=
  [ {| raw_description := "PAYROLL EMPLOYER INC"; amount := 2500.0; transaction_type := "credit"; days_ago := 1 |};
    {| raw_description := "RENT PAYMENT FEB"; amount := 1100.0; transaction_type := "debit"; days_ago := 1 |};
    {| raw_description := "GROCERY MART"; amount := 85.5; transaction_type := "debit"; days_ago := 2 |};
    {| raw_description := "NETFLIX.COM"; amount := 15.99; transaction_type := "debit"; days_ago := 3 |};
    {| raw_description := "SPOTIFY USA"; amount := 11.99; transaction_type := "debit"; days_ago := 3 |};
    {| raw_description := "GAS STATION"; amount := 45.0; transaction_type := "debit"; days_ago := 4 |};
    {| raw_description := "PHARMACY CVS"; amount := 22.0; transaction_type := "debit"; days_ago := 5 |};
    {| raw_description := "COFFEE SHOP"; amount := 5.5; transaction_type := "debit"; days_ago := 5 |};
    {| raw_description := "ELECTRIC COMPANY"; amount := 95.0; transaction_type := "debit"; days_ago := 6 |};
    {| raw_description := "CELL PHONE BILL"; amount := 65.0; transaction_type := "debit"; days_ago := 7 |} ].

Record Payload : Type := {
  account_id : value;
  p_raw_description : string;
  p_amount : Q;
  p_transaction_type : string;
  transaction_date : string;
  currency : string
}.

(** [SAMPLE_TRANSACTIONS.map((t) => ...)]: the i-th callback makes its own
    [new Date()], moves it back [t.days_ago] days and prints it. *)
Definition buildTransactionPayload (w : World) (accountId : value) : list Payload :=
  imap (fun i t =>
          {| account_id := accountId;
             p_raw_description := raw_description t;
             p_amount := amount t;
             p_transaction_type := transaction_type t;
             transaction_date := date_iso w i (days_ago t);
             currency := "USD" |})
       SAMPLE_TRANSACTIONS.

(** The payload as the object literal that is sent. *)
Definition payload_obj (p : Payload) : value :=
  VObj [("account_id", account_id p);
        ("raw_description", VStr (p_raw_description p));
        ("amount", VNum (p_amount p));
        ("transaction_type", VStr (p_transaction_type p));
        ("transaction_date", VStr (transaction_date p));
        ("currency", VStr (currency p))].

End SampleTransactions.

(** ** app/onboarding/page.tsx *)

Module Onboarding.

Definition STEPS : list string := ["Consent"; "Account"; "Transactions"; "Goals"; "Top 3"].

(** The [useState] cells of [OnboardingPage].  [error], [requestId] and
    [accountId] receive values read from replies and thrown errors, and
    [step] one looked up under a name that a reply gives. *)
Record State : Type := {
  step : value;
  error : value;
  requestId : value;
  loading : bool;
  checking : bool;
  consentData : bool;
  consentTerms : bool;
  consentAi : bool;
  institution : string;
  acctName : string;
  balance : string;
  accountId : value;
  txnCount : Z;
  goalType : string;
  constraintLabel : string;
  constraints : list string;
  recs : list value
}.

Definition initial : State :=
  {| step := VNum 0; error := VStr ""; requestId := VNull; loading := false;
     checking := true; consentData := false; consentTerms := false;
     consentAi := false; institution := ""; acctName := ""; balance := "";
     accountId := VNull; txnCount := 0; goalType := "build_emergency_fund";
     constraintLabel := ""; constraints := []; recs := [] |}.

Definition setStep (x : value) (s : State) : State :=
  {| step := x; error := error s; requestId := requestId s;
     loading := loading s; checking := checking s;
     consentData := consentData s; consentTerms := consentTerms s;
     consentAi := consentAi s; institution := institution s;
     acctName := acctName s; balance := balance s; accountId := accountId s;
     txnCount := txnCount s; goalType := goalType s;
     constraintLabel := constraintLabel s; constraints := constraints s;
     recs := recs s |}.

Definition setError (x : value) (s : State) : State :=
  {| step := step s; error := x; requestId := requestId s;
     loading := loading s; checking := checking s;
     consentData := consentData s; consentTerms := consentTerms s;
     consentAi := consentAi s; institution := institution s;
     acctName := acctName s; balance := balance s; accountId := accountId s;
     txnCount := txnCount s; goalType := goalType s;
     constraintLabel := constraintLabel s; constraints := constraints s;
     recs := recs s |}.

Definition setRequestId (x : value) (s : State) : State :=
  {| step := step s; error := error s; requestId := x; loading := loading s;
     checking := checking s; consentData := consentData s;
     consentTerms := consentTerms s; consentAi := consentAi s;
     institution := institution s; acctName := acctName s;
     balance := balance s; accountId := accountId s; txnCount := txnCount s;
     goalType := goalType s; constraintLabel := constraintLabel s;
     constraints := constraints s; recs := recs s |}.

Definition setLoading (x : bool) (s : State) : State :=
  {| step := step s; error := error s; requestId := requestId s;
     loading := x; checking := checking s; consentData := consentData s;
     consentTerms := consentTerms s; consentAi := consentAi s;
     institution := institution s; acctName := acctName s;
     balance := balance s; accountId := accountId s; txnCount := txnCount s;
     goalType := goalType s; constraintLabel := constraintLabel s;
     constraints := constraints s; recs := recs s |}.

Definition setChecking (x : bool) (s : State) : State :=
  {| step := step s; error := error s; requestId := requestId s;
     loading := loading s; checking := x; consentData := consentData s;
     consentTerms := consentTerms s; consentAi := consentAi s;
     institution := institution s; acctName := acctName s;
     balance := balance s; accountId := accountId s; txnCount := txnCount s;
     goalType := goalType s; constraintLabel := constraintLabel s;
     constraints := constraints s; recs := recs s |}.

Definition setConsentData (x : bool) (s : State) : State :=
  {| step := step s; error := error s; requestId := requestId s;
     loading := loading s; checking := checking s; consentData := x;
     consentTerms := consentTerms s; consentAi := consentAi s;
     institution := institution s; acctName := acctName s;
     balance := balance s; accountId := accountId s; txnCount := txnCount s;
     goalType := goalType s; constraintLabel := constraintLabel s;
     constraints := constraints s; recs := recs s |}.

Definition setConsentTerms (x : bool) (s : State) : State :=
  {| step := step s; error := error s; requestId := requestId s;
     loading := loading s; checking := checking s;
     consentData := consentData s; consentTerms := x;
     consentAi := consentAi s; institution := institution s;
     acctName := acctName s; balance := balance s; accountId := accountId s;
     txnCount := txnCount s; goalType := goalType s;
     constraintLabel := constraintLabel s; constraints := constraints s;
     recs := recs s |}.

Definition setConsentAi (x : bool) (s : State) : State :=
  {| step := step s; error := error s; requestId := requestId s;
     loading := loading s; checking := checking s;
     consentData := consentData s; consentTerms := consentTerms s;
     consentAi := x; institution := institution s; acctName := acctName s;
     balance := balance s; accountId := accountId s; txnCount := txnCount s;
     goalType := goalType s; constraintLabel := constraintLabel s;
     constraints := constraints s; recs := recs s |}.

Definition setInstitution (x : string) (s : State) : State :=
  {| step := step s; error := error s; requestId := requestId s;
     loading := loading s; checking := checking s;
     consentData := consentData s; consentTerms := consentTerms s;
     consentAi := consentAi s; institution := x; acctName := acctName s;
     balance := balance s; accountId := accountId s; txnCount := txnCount s;
     goalType := goalType s; constraintLabel := constraintLabel s;
     constraints := constraints s; recs := recs s |}.

Definition setAcctName (x : string) (s : State) : State :=
  {| step := step s; error := error s; requestId := requestId s;
     loading := loading s; checking := checking s;
     consentData := consentData s; consentTerms := consentTerms s;
     consentAi := consentAi s; institution := institution s; acctName := x;
     balance := balance s; accountId := accountId s; txnCount := txnCount s;
     goalType := goalType s; constraintLabel := constraintLabel s;
     constraints := constraints s; recs := recs s |}.

Definition setBalance (x : string) (s : State) : State :=
  {| step := step s; error := error s; requestId := requestId s;
     loading := loading s; checking := checking s;
     consentData := consentData s; consentTerms := consentTerms s;
     consentAi := consentAi s; institution := institution s;
     acctName := acctName s; balance := x; accountId := accountId s;
     txnCount := txnCount s; goalType := goalType s;
     constraintLabel := constraintLabel s; constraints := constraints s;
     recs := recs s |}.

Definition setAccountId (x : value) (s : State) : State :=
  {| step := step s; error := error s; requestId := requestId s;
     loading := loading s; checking := checking s;
     consentData := consentData s; consentTerms := consentTerms s;
     consentAi := consentAi s; institution := institution s;
     acctName := acctName s; balance := balance s; accountId := x;
     txnCount := txnCount s; goalType := goalType s;
     constraintLabel := constraintLabel s; constraints := constraints s;
     recs := recs s |}.

Definition setTxnCount (x : Z) (s : State) : State :=
  {| step := step s; error := error s; requestId := requestId s;
     loading := loading s; checking := checking s;
     consentData := consentData s; consentTerms := consentTerms s;
     consentAi := consentAi s; institution := institution s;
     acctName := acctName s; balance := balance s; accountId := accountId s;
     txnCount := x; goalType := goalType s;
     constraintLabel := constraintLabel s; constraints := constraints s;
     recs := recs s |}.

Definition setGoalType (x : string) (s : State) : State :=
  {| step := step s; error := error s; requestId := requestId s;
     loading := loading s; checking := checking s;
     consentData := consentData s; consentTerms := consentTerms s;
     consentAi := consentAi s; institution := institution s;
     acctName := acctName s; balance := balance s; accountId := accountId s;
     txnCount := txnCount s; goalType := x;
     constraintLabel := constraintLabel s; constraints := constraints s;
     recs := recs s |}.

Definition setConstraintLabel (x : string) (s : State) : State :=
  {| step := step s; error := error s; requestId := requestId s;
     loading := loading s; checking := checking s;
     consentData := consentData s; consentTerms := consentTerms s;
     consentAi := consentAi s; institution := institution s;
     acctName := acctName s; balance := balance s; accountId := accountId s;
     txnCount := txnCount s; goalType := goalType s; constraintLabel := x;
     constraints := constraints s; recs := recs s |}.

Definition setConstraints (x : list string) (s : State) : State :=
  {| step := step s; error := error s; requestId := requestId s;
     loading := loading s; checking := checking s;
     consentData := consentData s; consentTerms := consentTerms s;
     consentAi := consentAi s; institution := institution s;
     acctName := acctName s; balance := balance s; accountId := accountId s;
     txnCount := txnCount s; goalType := goalType s;
     constraintLabel := constraintLabel s; constraints := x;
     recs := recs s |}.

Definition setRecs (x : list value) (s : State) : State :=
  {| step := step s; error := error s; requestId := requestId s;
     loading := loading s; checking := checking s;
     consentData := consentData s; consentTerms := consentTerms s;
     consentAi := consentAi s; institution := institution s;
     acctName := acctName s; balance := balance s; accountId := accountId s;
     txnCount := txnCount s; goalType := goalType s;
     constraintLabel := constraintLabel s; constraints := constraints s;
     recs := x |}.

Definition P (A : Type) : Type := M (State * World) A.

Definition clearError : P unit :=
  (set (setError (VStr "")) ;;; set (setRequestId VNull))%js.

Definition handleError (err : value) : P unit :=
  if Api.isApiError err then
    (m <- lift (get_prop err "message") ;;
     set (setError m) ;;;
     r <- lift (get_prop err "requestId") ;;
     set (setRequestId r))%js
  else set (setError (VStr "An unexpected error occurred")).

(** The frame shared by the step handlers:
    [clearError(); setLoading(true); try { ... } catch (err) {
    handleError(err); } finally { setLoading(false); }] *)
Definition submitting (try_block : P unit) : P unit :=
  (clearError ;;;
   set (setLoading true) ;;;
   try_finally (try_catch try_block handleError) (set (setLoading false)))%js.

Definition consent_body (consent_type : string) : value :=
  VObj [("consent_type", VStr consent_type)].

(** [if (c) await api.post(...)] *)
Definition when (c : bool) (m : P Api.Reply) : P unit :=
  if c then (m ;;; ret tt)%js else ret tt.

(** Step 0: Consent *)
Definition submitConsent_try (s : State) : P unit :=
  (when (consentData s) (api (Api.post "/consent/grant" (consent_body "data_access"))) ;;;
   when (consentTerms s) (api (Api.post "/consent/grant" (consent_body "terms_of_service"))) ;;;
   when (consentAi s) (api (Api.post "/consent/grant" (consent_body "ai_memory"))) ;;;
   api (Api.post "/onboarding/advance?step=consent" VUndef) ;;;
   set (setStep (VNum 1)))%js.

Definition submitConsent (s : State) : P unit := submitting (submitConsent_try s).

(** [parseFloat(balance) || 0] *)
Definition balance_number (w : World) (balance : string) : Q :=
  match parseFloat w balance with
  | Some q => if Qeq_bool q 0 then 0%Q else q
  | None => 0%Q
  end.

(** Step 1: Account *)
Definition submitAccount_try (s : State) : P unit :=
  (w <- world ;;
   r <- api (Api.post "/accounts/manual"
               (VObj [("account_type", VStr "checking");
                      ("institution_name", VStr (institution s));
                      ("account_name", VStr (acctName s));
                      ("current_balance", VNum (balance_number w (balance s)));
                      ("currency", VStr "USD")])) ;;
   id <- lift (get_prop (Api.data r) "id") ;;
   set (setAccountId id) ;;;
   api (Api.post "/onboarding/advance?step=account_link" VUndef) ;;;
   set (setStep (VNum 2)))%js.

Definition submitAccount (s : State) : P unit := submitting (submitAccount_try s).

Definition getFirstAccountId : P value :=
  try_catch
    (r <- api (Api.get "/accounts") ;;
     match Api.data r with
     | VArr (first :: _) =>
         id <- lift (get_prop first "id") ;;
         set (setAccountId id) ;;;
         ret id
     | _ => ret VNull
     end)%js
    (fun _ => ret VNull).

(** [for (const p of payloads) { await api.post("/transactions", p); count++; }] *)
Fixpoint post_each (payloads : list SampleTransactions.Payload) (count : Z) : P Z :=
  match payloads with
  | [] => ret count
  | p :: rest =>
      (api (Api.post "/transactions" (SampleTransactions.payload_obj p)) ;;;
       post_each rest (count + 1))%js
  end.

(** Step 2: Transactions *)
Definition addSampleTransactions_try (s : State) : P unit :=
  (aid <- (if truthy (accountId s) then ret (accountId s) else getFirstAccountId) ;;
   if negb (truthy aid) then
     set (setError (VStr "No account found")) ;;; set (setLoading false)
   else
     w <- world ;;
     count <- post_each (SampleTransactions.buildTransactionPayload w aid) 0 ;;
     set (setTxnCount count))%js.

Definition addSampleTransactions (s : State) : P unit :=
  submitting (addSampleTransactions_try s).

Definition submitTransactions_try (s : State) : P unit :=
  (api (Api.post "/recurring/detect" VUndef) ;;;
   api (Api.post "/forecast/compute" VUndef) ;;;
   set (setStep (VNum 3)))%js.

Definition submitTransactions (s : State) : P unit :=
  submitting (submitTransactions_try s).

(** Strings are held in UTF-8.  The white space and the line terminators
    that [trim] removes: U+0009 to U+000D and U+0020 of one byte; U+00A0 of
    two; U+1680, U+2000 to U+200A, U+2028, U+2029, U+202F, U+205F, U+3000
    and U+FEFF of three.  [white_space l] is the number of bytes of the
    one that [l] starts with, 0 when it starts with none. *)
Definition white_space (l : list N) : nat :=
  match l with
  | a :: rest =>
      if ((a =? 32) || ((9 <=? a) && (a <=? 13)))%N then 1%nat
      else
        match rest with
        | b :: rest' =>
            if ((a =? 194) && (b =? 160))%N then 2%nat
            else
              match rest' with
              | c :: _ =>
                  if ((a =? 225) && (b =? 154) && (c =? 128))
                     || ((a =? 226) && (b =? 128)
                         && (((128 <=? c) && (c <=? 138)) || (c =? 168)
                             || (c =? 169) || (c =? 175)))
                     || ((a =? 226) && (b =? 129) && (c =? 159))
                     || ((a =? 227) && (b =? 128) && (c =? 128))
                     || ((a =? 239) && (b =? 187) && (c =? 191))
                  then 3%nat else 0%nat
              | [] => 0%nat
              end
        | [] => 0%nat
        end
  | [] => 0%nat
  end%N.

(** The same read backwards, for the end of a string. *)
Definition white_space_back (l : list N) : nat :=
  match l with
  | c :: rest =>
      if Nat.eqb (white_space [c]) 1 then 1%nat
      else
        match rest with
        | b :: rest' =>
            if Nat.eqb (white_space [b; c]) 2 then 2%nat
            else
              match rest' with
              | a :: _ => if Nat.eqb (white_space [a; b; c]) 3 then 3%nat else 0%nat
              | [] => 0%nat
              end
        | [] => 0%nat
        end
  | [] => 0%nat
  end.

Fixpoint strip (fuel : nat) (leading : list N -> nat) (l : list N) : list N :=
  match fuel with
  | O => l
  | S fuel' =>
      match leading l with
      | O => l
      | n => strip fuel' leading (skipn n l)
      end
  end.

Definition bytes (s : string) : list N := List.map N_of_ascii (list_ascii_of_string s).

Definition of_bytes (l : list N) : string := string_of_list_ascii (List.map ascii_of_N l).

(** [s.trim()] *)
Definition trim (s : string) : string :=
  let l := strip (String.length s) white_space (bytes s) in
  of_bytes (rev (strip (String.length s) white_space_back (rev l))).

(** [s.replace(/_/g, " ")] *)
Fixpoint replace_underscores (s : string) : string :=
  match s with
  | String c rest =>
      String (if Ascii.eqb c "_" then " "%char else c) (replace_underscores rest)
  | EmptyString => EmptyString
  end.

(** Step 3: Goals.  The list written is that of the render the handler
    was started from, [s], with the label added. *)
Definition addConstraint (s : State) : P unit :=
  if negb (truthy (VStr (trim (constraintLabel s)))) then ret tt
  else
    (clearError ;;;
     try_catch
       (api (Api.post "/goals/constraints"
               (VObj [("constraint_type", VStr "essential");
                      ("label", VStr (trim (constraintLabel s)))])) ;;;
        set (setConstraints (constraints s ++ [trim (constraintLabel s)])) ;;;
        set (setConstraintLabel ""))
       handleError)%js.

Definition submitGoals_try (s : State) : P unit :=
  (api (Api.post "/goals"
          (VObj [("goal_type", VStr (goalType s));
                 ("title", VStr (replace_underscores (goalType s)));
                 ("priority", VStr "high")])) ;;;
   api (Api.post "/onboarding/advance?step=goals" VUndef) ;;;
   r <- api (Api.post "/cheat-codes/top-3" VUndef) ;;
   set (setRecs (match Api.data r with VArr xs => xs | _ => [] end)) ;;;
   api (Api.post "/onboarding/advance?step=top_3" VUndef) ;;;
   set (setStep (VNum 4)))%js.

Definition submitGoals (s : State) : P unit := submitting (submitGoals_try s).

(** Step 4: Top 3, start a run *)
Definition startRun_try (recId : value) : P unit :=
  (r <- api (Api.post "/cheat-codes/runs" (VObj [("recommendation_id", recId)])) ;;
   id <- lift (get_prop (Api.data r) "id") ;;
   router (PushRun id))%js.

Definition startRun (recId : value) : P unit := submitting (startRun_try recId).

(** [s === k] for a string constant [k] *)
Definition is_str (v : value) (k : string) : bool :=
  match v with VStr s => String.eqb s k | _ => false end.

(** [step === k] *)
Definition at_step (s : State) (k : Z) : bool :=
  match step s with
  | VNum q => Qeq_bool q (inject_Z k)
  | _ => false
  end.

(** The [map] of the mount effect, from the step names of the server to
    the wizard's indices. *)
Definition map : gmap string Z :=
  list_to_map [("consent", 0); ("account_link", 1); ("goals", 2);
               ("top_3", 3); ("first_win", 4)].

(** [s in map]: [map] has the key of [s] as a property of its own, or
    inherits it. *)
Definition in_map (w : World) (s : value) : result bool :=
  match property_key s with
  | Throw e => Throw e
  | Ok None => Ok false
  | Ok (Some name) =>
      Ok (bool_decide (is_Some (map !! name))
          || bool_decide (is_Some (Object_prototype w name)))
  end.

(** [setStep(map[s] || 0)]: an index of [map], 0 where there is none, or
    what the setter makes of an inherited property. *)
Definition setStep_of_map (w : World) (s : value) : P unit :=
  (name <- lift (property_key s) ;;
   match name with
   | Some name =>
       match map !! name with
       | Some n => set (setStep (js_or (VNum (inject_Z n)) (VNum 0)))
       | None =>
           match Object_prototype w name with
           | Some f => set (fun st => setStep (f (step st)) st)
           | None => set (setStep (VNum 0))
           end
       end
   | None => set (setStep (VNum 0))
   end)%js.

(** The effect run on mount. *)
Definition mount : P unit :=
  (w <- world ;;
   if negb (Api.hasToken w) then router (Replace "/login")
   else
     try_finally
       (try_catch
          (r <- api (Api.get "/onboarding/state") ;;
           s <- lift (get_prop (Api.data r) "current_step") ;;
           if is_str s "completed" then router (Replace "/home")
           else
             fw <- lift (get_prop (Api.data r) "first_win_completed_at") ;;
             if truthy fw then router (Replace "/home")
             else
               known <- lift (in_map w s) ;;
               if known then
                 if is_str s "account_link" then set (setStep (VNum 2))
                 else if is_str s "goals" then set (setStep (VNum 3))
                 else if is_str s "top_3" || is_str s "first_win"
                 then set (setStep (VNum 4))
                 else setStep_of_map w s
               else ret tt)
          (fun _ => ret tt))
       (set (setChecking false)))%js.

(** What the user can do on the rendered page. *)
Inductive Action : Type :=
| CheckConsentData (checked : bool)
| CheckConsentTerms (checked : bool)
| CheckConsentAi (checked : bool)
| TypeInstitution (text : string)
| TypeAcctName (text : string)
| TypeBalance (text : string)
| SelectGoalType (option_value : string)
| TypeConstraintLabel (text : string)
| ClickAddSample
| ClickAddConstraint
| ClickStart (card : nat)
| ClickContinue.

(** [!s] for a string *)
Definition empty (s : string) : bool := String.eqb s "".

(** The controls the render function shows for the state, with their
    [disabled] attributes; an action on a control that is not shown or is
    disabled does nothing. *)
Definition handle (a : Action) (s : State) : P unit :=
  if checking s then ret tt
  else
    match a with
    | CheckConsentData b => if at_step s 0 then set (setConsentData b) else ret tt
    | CheckConsentTerms b => if at_step s 0 then set (setConsentTerms b) else ret tt
    | CheckConsentAi b => if at_step s 0 then set (setConsentAi b) else ret tt
    | TypeInstitution t => if at_step s 1 then set (setInstitution t) else ret tt
    | TypeAcctName t => if at_step s 1 then set (setAcctName t) else ret tt
    | TypeBalance t => if at_step s 1 then set (setBalance t) else ret tt
    | SelectGoalType v => if at_step s 3 then set (setGoalType v) else ret tt
    | TypeConstraintLabel t => if at_step s 3 then set (setConstraintLabel t) else ret tt
    | ClickAddSample =>
        if (at_step s 2) && negb (loading s) then addSampleTransactions s else ret tt
    | ClickAddConstraint => if at_step s 3 then addConstraint s else ret tt
    | ClickStart card =>
        if (at_step s 4) && negb (loading s) then
          match recs s !! card with
          | Some rec =>
              match get_prop rec "id" with
              | Ok id => startRun id
              | Throw _ => ret tt
              end
          | None => ret tt
          end
        else ret tt
    | ClickContinue =>
        if at_step s 0 then
          if negb (consentData s) || negb (consentTerms s) || loading s then ret tt
          else submitConsent s
        else if at_step s 1 then
          if empty (institution s) || empty (acctName s) || loading s then ret tt
          else submitAccount s
        else if at_step s 2 then
          if (txnCount s =? 0) || loading s then ret tt else submitTransactions s
        else if at_step s 3 then
          if loading s then ret tt else submitGoals s
        else ret tt
    end.

(** One user action, made when no handler is under way: the handler sees
    the state of the last render and has returned before the next action.
    A handler started while an earlier one awaits a reply runs on the
    render of its own click; [addConstraint], whose button is never
    disabled, is the one that can. *)
Definition act (a : Action) (st : State * World) : State * World :=
  snd (handle a (fst st) st).

Definition run (actions : list Action) (st : State * World) : State * World :=
  fold_left (fun st a => act a st) actions st.

End Onboarding.

(** ** app/home/page.tsx *)

Module Home.

Record State : Type := {
  forecast : value;
  recs : list value;
  showAssumptions : bool;
  error : value;
  requestId : value;
  loading : bool
}.

Definition initial : State :=
  {| forecast := VNull; recs := []; showAssumptions := false;
     error := VStr ""; requestId := VNull; loading := true |}.

Definition setForecast (x : value) (s : State) : State :=
  {| forecast := x; recs := recs s; showAssumptions := showAssumptions s;
     error := error s; requestId := requestId s; loading := loading s |}.

Definition setRecs (x : list value) (s : State) : State :=
  {| forecast := forecast s; recs := x; showAssumptions := showAssumptions s;
     error := error s; requestId := requestId s; loading := loading s |}.

Definition setShowAssumptions (x : bool) (s : State) : State :=
  {| forecast := forecast s; recs := recs s; showAssumptions := x;
     error := error s; requestId := requestId s; loading := loading s |}.

Definition setError (x : value) (s : State) : State :=
  {| forecast := forecast s; recs := recs s;
     showAssumptions := showAssumptions s; error := x;
     requestId := requestId s; loading := loading s |}.

Definition setRequestId (x : value) (s : State) : State :=
  {| forecast := forecast s; recs := recs s;
     showAssumptions := showAssumptions s; error := error s; requestId := x;
     loading := loading s |}.

Definition setLoading (x : bool) (s : State) : State :=
  {| forecast := forecast s; recs := recs s;
     showAssumptions := showAssumptions s; error := error s;
     requestId := requestId s; loading := x |}.

Definition P (A : Type) : Type := M (State * World) A.

(** [v === n] for a number constant [n] *)
Definition is_num (v : value) (n : Z) : bool :=
  match v with VNum q => Qeq_bool q (inject_Z n) | _ => false end.

(** The [catch] of [checkOnboardingAndLoad]. *)
Definition on_error (err : value) : P unit :=
  if Api.isApiError err then
    (st <- lift (get_prop err "status") ;;
     if is_num st 401 then router (Replace "/login")
     else
       m <- lift (get_prop err "message") ;;
       set (setError m) ;;;
       r <- lift (get_prop err "requestId") ;;
       set (setRequestId r))%js
  else ret tt.

Definition loadForecast : P unit :=
  try_catch
    (r <- api (Api.get "/forecast/latest") ;; set (setForecast (Api.data r)))%js
    (fun _ => ret tt).

Definition loadRecs : P unit :=
  try_catch
    (r <- api (Api.get "/cheat-codes/recommendations") ;;
     set (setRecs (match Api.data r with VArr xs => xs | _ => [] end)))%js
    (fun _ => ret tt).

Definition checkOnboardingAndLoad : P unit :=
  try_finally
    (try_catch
       (r <- api (Api.get "/onboarding/state") ;;
        let state := Api.data r in
        fw <- lift (get_prop state "first_win_completed_at") ;;
        gate <- (if truthy fw then ret false
                 else
                   cs <- lift (get_prop state "current_step") ;;
                   ret (negb (Onboarding.is_str cs "completed"))) ;;
        if (gate : bool) then router (Replace "/onboarding")
        else (loadForecast ;;; loadRecs))%js
       on_error)
    (set (setLoading false)).

(** The effect run on every load of the page. *)
Definition mount : P unit :=
  (w <- world ;;
   if negb (Api.hasToken w) then router (Replace "/login")
   else checkOnboardingAndLoad)%js.

End Home.

(** ** app/cheat/run/[runId]/page.tsx *)

Module RunPage.

Record State : Type := {
  run : value;
  title : value;
  firstWin : bool;
  error : value;
  requestId : value;
  loading : bool;
  completing : bool
}.

Definition initial : State :=
  {| run := VNull; title := VStr "Cheat Code Run"; firstWin := false;
     error := VStr ""; requestId := VNull; loading := true;
     completing := false |}.

Definition setRun (x : value) (s : State) : State :=
  {| run := x; title := title s; firstWin := firstWin s; error := error s;
     requestId := requestId s; loading := loading s;
     completing := completing s |}.

Definition setTitle (x : value) (s : State) : State :=
  {| run := run s; title := x; firstWin := firstWin s; error := error s;
     requestId := requestId s; loading := loading s;
     completing := completing s |}.

Definition setFirstWin (x : bool) (s : State) : State :=
  {| run := run s; title := title s; firstWin := x; error := error s;
     requestId := requestId s; loading := loading s;
     completing := completing s |}.

Definition setError (x : value) (s : State) : State :=
  {| run := run s; title := title s; firstWin := firstWin s; error := x;
     requestId := requestId s; loading := loading s;
     completing := completing s |}.

Definition setRequestId (x : value) (s : State) : State :=
  {| run := run s; title := title s; firstWin := firstWin s;
     error := error s; requestId := x; loading := loading s;
     completing := completing s |}.

Definition setLoading (x : bool) (s : State) : State :=
  {| run := run s; title := title s; firstWin := firstWin s;
     error := error s; requestId := requestId s; loading := x;
     completing := completing s |}.

Definition setCompleting (x : bool) (s : State) : State :=
  {| run := run s; title := title s; firstWin := firstWin s;
     error := error s; requestId := requestId s; loading := loading s;
     completing := x |}.

Definition P (A : Type) : Type := M (State * World) A.

Definition on_error (err : value) : P unit :=
  if Api.isApiError err then
    (m <- lift (get_prop err "message") ;;
     set (setError m) ;;;
     r <- lift (get_prop err "requestId") ;;
     set (setRequestId r))%js
  else ret tt.

Definition run_path (runId : string) : string := "/cheat-codes/runs/" +:+ runId.

(** [data.cheat_code?.title] *)
Definition cheat_code_title (data : value) : result value :=
  match get_prop data "cheat_code" with
  | Throw e => Throw e
  | Ok VUndef | Ok VNull => Ok VUndef
  | Ok cc => get_prop cc "title"
  end.

Definition loadRun (runId : string) : P unit :=
  try_finally
    (try_catch
       (r <- api (Api.get (run_path runId)) ;;
        set (setRun (Api.data r)) ;;;
        t <- lift (cheat_code_title (Api.data r)) ;;
        if truthy t then set (setTitle t) else ret tt)%js
       on_error)
    (set (setLoading false)).

Definition mount (runId : string) : P unit :=
  (w <- world ;;
   if negb (Api.hasToken w) then router (Replace "/login")
   else loadRun runId)%js.

Definition complete_path (runId : string) : string :=
  run_path runId +:+ "/steps/complete".

Definition completeStep1_try (runId : string) : P unit :=
  (api (Api.post (complete_path runId)
          (VObj [("step_number", VNum 1); ("notes", VStr "Completed step 1")])) ;;;
   (** advance onboarding first_win; it may already be advanced *)
   try_catch (api (Api.post "/onboarding/advance?step=first_win" VUndef) ;;; ret tt)
             (fun _ => ret tt) ;;;
   set (setFirstWin true) ;;;
   r <- api (Api.get (run_path runId)) ;;
   set (setRun (Api.data r)))%js.

Definition completeStep1 (runId : string) : P unit :=
  (set (setError (VStr "")) ;;;
   set (setRequestId VNull) ;;;
   set (setCompleting true) ;;;
   try_finally (try_catch (completeStep1_try runId) on_error)
               (set (setCompleting false)))%js.

(** The button "Complete step 1" is shown when
    [run.completed_steps === 0 && !firstWin], inside [run && ...]. *)
Definition complete_enabled (s : State) : bool :=
  negb (loading s) && truthy (run s)
  && match get_prop (run s) "completed_steps" with
     | Ok n => Home.is_num n 0
     | Throw _ => false
     end
  && negb (firstWin s) && negb (completing s).

Definition clickComplete (runId : string) (st : State * World) : State * World :=
  if complete_enabled (fst st) then snd (completeStep1 runId st) else st.

End RunPage.

(** ** middleware.ts *)

Module Middleware.

Record NextRequest : Type := {
  (** scheme and host of [request.url] *)
  origin : string;
  (** the segments of the path of [request.url] *)
  pathname : list string;
  cookies : gmap string string
}.

Inductive NextResponse : Type :=
| redirect (url : string)
| next.

(** [request.cookies.get(name)]: the cookie or [undefined] *)
Definition cookies_get (request : NextRequest) (name : string) : value :=
  match cookies request !! name with
  | Some v => VObj [("name", VStr name); ("value", VStr v)]
  | None => VUndef
  end.

Definition middleware (request : NextRequest) : NextResponse :=
  let token := cookies_get request "session_token" in
  if negb (truthy token) then redirect (origin request +:+ "/login")
  else next.

(** A matcher source: fixed segments, then [:path*] or nothing. *)
Record Matcher : Type := {
  segments : list string;
  path_star : bool
}.

(** [config.matcher] *)
Definition matcher : list Matcher :=
  [ {| segments := ["home"]; path_star := false |};
    {| segments := ["settings"]; path_star := false |};
    {| segments := ["onboarding"]; path_star := false |};
    {| segments := ["cheat"]; path_star := true |} ].

Fixpoint is_prefix (p l : list string) : option (list string) :=
  match p, l with
  | [], rest => Some rest
  | x :: p', y :: l' => if String.eqb x y then is_prefix p' l' else None
  | _ :: _, [] => None
  end.

Definition matches (path : list string) (m : Matcher) : bool :=
  match is_prefix (segments m) path with
  | Some [] => true
  | Some (_ :: _) => path_star m
  | None => false
  end.

(** The framework runs the middleware on the paths of [config.matcher]
    and lets the other requests through.  A matcher source is read as the
    page path it names.  The pattern the framework compiles from it also
    accepts the data request of such a page (under /_next/data/<build>,
    with the suffix .json) and a closing slash: of those nothing is said
    here. *)
Definition serve (request : NextRequest) : NextResponse :=
  if existsb (matches (pathname request)) matcher then middleware request else next.

End Middleware.

(** ** The Top 3 ranking rule (backend) *)

Module Ranking.

Inductive Confidence : Type := low | medium | high.

Record Candidate : Type := {
  id : string;
  confidence : Confidence;
  is_quick_win : bool;
  (** the already-computed rank score *)
  score : Z;
  urgency_score : Z
}.

Definition is_low (c : Candidate) : bool :=
  match confidence c with low => true | _ => false end.

Section TopThree.

(** The order of the ranking; any key will do, also one that grows with
    the urgency score. *)
Variable key : Candidate -> Z.

(** Modelled from the spec: the sort of "filter-then-sort", by insertion. *)
Fixpoint insert_ranked (c : Candidate) (ranked : list Candidate) : list Candidate :=
  match ranked with
  | [] => [c]
  | d :: rest =>
      if key d <? key c then c :: d :: rest
      else d :: insert_ranked c rest
  end.

(** Modelled from the spec: the ranking of the candidates, highest key
    first, equal keys in the order of arrival. *)
Definition rank (cs : list Candidate) : list Candidate :=
  fold_left (fun ranked c => insert_ranked c ranked) cs [].

(** Modelled from the spec: "guarantee >=1 quick-win in the final three".
    The spec names the guarantee and not the way it is kept; this is one
    way that stays within "filter-then-sort": when the three picked hold no
    quick win and a later candidate is one, the best ranked of those takes
    the last place.  It picks among the ranked candidates only, which is
    all that is used of it. *)
Definition ensure_quick_win (picked rest : list Candidate) : list Candidate :=
  if existsb is_quick_win picked then picked
  else match find is_quick_win rest with
       | Some q => removelast picked ++ [q]
       | None => picked
       end.

(** Modelled from the spec: the backend service that computes the Top 3 is
    not part of the sources at hand.  The spec gives the rule: "drop
    low-confidence candidates before ranking, guarantee >=1 quick-win in
    the final three, urgency score must never promote a low-confidence
    candidate", "a filter-then-sort over a small, already-computed
    candidate list", of which "at most three" are kept.  The spec names
    the quick-win guarantee but not its mechanism: see
    [ensure_quick_win]. *)
Definition top_3 (candidates : list Candidate) : list Candidate :=
  let ranked := rank (List.filter (fun c => negb (is_low c)) candidates) in
  ensure_quick_win (firstn 3 ranked) (skipn 3 ranked).

End TopThree.

(** A key that adds the urgency score to the rank score. *)
Definition urgent_key (c : Candidate) : Z := score c + urgency_score c.

End Ranking.

(** ** components/ErrorBox.tsx *)

Module ErrorBoxView.

(** What the component renders: the message, and the request id when
    there is one. *)
Record Box : Type := {
  box_message : value;
  box_requestId : option value
}.

(** [if (!message) return null], then the box, with the request id line
    under [requestId && ...]. *)
Definition ErrorBox (message requestId : value) : option Box :=
  if negb (truthy message) then None
  else Some {| box_message := message;
               box_requestId := if truthy requestId then Some requestId else None |}.

End ErrorBoxView.

(** ** app/page.tsx *)

Module Root.

(** The effect of [RootPage]: [router.replace(hasToken() ? "/home" : "/login")] *)
Definition mount : M (unit * World) unit :=
  (w <- world ;;
   router (Replace (if Api.hasToken w then "/home" else "/login")))%js.

End Root.

(** ** app/settings/page.tsx *)

Module Settings.

Record State : Type := {
  error : value;
  requestId : value;
  exporting : bool;
  exportUrl : option string;
  deleting : bool;
  confirmDelete : bool
}.

Definition initial : State :=
  {| error := VStr ""; requestId := VNull; exporting := false;
     exportUrl := None; deleting := false; confirmDelete := false |}.

Definition setError (x : value) (s : State) : State :=
  {| error := x; requestId := requestId s; exporting := exporting s;
     exportUrl := exportUrl s; deleting := deleting s;
     confirmDelete := confirmDelete s |}.

Definition setRequestId (x : value) (s : State) : State :=
  {| error := error s; requestId := x; exporting := exporting s;
     exportUrl := exportUrl s; deleting := deleting s;
     confirmDelete := confirmDelete s |}.

Definition setExporting (x : bool) (s : State) : State :=
  {| error := error s; requestId := requestId s; exporting := x;
     exportUrl := exportUrl s; deleting := deleting s;
     confirmDelete := confirmDelete s |}.

Definition setExportUrl (x : option string) (s : State) : State :=
  {| error := error s; requestId := requestId s; exporting := exporting s;
     exportUrl := x; deleting := deleting s;
     confirmDelete := confirmDelete s |}.

Definition setDeleting (x : bool) (s : State) : State :=
  {| error := error s; requestId := requestId s; exporting := exporting s;
     exportUrl := exportUrl s; deleting := x;
     confirmDelete := confirmDelete s |}.

Definition setConfirmDelete (x : bool) (s : State) : State :=
  {| error := error s; requestId := requestId s; exporting := exporting s;
     exportUrl := exportUrl s; deleting := deleting s; confirmDelete := x |}.

Definition P (A : Type) : Type := M (State * World) A.

(** The effect run on mount. *)
Definition mount : P unit :=
  (w <- world ;;
   if negb (Api.hasToken w) then router (Replace "/login") else ret tt)%js.

(** The [catch] of [handleDelete]. *)
Definition on_delete_error (err : value) : P unit :=
  if Api.isApiError err then
    (m <- lift (get_prop err "message") ;;
     set (setError m) ;;;
     r <- lift (get_prop err "requestId") ;;
     set (setRequestId r))%js
  else set (setError (VStr "Delete failed")).

Definition handleDelete_try : P unit :=
  (api (Api.delete "/user/delete") ;;;
   api Api.clearToken ;;;
   router (Push "/login"))%js.

Definition handleDelete : P unit :=
  (set (setError (VStr "")) ;;;
   set (setRequestId VNull) ;;;
   set (setDeleting true) ;;;
   try_finally (try_catch handleDelete_try on_delete_error)
               (set (setDeleting false)))%js.

(** The buttons of the danger zone. *)
Inductive Action : Type :=
| ClickDelete
| ClickCancel
| ClickConfirmDelete.

(** "Delete account" is shown until it is clicked; then "Confirm delete",
    disabled while deleting, and "Cancel". *)
Definition handle (a : Action) (s : State) : P unit :=
  match a with
  | ClickDelete =>
      if negb (confirmDelete s) then set (setConfirmDelete true) else ret tt
  | ClickCancel =>
      if confirmDelete s then set (setConfirmDelete false) else ret tt
  | ClickConfirmDelete =>
      if confirmDelete s && negb (deleting s) then handleDelete else ret tt
  end.

Definition act (a : Action) (st : State * World) : State * World :=
  snd (handle a (fst st) st).

Definition run (actions : list Action) (st : State * World) : State * World :=
  fold_left (fun st a => act a st) actions st.

End Settings.

(** ** app/register/page.tsx *)

Module Register.

Record State : Type := {
  email : string;
  password : string;
  error : value;
  requestId : value;
  loading : bool
}.

Definition initial : State :=
  {| email := ""; password := ""; error := VStr ""; requestId := VNull;
     loading := false |}.

Definition setEmail (x : string) (s : State) : State :=
  {| email := x; password := password s; error := error s;
     requestId := requestId s; loading := loading s |}.

Definition setPassword (x : string) (s : State) : State :=
  {| email := email s; password := x; error := error s;
     requestId := requestId s; loading := loading s |}.

Definition setError (x : value) (s : State) : State :=
  {| email := email s; password := password s; error := x;
     requestId := requestId s; loading := loading s |}.

Definition setRequestId (x : value) (s : State) : State :=
  {| email := email s; password := password s; error := error s;
     requestId := x; loading := loading s |}.

Definition setLoading (x : bool) (s : State) : State :=
  {| email := email s; password := password s; error := error s;
     requestId := requestId s; loading := x |}.

Definition P (A : Type) : Type := M (State * World) A.


(** The [catch] of [handleSubmit]; [err instanceof Error] holds of the
    native errors. *)
Definition on_error (err : value) : P unit :=
  if Api.isApiError err then
    (m <- lift (get_prop err "message") ;;
     set (setError m) ;;;
     r <- lift (get_prop err "requestId") ;;
     set (setRequestId r))%js
  else
    set (setError (match err with
                   | VErr _ message => VStr message
                   | _ => VStr "An unexpected error occurred"
                   end)).

Section Submit.

(** The string a value is stored as: [setToken] hands its argument to
    [localStorage.setItem] and to a template string. *)
Variable ToString : value -> string.



End Submit.

End Register.

(** * Specifications and sample inputs *)

(** [respects R m]: whatever [m] returns or throws, the state it leaves is
    related by [R] to the state it started from. *)
Definition respects {S A} (R : relation S) (m : M S A) : Prop :=
  forall s, R s (snd (m s)).

Module ApiSpec.
Import Api.

(** What [res.json()] can resolve to: neither [undefined] nor an error
    object. *)
Definition parsed_json (b : value) : bool :=
  match b with
  | VUndef | VErr _ _ => false
  | _ => true
  end.

(** The message as the contract words it: the envelope's [detail], failing
    that the body's [message], failing that the default. *)
Definition envelope_message (res : Response) : value :=
  match body res with
  | Some (VObj envelope) =>
      if truthy (field "detail" envelope) then field "detail" envelope
      else if truthy (field "message" envelope) then field "message" envelope
      else request_failed (status res)
  | _ => request_failed (status res)
  end.

(** What objects inherit in the sample worlds, by the twelve names of
    [Object.prototype].  Called on no object, [toString] names the class of
    [undefined] and [isPrototypeOf] answers false for a state that is no
    object; [constructor] wraps the state in an object and [__proto__] is
    an object itself, each shown as an object without entries; the other
    eight throw for want of a [this], and [undefined] stands for the page
    that is taken down. *)
Definition inherited (name : string) : option (value -> value) :=
  if String.eqb name "toString" then Some (fun _ => VStr "[object Undefined]")
  else if String.eqb name "isPrototypeOf" then Some (fun _ => VBool false)
  else if String.eqb name "constructor" || String.eqb name "__proto__"
  then Some (fun _ => VObj [])
  else if existsb (String.eqb name)
            ["toLocaleString"; "valueOf"; "hasOwnProperty";
             "propertyIsEnumerable"; "__defineGetter__"; "__defineSetter__";
             "__lookupGetter__"; "__lookupSetter__"]
  then Some (fun _ => VUndef)
  else None.

(** Sample worlds: a browser with a stored token whose backend always
    gives the same outcome. *)
Definition browser (outcome : FetchOutcome) : World :=
  {| window_defined := true;
     localStorage := {[ session_key := "f3a9" ]};
     cookie_writes := [];
     NEXT_PUBLIC_API_BASE_URL := Some "https://api.example.test";
     server := fun _ => outcome;
     sent := [];
     navigations := [];
     date_iso := fun _ _ => "2026-02-10T00:00:00.000Z";
     parseFloat := fun _ => None;
     Object_prototype := inherited |}.

Definition unprocessable : Response :=
  {| status := 422;
     headers := [("X-Request-Id", "req-7")];
     body := Some (VObj [("error", VStr "validation_error");
                         ("status_code", VNum 422);
                         ("detail", VStr "amount must be positive");
                         ("request_id", VStr "req-7")]) |}.

(** A 200 response whose body is not JSON. *)
Definition not_json : Response :=
  {| status := 200; headers := [("x-request-id", "req-8")]; body := None |}.

End ApiSpec.

Module RankingSpec.
Import Ranking.

Definition candidate (i : string) (c : Confidence) (q : bool) (s u : Z) : Candidate :=
  {| id := i; confidence := c; is_quick_win := q; score := s; urgency_score := u |}.

End RankingSpec.

Module MiddlewareSpec.
Import Middleware.

Definition visit (path : list string) (jar : gmap string string) : NextRequest :=
  {| origin := "https://finitii.example.test"; pathname := path; cookies := jar |}.

End MiddlewareSpec.

Module OnboardingSpec.
Import Onboarding.

(** The step index is left as it was. *)
Definition same_step : relation (State * World) :=
  fun st st' => step (fst st') = step (fst st).

(** [advances k m]: when [m] completes the step index is [k], when it
    throws the index is as it was. *)
Definition advances {A} (k : Z) (m : P A) : Prop :=
  forall st,
    match m st with
    | (Ok _, st') => step (fst st') = VNum (inject_Z k)
    | (Throw _, st') => step (fst st') = step (fst st)
    end.

(** The state in which the [try] block of a handler starts. *)
Definition started (s : State) : State :=
  setLoading true (setRequestId VNull (setError (VStr "") s)).

(** The [try] block behind the Continue button, when the button is shown
    and enabled. *)
Definition continue_try (s : State) : option (P unit) :=
  if checking s || loading s then None
  else if at_step s 0 then
    if consentData s && consentTerms s then Some (submitConsent_try s) else None
  else if at_step s 1 then
    if empty (institution s) || empty (acctName s) then None
    else Some (submitAccount_try s)
  else if at_step s 2 then
    if txnCount s =? 0 then None else Some (submitTransactions_try s)
  else if at_step s 3 then Some (submitGoals_try s)
  else None.

(** What the step cell can hold once the page has loaded: one of the five
    indices, or what the setter made of a property that [map] inherits. *)
Definition entered (proto : string -> option (value -> value)) (v : value) : Prop :=
  (exists k, 0 <= k <= 4 /\ v = VNum (inject_Z k))
  \/ (exists name f old, proto name = Some f /\ v = f old).

Definition ends_with (s suffix : string) : bool :=
  (String.length suffix <=? String.length s)%nat
  && String.eqb (substring (String.length s - String.length suffix)
                           (String.length suffix) s)
                suffix.

(** The body of the request names the given consent type. *)
Definition carries (consent_type : string) (r : Request) : bool :=
  match req_body r with
  | Some (VObj fields) => is_str (field "consent_type" fields) consent_type
  | _ => false
  end.

(** The request is a POST to /consent/grant for the given consent type. *)
Definition grants (consent_type : string) (r : Request) : bool :=
  String.eqb (req_method r) "POST"
  && ends_with (req_url r) "/consent/grant"
  && carries consent_type r.

(** AI-memory consent stays unchecked if it was, and no request sent in
    between names it. *)
Definition quiet : relation (State * World) :=
  fun st st' =>
    (consentAi (fst st) = false -> consentAi (fst st') = false)
    /\ exists new, sent (snd st') = sent (snd st) ++ new
                   /\ forallb (fun r => negb (carries "ai_memory" r)) new = true.

(** A new user whose backend accepts every call. *)
Definition accepting : World :=
  ApiSpec.browser
    (Responded {| status := 200;
                  headers := [("x-request-id", "req-1")];
                  body := Some (VObj [("id", VStr "0b1e");
                                      ("current_step", VStr "consent");
                                      ("first_win_completed_at", VNull)]) |}).

(** U+00A0 in UTF-8. *)
Definition no_break_space : string :=
  String (ascii_of_N 194) (String (ascii_of_N 160) EmptyString).

(** A user whose onboarding state names the given step. *)
Definition resuming (current_step : value) : World :=
  ApiSpec.browser
    (Responded {| status := 200;
                  headers := [("x-request-id", "req-6")];
                  body := Some (VObj [("current_step", current_step);
                                      ("first_win_completed_at", VNull)]) |}).

End OnboardingSpec.

Module HomeSpec.

(** What [completeStep1] posts first. *)
Definition completion (runId : string) : M World Api.Reply :=
  Api.post (RunPage.complete_path runId)
    (VObj [("step_number", VNum 1); ("notes", VStr "Completed step 1")]).

(** The [catch] of the run page touches neither the banner flag nor the
    world. *)
Definition settled : relation (RunPage.State * World) :=
  fun st st' =>
    RunPage.firstWin (fst st') = RunPage.firstWin (fst st) /\ snd st' = snd st.

(** A signed-in user at the goals step, whose backend answers every call
    with that onboarding state. *)
Definition at_goals : Response :=
  {| status := 200;
     headers := [("x-request-id", "req-2")];
     body := Some (VObj [("current_step", VStr "goals");
                         ("first_win_completed_at", VNull)]) |}.

End HomeSpec.

Module MoreSpec.

(** [throws_only Q m]: whatever [m] throws satisfies [Q]. *)
Definition throws_only {S A} (Q : value -> Prop) (m : M S A) : Prop :=
  forall s e s', m s = (Throw e, s') -> Q e.

(** A thrown value whose report by the pages' [catch] is a message that is
    not empty: either no [ApiError], or one with a truthy [message]. *)
Definition displayable (e : value) : Prop :=
  Api.isApiError e = true ->
  exists fields, e = VObj fields /\ truthy (field "message" fields) = true.

(** The wizard is not busy afterwards if it was not before. *)
Definition idle : relation (Onboarding.State * World) :=
  fun st st' =>
    Onboarding.loading (fst st) = false -> Onboarding.loading (fst st') = false.


(** The constraints and the transaction count of the wizard are left
    alone. *)
Definition same_lists : relation (Onboarding.State * World) :=
  fun st st' =>
    Onboarding.constraints (fst st') = Onboarding.constraints (fst st)
    /\ Onboarding.txnCount (fst st') = Onboarding.txnCount (fst st).

(** The onboarding state of a user who has reached First Win. *)
Definition after_first_win : Response :=
  {| status := 200;
     headers := [("x-request-id", "req-3")];
     body := Some (VObj [("current_step", VStr "first_win");
                         ("first_win_completed_at", VStr "2026-02-10T09:00:00Z")]) |}.



(** The refusal of a session that is no longer valid. *)
Definition unauthorized : Response :=
  {| status := 401;
     headers := [("x-request-id", "req-4")];
     body := Some (VObj [("error", VStr "unauthorized");
                         ("status_code", VNum 401);
                         ("detail", VStr "Invalid or expired session");
                         ("request_id", VStr "req-4")]) |}.

(** A signed-in browser whose backend refuses every call. *)
Definition failing : World :=
  ApiSpec.browser
    (Responded {| status := 500;
                  headers := [("x-request-id", "req-9")];
                  body := Some (VObj [("error", VStr "internal_error");
                                      ("status_code", VNum 500);
                                      ("detail", VStr "Internal server error");
                                      ("request_id", VStr "req-9")]) |}).

Definition is_push_run (n : Navigation) : bool :=
  match n with PushRun _ => true | _ => false end.

(** The only navigations added are pushes of a run page. *)
Definition to_runs_only : relation (Onboarding.State * World) :=
  fun st st' =>
    exists new, navigations (snd st') = navigations (snd st) ++ new
                /\ forallb is_push_run new = true.

(** The world with another list of requests handed to [fetch]. *)
Definition with_sent (requests : list Request) (w : World) : World :=
  {| window_defined := window_defined w; localStorage := localStorage w;
     cookie_writes := cookie_writes w;
     NEXT_PUBLIC_API_BASE_URL := NEXT_PUBLIC_API_BASE_URL w;
     server := server w; sent := requests; navigations := navigations w;
     date_iso := date_iso w; parseFloat := parseFloat w;
     Object_prototype := Object_prototype w |}.

(** The n-th call of [fetch] is answered by a reply that [request]
    returns: a 2xx status, with JSON in the body unless the status is 204. *)
Definition accepted (w : World) (n : nat) : Prop :=
  exists res,
    server w n = Responded res
    /\ 200 <= status res <= 299
    /\ (status res = 204 \/ body res <> None).

(** The request that posts one sample transaction. *)
Definition txn_request (w : World) (p : SampleTransactions.Payload) : Request :=
  {| req_method := "POST";
     req_url := Api.BASE w +:+ "/transactions";
     req_headers := Api.request_headers w (Api.with_body "POST" VNull);
     req_body := Some (SampleTransactions.payload_obj p) |}.

End MoreSpec.

(** * Properties *)

(** ** The Top 3 ranking rule *)

Module RankingFacts.
Import Ranking RankingSpec.

Section TopThree.

Variable key : Candidate -> Z.

Lemma In_insert_ranked c x ranked :
  In x (insert_ranked key c ranked) <-> x = c \/ In x ranked.
Proof.
  induction ranked as [|d rest IH]; simpl.
  - intuition.
  - destruct (key d <? key c); simpl; [intuition|].
    rewrite IH. intuition.
Qed.

Lemma In_fold_insert cs : forall acc x,
  In x (fold_left (fun ranked c => insert_ranked key c ranked) cs acc)
  <-> In x cs \/ In x acc.
Proof.
  induction cs as [|c cs IH]; intros acc x; simpl.
  - intuition.
  - rewrite IH, In_insert_ranked. intuition.
Qed.

(** Ranking neither adds nor loses a candidate. *)
Lemma In_rank cs x : In x (rank key cs) <-> In x cs.
Proof. unfold rank. rewrite In_fold_insert. simpl. intuition. Qed.

Lemma In_removelast {A} (l : list A) x : In x (removelast l) -> In x l.
Proof.
  induction l as [|a l IH]; simpl; [tauto|].
  destruct l as [|b l]; simpl in *; [tauto|]. intuition.
Qed.

Lemma In_ensure_quick_win picked rest x :
  In x (ensure_quick_win picked rest) -> In x picked \/ In x rest.
Proof.
  unfold ensure_quick_win.
  destruct (existsb is_quick_win picked); [auto|].
  destruct (find is_quick_win rest) as [q|] eqn:Hq; [|auto].
  rewrite List.in_app_iff. simpl. intros [H|[<-|[]]].
  - left. now apply In_removelast.
  - right. now apply List.find_some in Hq.
Qed.

Lemma In_top_3 candidates x :
  In x (top_3 key candidates) -> In x candidates /\ is_low x = false.
Proof.
  unfold top_3. intros H.
  apply In_ensure_quick_win in H.
  rewrite <- List.in_app_iff, List.firstn_skipn, In_rank, List.filter_In in H.
  destruct H as [H1 H2]. split; [exact H1|]. now destruct (is_low x).
Qed.

Lemma length_top_3 candidates : (length (top_3 key candidates) <= 3)%nat.
Proof.
  unfold top_3, ensure_quick_win.
  set (ranked := rank key _).
  assert (Hf : (length (firstn 3 ranked) <= 3)%nat) by apply List.firstn_le_length.
  destruct (existsb is_quick_win (firstn 3 ranked)); [exact Hf|].
  destruct (find is_quick_win (skipn 3 ranked)) as [q|] eqn:Hq; [|exact Hf].
  rewrite List.length_app. simpl.
  destruct ranked as [|a [|b [|c r]]]; simpl in *; try discriminate; lia.
Qed.

(** C1.  For every ranking key, also one driven by the urgency score, and
    every candidate list, no item of the Top 3 has confidence low: the
    low-confidence candidates are dropped before ranking and nothing puts
    one back. *)
Theorem top_3_never_low (candidates : list Candidate) :
  forallb (fun c => negb (is_low c)) (top_3 key candidates) = true
  /\ incl (top_3 key candidates) (List.filter (fun c => negb (is_low c)) candidates)
  /\ (length (top_3 key candidates) <= 3)%nat.
Proof.
  split; [|split].
  - apply forallb_forall. intros x Hx.
    apply In_top_3 in Hx as [_ ->]. reflexivity.
  - intros x Hx. apply In_top_3 in Hx as [Hin Hlow].
    apply List.filter_In. now rewrite Hlow.
  - apply length_top_3.
Qed.

End TopThree.

(** A low-confidence candidate with the highest urgency stays out. *)
Example top_3_sample :
  List.map id
    (top_3 urgent_key
       [candidate "a" low true 5 100; candidate "b" medium false 7 0;
        candidate "c" high false 3 0; candidate "d" high false 9 1;
        candidate "e" medium true 1 0; candidate "f" high false 7 0])
  = ["d"; "b"; "e"].
Proof. reflexivity. Qed.

End RankingFacts.

(** ** The API client *)

Module ApiFacts.
Import Api ApiSpec.

Lemma error_message_envelope res :
  (forall b, body res = Some b -> parsed_json b = true) ->
  error_message res = envelope_message res.
Proof.
  intros Hjson. unfold error_message, envelope_message.
  destruct (body res) as [b|]; [|reflexivity].
  specialize (Hjson b eq_refl).
  destruct b; simpl in *; try reflexivity; discriminate.
Qed.

(** Header names compare without regard to case: both spellings read the
    same header. *)
Lemma headers_get_request_id h :
  headers_get h "X-Request-ID" = headers_get h "x-request-id".
Proof. reflexivity. Qed.

Lemma or_header_same a : or_header a a = a.
Proof. unfold or_header. now destruct (truthy _). Qed.

Lemma headers_get_absent h name :
  (forall kv, In kv h -> lower (fst kv) <> lower name) ->
  headers_get h name = None.
Proof.
  intros Habs. unfold headers_get.
  replace (List.filter _ h) with (@nil (string * string)); [reflexivity|].
  symmetry. induction h as [|kv h IH]; [reflexivity|]. simpl.
  destruct (String.eqb_spec (lower (fst kv)) (lower name)) as [E|_].
  - exfalso. apply (Habs kv); simpl; auto.
  - apply IH. intros kv' Hin. apply Habs. simpl; auto.
Qed.

Lemma ok_iff res : ok res = true <-> 200 <= status res <= 299.
Proof. unfold ok. rewrite andb_true_iff, !Z.leb_le. tauto. Qed.

(** Every call hands exactly one request to [fetch]. *)
Lemma request_sent path opts w :
  sent (snd (request path opts w))
  = sent w ++ [ {| req_method := init_method opts;
                   req_url := BASE w +:+ path;
                   req_headers := request_headers w opts;
                   req_body := init_body opts |} ].
Proof.
  unfold request.
  destruct (server w (length (sent w))) as [|res]; [reflexivity|].
  destruct (negb (ok res)); [reflexivity|].
  destruct (status res =? 204); [reflexivity|].
  destruct (body res); reflexivity.
Qed.

Lemma request_world path opts w :
  snd (request path opts w)
  = record_request {| req_method := init_method opts;
                      req_url := BASE w +:+ path;
                      req_headers := request_headers w opts;
                      req_body := init_body opts |} w.
Proof.
  unfold request.
  destruct (server w (length (sent w))) as [|res]; [reflexivity|].
  destruct (negb (ok res)); [reflexivity|].
  destruct (status res =? 204); [reflexivity|].
  destruct (body res); reflexivity.
Qed.

(** C4, as amended.  For a response with a status outside 200..299 the
    request throws the object [{ message, requestId, status }] whose
    [status] is the response's status code, whose [requestId] is the
    request-ID header, read under either spelling and null when absent, and
    whose [message] is the envelope's [detail], else the body's [message],
    else "Request failed (<status>)", the last also when there is no JSON
    body.  For a 204 response, and for any other 2xx response whose body
    parses as JSON, nothing is thrown: the reply carries null, respectively
    the parsed body, and the request id. *)
Theorem request_response_contract (path : string) (opts : RequestInit)
    (w : World) (res : Response) :
  server w (length (sent w)) = Responded res ->
  (forall b, body res = Some b -> parsed_json b = true) ->
  headers_get (headers res) "X-Request-ID" = headers_get (headers res) "x-request-id"
  /\ ((forall kv, In kv (headers res) -> lower (fst kv) <> "x-request-id") ->
      headers_get (headers res) "x-request-id" = None)
  /\ (status res < 200 \/ 299 < status res ->
      fst (request path opts w)
      = Throw (VObj [("message", envelope_message res);
                     ("requestId",
                      of_option_string (headers_get (headers res) "x-request-id"));
                     ("status", VNum (inject_Z (status res)))])
      /\ (body res = None -> envelope_message res = request_failed (status res)))
  /\ (status res = 204 ->
      fst (request path opts w)
      = Ok {| data := VNull;
              reply_requestId := headers_get (headers res) "x-request-id" |})
  /\ (200 <= status res <= 299 -> status res <> 204 ->
      forall d, body res = Some d ->
      fst (request path opts w)
      = Ok {| data := d;
              reply_requestId := headers_get (headers res) "x-request-id" |}).
Proof.
  intros Hres Hjson.
  split; [apply headers_get_request_id|].
  split; [intros Habs; now apply headers_get_absent|].
  unfold request. rewrite Hres.
  rewrite headers_get_request_id, or_header_same.
  split; [|split].
  - intros Hst.
    assert (Hok : ok res = false).
    { destruct (ok res) eqn:E; [|reflexivity]. apply ok_iff in E. lia. }
    rewrite Hok. simpl. rewrite error_message_envelope by exact Hjson.
    split; [reflexivity|].
    intros Hb. unfold envelope_message. now rewrite Hb.
  - intros Hst.
    assert (Hok : ok res = true) by (apply ok_iff; lia).
    rewrite Hok. simpl. rewrite Hst. reflexivity.
  - intros Hst Hne d Hd.
    assert (Hok : ok res = true) by (now apply ok_iff).
    rewrite Hok. simpl.
    destruct (Z.eqb_spec (status res) 204) as [E|_]; [contradiction|].
    now rewrite Hd.
Qed.

Lemma request_response_contract_witness :
  fst (request "/transactions" (with_body "POST" VNull) (browser (Responded unprocessable)))
  = Throw (VObj [("message", VStr "amount must be positive");
                 ("requestId", VStr "req-7");
                 ("status", VNum (inject_Z 422))]).
Proof.
  refine (proj1 (proj1 (proj2 (proj2
    (request_response_contract "/transactions" (with_body "POST" VNull)
       (browser (Responded unprocessable)) unprocessable eq_refl _))) _)).
  - intros b Hb. injection Hb as <-. reflexivity.
  - right. reflexivity.
Defined.

(** C4 as stated fails on a 2xx response: the status is 200 and the
    request throws. *)
Lemma request_2xx_throws :
  ok not_json = true
  /\ fst (get "/user/export" (browser (Responded not_json)))
     = Throw (VErr "SyntaxError" "Unexpected end of JSON input").
Proof. split; reflexivity. Qed.

(** The two handled failures throw objects that [isApiError] accepts. *)
Lemma network_failure_is_ApiError path opts w :
  server w (length (sent w)) = NetworkFailure ->
  exists e, fst (request path opts w) = Throw e
            /\ isApiError e = true
            /\ get_prop e "status" = Ok (VNum (inject_Z 0))
            /\ get_prop e "requestId" = Ok VNull.
Proof.
  intros H. unfold request. rewrite H. eexists. split; [reflexivity|].
  repeat split.
Qed.

Lemma error_response_is_ApiError path opts w res :
  server w (length (sent w)) = Responded res ->
  ok res = false ->
  exists e, fst (request path opts w) = Throw e /\ isApiError e = true.
Proof.
  intros H Hok. unfold request. rewrite H, Hok. simpl.
  eexists. split; reflexivity.
Qed.

Lemma isApiError_fields fields :
  is_Some (assoc "message" fields) ->
  is_Some (assoc "status" fields) ->
  isApiError (VObj fields) = true.
Proof.
  intros Hm Hs. unfold isApiError. simpl.
  now rewrite !bool_decide_eq_true_2.
Qed.

(** C8 on the code: a 200 response whose body is not JSON makes the
    request throw the parse error of [res.json()], which has no [status]
    and which [isApiError] rejects. *)
Theorem request_throws_other_than_ApiError :
  exists e,
    fst (get "/onboarding/state" (browser (Responded not_json))) = Throw e
    /\ has_in "status" e = false
    /\ isApiError e = false.
Proof. eexists. repeat split. Qed.

(** C10.  In a browser, for a token that is not the empty string: after
    [setToken(t)], [hasToken()] is true and [getToken()] is [t]; after
    [clearToken()], [hasToken()] is false and the next request, whose
    options bring no session header of their own (none of the client's
    calls does), is sent without [X-Session-Token]. *)
Theorem token_round_trip (t : string) (w : World) (path : string) (opts : RequestInit) :
  window_defined w = true ->
  t <> "" ->
  init_headers opts !! "X-Session-Token" = None ->
  fst (setToken t w) = Ok tt
  /\ hasToken (snd (setToken t w)) = true
  /\ getToken (snd (setToken t w)) = Some t
  /\ fst (clearToken (snd (setToken t w))) = Ok tt
  /\ hasToken (snd (clearToken (snd (setToken t w)))) = false
  /\ exists r,
       sent (snd (request path opts (snd (clearToken (snd (setToken t w))))))
       = sent w ++ [r]
       /\ req_headers r !! "X-Session-Token" = None.
Proof.
  intros Hwin Ht Hopts.
  unfold setToken, clearToken. rewrite Hwin. simpl. rewrite Hwin. simpl.
  assert (Hget : forall w', window_defined w' = true ->
            localStorage w' = <[session_key := t]> (localStorage w) ->
            getToken w' = Some t).
  { intros w' Hw' Hls. unfold getToken. rewrite Hw', Hls. apply lookup_insert_eq. }
  split; [reflexivity|].
  split.
  { unfold hasToken. erewrite Hget; [|exact Hwin|reflexivity]. simpl.
    destruct (String.eqb_spec t ""); [contradiction|reflexivity]. }
  split; [apply Hget; [exact Hwin|reflexivity]|].
  split; [reflexivity|].
  assert (Hnone : forall w', window_defined w' = true ->
            localStorage w' = base.delete session_key (<[session_key := t]> (localStorage w)) ->
            getToken w' = None).
  { intros w' Hw' Hls. unfold getToken. rewrite Hw', Hls. apply lookup_delete_eq. }
  split.
  { unfold hasToken. erewrite Hnone; [reflexivity|exact Hwin|reflexivity]. }
  eexists. rewrite request_sent. split; [reflexivity|].
  simpl. unfold request_headers. erewrite Hnone; [|exact Hwin|reflexivity].
  rewrite lookup_union, Hopts. rewrite lookup_singleton_ne; [reflexivity|discriminate].
Qed.

(** The calls of the [api] object bring no headers of their own. *)
Lemma api_calls_bring_no_headers method body :
  init_headers (with_body method body) = ∅
  /\ forall w path r,
       (last (sent (snd (get path w))) = Some r
        \/ last (sent (snd (post path body w))) = Some r
        \/ last (sent (snd (put path body w))) = Some r
        \/ last (sent (snd (patch path body w))) = Some r
        \/ last (sent (snd (delete path w))) = Some r) ->
       req_headers r = request_headers w (with_body method body).
Proof.
  split; [reflexivity|].
  intros w path r. unfold get, post, put, patch, delete.
  rewrite !request_sent, !last_snoc.
  intros [H|[H|[H|[H|H]]]]; injection H as <-; reflexivity.
Qed.

Lemma token_round_trip_witness :
  hasToken (snd (setToken "9c41" (browser NetworkFailure))) = true
  /\ hasToken (snd (clearToken (snd (setToken "9c41" (browser NetworkFailure))))) = false.
Proof.
  pose proof (token_round_trip "9c41" (browser NetworkFailure) "/accounts"
                (with_body "POST" VUndef) eq_refl) as H.
  destruct H as (_ & H1 & _ & _ & H2 & _).
  - discriminate.
  - reflexivity.
  - split; [exact H1 | exact H2].
Defined.

End ApiFacts.

(** ** The sample transactions *)

Module SampleFacts.
Import SampleTransactions.

(** C9.  For every account id the payload list has ten entries, one per
    sample in the same order; each carries the given account id, the
    currency USD, and the sample's description, amount and type
    unchanged. *)
Theorem buildTransactionPayload_copies (w : World) (accountId : value) :
  length (buildTransactionPayload w accountId) = 10%nat
  /\ length SAMPLE_TRANSACTIONS = 10%nat
  /\ List.map (fun p => (account_id p, currency p,
                         p_raw_description p, p_amount p, p_transaction_type p))
              (buildTransactionPayload w accountId)
     = List.map (fun t => (accountId, "USD",
                           raw_description t, amount t, transaction_type t))
                SAMPLE_TRANSACTIONS.
Proof. repeat split. Qed.

(** The same, entry by entry. *)
Lemma buildTransactionPayload_lookup w accountId i t :
  SAMPLE_TRANSACTIONS !! i = Some t ->
  buildTransactionPayload w accountId !! i
  = Some {| account_id := accountId;
            p_raw_description := raw_description t;
            p_amount := amount t;
            p_transaction_type := transaction_type t;
            transaction_date := date_iso w i (days_ago t);
            currency := "USD" |}.
Proof.
  intros H. unfold buildTransactionPayload.
  rewrite list_lookup_imap, H. reflexivity.
Qed.

End SampleFacts.

(** ** The middleware *)

Module MiddlewareFacts.
Import Middleware MiddlewareSpec.

Lemma matches_cheat rest :
  matches ("cheat" :: rest) {| segments := ["cheat"]; path_star := true |} = true.
Proof. unfold matches. simpl. now destruct rest. Qed.

(** C7.  On /home, /settings, /onboarding and every path under /cheat, a
    request without the session_token cookie is answered by a redirect to
    /login, and a request with the cookie goes on unchanged. *)
Theorem unauthenticated_is_redirected (request : NextRequest) :
  (pathname request = ["home"] \/ pathname request = ["settings"]
   \/ pathname request = ["onboarding"]
   \/ exists rest, pathname request = "cheat" :: rest) ->
  (cookies request !! "session_token" = None ->
   serve request = redirect (origin request +:+ "/login"))
  /\ (is_Some (cookies request !! "session_token") -> serve request = next).
Proof.
  intros Hpath.
  assert (Hm : existsb (matches (pathname request)) matcher = true).
  { destruct Hpath as [-> | [-> | [-> | [rest ->]]]]; try reflexivity.
    apply existsb_exists.
    exists {| segments := ["cheat"]; path_star := true |}.
    split; [simpl; tauto | apply matches_cheat]. }
  unfold serve. rewrite Hm. unfold middleware, cookies_get.
  split.
  - intros ->. reflexivity.
  - intros [v ->]. reflexivity.
Qed.

Lemma unauthenticated_is_redirected_witness :
  serve (visit ["cheat"; "run"; "41"] ∅)
  = redirect "https://finitii.example.test/login"
  /\ serve (visit ["home"] {[ "session_token" := "f3a9" ]}) = next.
Proof.
  split.
  - refine (proj1 (unauthenticated_is_redirected (visit ["cheat"; "run"; "41"] ∅) _) _).
    + right; right; right. exists ["run"; "41"]. reflexivity.
    + reflexivity.
  - refine (proj2 (unauthenticated_is_redirected
                     (visit ["home"] {[ "session_token" := "f3a9" ]}) _) _).
    + left. reflexivity.
    + exists "f3a9". reflexivity.
Defined.

(** Other paths are not guarded by the middleware. *)
Example login_not_guarded : serve (visit ["login"] ∅) = next.
Proof. reflexivity. Qed.

End MiddlewareFacts.

(** ** Reasoning about page computations *)

Section Respects.

Context {S : Type} (R : relation S) (HR : PreOrder R).

Lemma respects_ret {A} (a : A) : respects R (ret a).
Proof. intros s. simpl. reflexivity. Qed.

Lemma respects_throw {A} e : respects R (@throw S A e).
Proof. intros s. simpl. reflexivity. Qed.

Lemma respects_lift {A} (r : result A) : respects R (lift r).
Proof. intros s. simpl. reflexivity. Qed.

Lemma respects_bind {A B} (m : M S A) (k : A -> M S B) :
  respects R m -> (forall a, respects R (k a)) -> respects R (bind m k).
Proof.
  intros Hm Hk s. unfold bind. specialize (Hm s).
  destruct (m s) as [[a|e] s1]; simpl in *; [|exact Hm].
  etransitivity; [exact Hm | apply Hk].
Qed.

Lemma respects_try_catch {A} (m : M S A) (h : value -> M S A) :
  respects R m -> (forall e, respects R (h e)) -> respects R (try_catch m h).
Proof.
  intros Hm Hh s. unfold try_catch. specialize (Hm s).
  destruct (m s) as [[a|e] s1]; simpl in *; [exact Hm|].
  etransitivity; [exact Hm | apply Hh].
Qed.

Lemma respects_try_finally {A} (m : M S A) (f : M S unit) :
  respects R m -> respects R f -> respects R (try_finally m f).
Proof.
  intros Hm Hf s. unfold try_finally. specialize (Hm s).
  destruct (m s) as [r s1]. specialize (Hf s1).
  destruct (f s1) as [[u|e] s2]; simpl in *; etransitivity; eauto.
Qed.

End Respects.

Lemma respects_world {S} (R : relation (S * World)) (HR : PreOrder R) :
  respects R (@world S).
Proof. intros st. simpl. reflexivity. Qed.

(** Takes a computation apart along its control structure; [leaf] settles
    the calls of the client, the setters and the router. *)
Ltac respects_with HR leaf :=
  repeat first
    [ apply (respects_ret _ HR)
    | apply (respects_throw _ HR)
    | apply (respects_lift _ HR)
    | apply (respects_world _ HR)
    | apply (respects_bind _ HR); [|intros ?]
    | apply (respects_try_catch _ HR); [|intros ?]
    | apply (respects_try_finally _ HR)
    | progress leaf
    | match goal with
      | |- respects _ (if ?c then _ else _) => destruct c
      | |- respects _ (match ?x with _ => _ end) => destruct x
      end ].

Lemma respects_set {S} (R : relation (S * World)) (f : S -> S) :
  (forall s w, R (s, w) (f s, w)) -> respects R (set f).
Proof. intros H [s w]. apply H. Qed.

Lemma respects_router {S} (R : relation (S * World)) (n : Navigation) :
  (forall s w, R (s, w) (s, navigate n w)) -> respects R (@router S n).
Proof. intros H [s w]. apply H. Qed.

Lemma respects_api {S A} (R : relation (S * World)) (m : M World A) :
  (forall s w, R (s, w) (s, snd (m w))) -> respects R (@api S A m).
Proof.
  intros H [s w]. unfold api. simpl. specialize (H s w).
  now destruct (m w).
Qed.

(** ** The onboarding wizard *)

Module OnboardingFacts.
Import Onboarding OnboardingSpec.

(** *** The step index *)

Lemma same_step_preorder : PreOrder same_step.
Proof.
  split.
  - intros st. reflexivity.
  - intros a b c Hab Hbc. unfold same_step in *. congruence.
Qed.

Ltac same_step_leaf :=
  first [ apply respects_api; intros; reflexivity
        | apply respects_set; intros; reflexivity
        | apply respects_router; intros; reflexivity ].

Ltac keeps_step := respects_with same_step_preorder same_step_leaf.

Lemma handleError_same_step err : respects same_step (handleError err).
Proof. unfold handleError. keeps_step. Qed.

Lemma getFirstAccountId_same_step : respects same_step getFirstAccountId.
Proof. unfold getFirstAccountId. keeps_step. Qed.

Lemma post_each_same_step payloads : forall count,
  respects same_step (post_each payloads count).
Proof.
  induction payloads as [|p rest IH]; intros count; simpl.
  - keeps_step.
  - keeps_step. apply IH.
Qed.

Lemma submitting_same_step t :
  respects same_step t -> respects same_step (submitting t).
Proof.
  intros Ht. unfold submitting, clearError. keeps_step.
  - exact Ht.
  - apply handleError_same_step.
Qed.

Lemma addSampleTransactions_same_step s : respects same_step (addSampleTransactions s).
Proof.
  apply submitting_same_step. unfold addSampleTransactions_try. keeps_step.
  all: first [apply post_each_same_step | apply getFirstAccountId_same_step].
Qed.

Lemma addConstraint_same_step s : respects same_step (addConstraint s).
Proof.
  unfold addConstraint, clearError. keeps_step. apply handleError_same_step.
Qed.

Lemma startRun_same_step recId : respects same_step (startRun recId).
Proof. apply submitting_same_step. unfold startRun_try. keeps_step. Qed.

Lemma advances_setStep k : advances k (set (setStep (VNum (inject_Z k)))).
Proof. intros st. reflexivity. Qed.

Lemma advances_bind {A B} k (m : P A) (f : A -> P B) :
  respects same_step m -> (forall a, advances k (f a)) -> advances k (bind m f).
Proof.
  intros Hm Hf st. unfold bind. specialize (Hm st). unfold same_step in Hm.
  destruct (m st) as [[a|e] st1]; simpl in *; [|exact Hm].
  specialize (Hf a st1). destruct (f a st1) as [[b|e] st2]; simpl in *; congruence.
Qed.

Ltac advances_tac :=
  repeat (apply advances_bind; [keeps_step | intros ?]);
  try (exact (advances_setStep _)).

Lemma submitConsent_try_advances s : advances 1 (submitConsent_try s).
Proof. unfold submitConsent_try, when. advances_tac. Qed.

Lemma submitAccount_try_advances s : advances 2 (submitAccount_try s).
Proof. unfold submitAccount_try. advances_tac. Qed.

Lemma submitTransactions_try_advances s : advances 3 (submitTransactions_try s).
Proof. unfold submitTransactions_try. advances_tac. Qed.

Lemma submitGoals_try_advances s : advances 4 (submitGoals_try s).
Proof. unfold submitGoals_try. advances_tac. Qed.

Lemma handle_continue s :
  handle ClickContinue s
  = match continue_try s with
    | Some t => submitting t
    | None => ret tt
    end.
Proof.
  unfold handle, continue_try.
  destruct (checking s), (loading s), (at_step s 0), (at_step s 1),
    (at_step s 2), (at_step s 3), (consentData s), (consentTerms s),
    (empty (institution s)), (empty (acctName s)), (txnCount s =? 0);
    reflexivity.
Qed.

(** The cell answers to one panel at most. *)
Lemma at_step_inj s k k' : at_step s k = true -> at_step s k' = true -> k = k'.
Proof.
  unfold at_step. destruct (step s); try discriminate.
  intros H1 H2. apply Qeq_bool_iff in H1, H2. rewrite H1 in H2.
  unfold Qeq in H2. simpl in H2. lia.
Qed.

Lemma at_step_index s k k' :
  step s = VNum (inject_Z k) -> at_step s k' = true -> k' = k.
Proof.
  unfold at_step. intros ->. rewrite Qeq_bool_iff. unfold Qeq. simpl. lia.
Qed.

Lemma at_step_same s s' k : step s' = step s -> at_step s' k = at_step s k.
Proof. unfold at_step. now intros ->. Qed.

Lemma continue_try_advances s t :
  continue_try s = Some t ->
  exists k, at_step s k = true /\ 0 <= k <= 3 /\ advances (k + 1) t.
Proof.
  unfold continue_try.
  destruct (checking s || loading s); [discriminate|].
  destruct (at_step s 0) eqn:H0.
  { destruct (consentData s && consentTerms s); [|discriminate].
    intros [= <-]. exists 0.
    split; [exact H0|]. split; [lia | apply submitConsent_try_advances]. }
  destruct (at_step s 1) eqn:H1.
  { destruct (empty (institution s) || empty (acctName s)); [discriminate|].
    intros [= <-]. exists 1.
    split; [exact H1|]. split; [lia | apply submitAccount_try_advances]. }
  destruct (at_step s 2) eqn:H2.
  { destruct (txnCount s =? 0); [discriminate|].
    intros [= <-]. exists 2.
    split; [exact H2|]. split; [lia | apply submitTransactions_try_advances]. }
  destruct (at_step s 3) eqn:H3; [|discriminate].
  intros [= <-]. exists 3.
  split; [exact H3|]. split; [lia | apply submitGoals_try_advances].
Qed.

Lemma submitting_step k t s w :
  advances k t ->
  step (fst (snd (submitting t (s, w))))
  = match fst (t (started s, w)) with
    | Ok _ => VNum (inject_Z k)
    | Throw _ => step s
    end.
Proof.
  intros Ht. specialize (Ht (started s, w)).
  unfold submitting, clearError, bind, set, try_finally, try_catch. simpl.
  fold (started s).
  destruct (t (started s, w)) as [[u|e] st1]; simpl in *; [exact Ht|].
  pose proof (handleError_same_step e st1) as He. unfold same_step in He.
  destruct (handleError e st1) as [[u|e'] st2]; simpl in *; congruence.
Qed.

Lemma handle_other_same_step a s :
  a <> ClickContinue -> respects same_step (handle a s).
Proof.
  intros Ha. unfold handle.
  destruct a; try contradiction; keeps_step.
  all: first [ apply handleError_same_step
             | apply addSampleTransactions_same_step
             | apply addConstraint_same_step
             | apply startRun_same_step ].
Qed.

Lemma act_continue s w t :
  continue_try s = Some t ->
  exists k,
    at_step s k = true /\ 0 <= k <= 3
    /\ step (fst (act ClickContinue (s, w)))
       = match fst (t (started s, w)) with
         | Ok _ => VNum (inject_Z (k + 1))
         | Throw _ => step s
         end.
Proof.
  intros Ht. destruct (continue_try_advances s t Ht) as (k & Hk & Hr & Hadv).
  exists k. split; [exact Hk|]. split; [exact Hr|].
  unfold act. simpl. rewrite handle_continue, Ht.
  now apply submitting_step.
Qed.

Lemma act_continue_idle s w :
  continue_try s = None -> act ClickContinue (s, w) = (s, w).
Proof. intros Hn. unfold act. simpl. now rewrite handle_continue, Hn. Qed.

Lemma act_other a s w :
  a <> ClickContinue -> step (fst (act a (s, w))) = step s.
Proof. intros Ha. apply (handle_other_same_step a s Ha (s, w)). Qed.

Lemma act_step a s w :
  step (fst (act a (s, w))) = step s
  \/ exists k,
       at_step s k = true /\ 0 <= k <= 3
       /\ step (fst (act a (s, w))) = VNum (inject_Z (k + 1)).
Proof.
  destruct a; try (left; apply act_other; discriminate).
  destruct (continue_try s) as [t|] eqn:Ht.
  - destruct (act_continue s w t Ht) as (k & Hk & Hr & Hstep).
    destruct (fst (t (started s, w))); [right; now exists k | now left].
  - left. now rewrite (act_continue_idle s w Ht).
Qed.

Lemma run_step actions : forall st,
  step (fst (run actions st)) = step (fst st)
  \/ exists k k',
       at_step (fst st) k = true /\ 0 <= k < k' /\ k' <= 4
       /\ step (fst (run actions st)) = VNum (inject_Z k').
Proof.
  induction actions as [|a rest IH]; intros [s w]; simpl.
  - now left.
  - destruct (IH (act a (s, w))) as [Hr | (k2 & k' & Hk2 & Hlt & Hle & Hr)];
      destruct (act_step a s w) as [Ha | (k & Hk & Hrange & Ha)].
    + left. congruence.
    + right. exists k, (k + 1). rewrite Hr, Ha.
      split; [exact Hk|]. split; [lia|]. split; [lia | reflexivity].
    + right. exists k2, k'. rewrite <- (at_step_same _ _ _ Ha).
      split; [exact Hk2|]. split; [exact Hlt|]. split; [exact Hle | exact Hr].
    + right. exists k, k'. apply (at_step_index _ _ _ Ha) in Hk2. subst k2.
      split; [exact Hk|]. split; [lia|]. split; [exact Hle | exact Hr].
Qed.

Lemma entered_index proto k : 0 <= k <= 4 -> entered proto (VNum (inject_Z k)).
Proof. intros Hk. left. now exists k. Qed.

Lemma setStep_of_map_entered w s st :
  entered (Object_prototype w) (step (fst st)) ->
  entered (Object_prototype w) (step (fst (snd (setStep_of_map w s st)))).
Proof.
  destruct st as [s0 w0]. intros H0.
  unfold setStep_of_map, bind, lift, set. simpl.
  destruct (property_key s) as [[name|]|e]; simpl; [| |exact H0].
  - destruct (map !! name) as [n|] eqn:Hn.
    + assert (Hr : 0 <= n <= 4).
      { apply elem_of_list_to_map_2 in Hn.
        repeat (apply elem_of_cons in Hn as [Hn | Hn];
                [injection Hn as _ ->; lia|]).
        now apply elem_of_nil in Hn. }
      simpl. unfold js_or.
      destruct (truthy (VNum (inject_Z n)));
        [now apply entered_index | apply (entered_index _ 0); lia].
    + destruct (Object_prototype w name) as [f|] eqn:Hf; simpl.
      * right. exists name, f, (step s0). split; [exact Hf | reflexivity].
      * apply (entered_index _ 0). lia.
  - apply (entered_index _ 0). lia.
Qed.

Lemma request_Object_prototype path opts w :
  Object_prototype (snd (Api.request path opts w)) = Object_prototype w.
Proof. now rewrite ApiFacts.request_world. Qed.

Lemma mount_in_wizard w :
  entered (Object_prototype w) (step (fst (snd (mount (initial, w))))).
Proof.
  unfold mount, bind, world, try_finally, try_catch, api, lift, set, router, ret.
  cbn [fst snd].
  destruct (negb (Api.hasToken w)); cbn [fst snd];
    [apply (entered_index _ 0); lia|].
  unfold Api.get.
  pose proof (request_Object_prototype "/onboarding/state"
                {| Api.init_method := "GET"; Api.init_body := None;
                   Api.init_headers := ∅ |} w) as Hw.
  destruct (Api.request "/onboarding/state" _ w) as [[r|e] w1];
    cbn [fst snd] in *; [|apply (entered_index _ 0); lia].
  destruct (get_prop (Api.data r) "current_step") as [s|e]; cbn [fst snd];
    [|apply (entered_index _ 0); lia].
  destruct (is_str s "completed"); cbn [fst snd];
    [apply (entered_index _ 0); lia|].
  destruct (get_prop (Api.data r) "first_win_completed_at") as [fw|e];
    cbn [fst snd]; [|apply (entered_index _ 0); lia].
  destruct (truthy fw); cbn [fst snd]; [apply (entered_index _ 0); lia|].
  destruct (in_map w s) as [[|]|e]; cbn [fst snd];
    try (apply (entered_index _ 0); lia).
  destruct (is_str s "account_link"); cbn [fst snd];
    [apply (entered_index _ 2); lia|].
  destruct (is_str s "goals"); cbn [fst snd];
    [apply (entered_index _ 3); lia|].
  destruct (is_str s "top_3" || is_str s "first_win"); cbn [fst snd];
    [apply (entered_index _ 4); lia|].
  pose proof (setStep_of_map_entered w s (initial, w1)) as H.
  destruct (setStep_of_map w s (initial, w1)) as [[u|e] [s2 w2]];
    cbn [fst snd] in *; apply H, (entered_index _ 0); lia.
Qed.

(** C5.  From any state, an action of the user leaves the step index
    where it is or moves it from one of the steps 0..3 to the next, and a
    sequence of actions leaves it where it is or moves it forward to a
    step up to 4; an index among the five steps 0..4 stays among them;
    only the Continue button moves the index; a submission whose [try]
    block completes advances it by exactly one and one that throws leaves
    it; and at the consent step Continue does nothing unless both required
    consents are checked.  From page load the cell holds one of the five
    indices, unless the reply named a property that every object inherits,
    which the mount effect hands to the setter. *)
Theorem wizard_moves_forward (a : Action) (actions : list Action)
    (s : State) (w : World) :
  (step (fst (act a (s, w))) = step s
   \/ exists k,
        at_step s k = true /\ 0 <= k <= 3
        /\ step (fst (act a (s, w))) = VNum (inject_Z (k + 1)))
  /\ (step (fst (run actions (s, w))) = step s
      \/ exists k k',
           at_step s k = true /\ 0 <= k < k' /\ k' <= 4
           /\ step (fst (run actions (s, w))) = VNum (inject_Z k'))
  /\ (forall k, at_step s k = true -> 0 <= k <= 4 ->
      exists k', k <= k' <= 4 /\ at_step (fst (run actions (s, w))) k' = true)
  /\ entered (Object_prototype w)
       (step (fst (run actions (snd (mount (initial, w))))))
  /\ (a <> ClickContinue -> step (fst (act a (s, w))) = step s)
  /\ (forall t, continue_try s = Some t ->
      exists k,
        at_step s k = true /\ 0 <= k <= 3
        /\ step (fst (act ClickContinue (s, w)))
           = match fst (t (started s, w)) with
             | Ok _ => VNum (inject_Z (k + 1))
             | Throw _ => step s
             end)
  /\ (at_step s 0 = true -> consentData s = false \/ consentTerms s = false ->
      continue_try s = None /\ act ClickContinue (s, w) = (s, w)).
Proof.
  split; [apply act_step|].
  split; [apply (run_step actions (s, w))|].
  split.
  { intros k Hk Hrange.
    destruct (run_step actions (s, w)) as [Hr | (k1 & k' & Hk1 & Hlt & Hle & Hr)];
      simpl in *.
    - exists k. split; [lia|]. now rewrite (at_step_same _ _ _ Hr).
    - rewrite (at_step_inj _ _ _ Hk Hk1). exists k'. split; [lia|].
      unfold at_step. rewrite Hr. apply Qeq_bool_iff. reflexivity. }
  split.
  { pose proof (mount_in_wizard w) as Hm.
    destruct (run_step actions (snd (mount (initial, w))))
      as [Hr | (k1 & k' & Hk1 & Hlt & Hle & Hr)]; rewrite Hr.
    - exact Hm.
    - apply entered_index. lia. }
  split; [apply act_other|].
  split; [apply act_continue|].
  intros H0 Hc.
  assert (Hn : continue_try s = None).
  { unfold continue_try. rewrite H0.
    destruct (checking s || loading s); [reflexivity|].
    destruct Hc as [-> | ->]; [reflexivity|]. now rewrite andb_false_r. }
  split; [exact Hn | now apply act_continue_idle].
Qed.

(** The four submissions of the walk through the wizard, each completing,
    take the index from 0 to 4. *)
Example wizard_walk :
  List.map (fun actions => step (fst (run actions (snd (mount (initial, accepting))))))
    [ [];
      [CheckConsentData true; CheckConsentTerms true; ClickContinue];
      [CheckConsentData true; CheckConsentTerms true; ClickContinue;
       TypeInstitution "Manual Bank"; TypeAcctName "Main Checking";
       TypeBalance "1250"; ClickContinue];
      [CheckConsentData true; CheckConsentTerms true; ClickContinue;
       TypeInstitution "Manual Bank"; TypeAcctName "Main Checking";
       TypeBalance "1250"; ClickContinue; ClickAddSample; ClickContinue];
      [CheckConsentData true; CheckConsentTerms true; ClickContinue;
       TypeInstitution "Manual Bank"; TypeAcctName "Main Checking";
       TypeBalance "1250"; ClickContinue; ClickAddSample; ClickContinue;
       SelectGoalType "build_buffer"; ClickContinue; ClickContinue] ]
  = [VNum 0; VNum 1; VNum 2; VNum 3; VNum 4].
Proof. vm_compute. reflexivity. Qed.

(** Continue at the consent step with one required box unchecked: nothing
    is sent and the index stays 0. *)
Example consent_gate :
  let st := run [CheckConsentData true; CheckConsentAi true; ClickContinue]
                (snd (mount (initial, accepting))) in
  step (fst st) = VNum 0 /\ length (sent (snd st)) = 1%nat.
Proof. vm_compute. split; reflexivity. Qed.

(** What the mount effect makes of the step names of a reply: a list that
    holds one name is looked up as that name, and a name that objects
    inherit reaches the setter, which stores no index then. *)
Example mount_steps :
  List.map (fun current_step =>
              step (fst (snd (mount (initial, resuming current_step)))))
    [VStr "consent"; VStr "account_link"; VStr "goals"; VStr "top_3";
     VStr "first_win"; VStr "unknown"; VNull; VArr [VStr "account_link"];
     VArr [VStr "goals"]; VStr "toString"; VArr [VArr [VStr "isPrototypeOf"]];
     VStr "constructor"; VObj [("toString", VStr "goals")];
     VArr [VStr "goals"; VStr "top_3"]]
  = [VNum 0; VNum 2; VNum 3; VNum 4; VNum 4; VNum 0; VNum 0; VNum 1; VNum 2;
     VStr "[object Undefined]"; VBool false; VObj []; VNum 0; VNum 0].
Proof. vm_compute. reflexivity. Qed.

(** *** Consent *)

Lemma quiet_preorder : PreOrder quiet.
Proof.
  split.
  - intros st. split; [tauto|]. exists []. now rewrite app_nil_r.
  - intros a b c [Hab (n1 & E1 & F1)] [Hbc (n2 & E2 & F2)].
    split; [tauto|]. exists (n1 ++ n2).
    rewrite E2, E1, <- app_assoc. split; [reflexivity|].
    rewrite forallb_app, F1, F2. reflexivity.
Qed.

Lemma quiet_same_world (s s' : State) w :
  (consentAi s = false -> consentAi s' = false) -> quiet (s, w) (s', w).
Proof. intros H. split; [exact H|]. exists []. now rewrite app_nil_r. Qed.

Lemma request_quiet path opts (s : State) w :
  match Api.init_body opts with
  | Some (VObj fields) => is_str (field "consent_type" fields) "ai_memory"
  | _ => false
  end = false ->
  quiet (s, w) (s, snd (Api.request path opts w)).
Proof.
  intros Hbody. split; [tauto|]. simpl.
  rewrite ApiFacts.request_sent. eexists. split; [reflexivity|].
  simpl. unfold carries. simpl. now rewrite Hbody.
Qed.

Lemma grants_carries consent_type r :
  grants consent_type r = true -> carries consent_type r = true.
Proof. unfold grants. rewrite !andb_true_iff. tauto. Qed.

Lemma no_carrier_no_grant consent_type requests :
  forallb (fun r => negb (carries consent_type r)) requests = true ->
  forallb (fun r => negb (grants consent_type r)) requests = true.
Proof.
  rewrite !forallb_forall. intros H r Hr. specialize (H r Hr).
  destruct (grants consent_type r) eqn:Hg; [|reflexivity].
  apply grants_carries in Hg. now rewrite Hg in H.
Qed.

Ltac quiet_leaf :=
  first [ apply respects_api; intros;
          first [apply request_quiet | apply (request_quiet _ (Api.with_body _ _))];
          reflexivity
        | apply respects_set; intros; apply quiet_same_world; intros H; exact H
        | apply respects_router; intros; split; [tauto|];
          exists []; simpl; now rewrite app_nil_r ].

Ltac stays_quiet := respects_with quiet_preorder quiet_leaf.

Lemma handleError_quiet err : respects quiet (handleError err).
Proof. unfold handleError. stays_quiet. Qed.

Lemma submitting_quiet t : respects quiet t -> respects quiet (submitting t).
Proof.
  intros Ht. unfold submitting, clearError. stays_quiet.
  - exact Ht.
  - apply handleError_quiet.
Qed.

(** With the AI-memory box unchecked the consent handler grants the two
    required consents at most. *)
Lemma submitConsent_quiet s :
  consentAi s = false -> respects quiet (submitConsent s).
Proof.
  intros Hai. apply submitting_quiet.
  unfold submitConsent_try. rewrite Hai. unfold when. stays_quiet.
Qed.

Lemma getFirstAccountId_quiet : respects quiet getFirstAccountId.
Proof. unfold getFirstAccountId. stays_quiet. Qed.

Lemma post_each_quiet payloads : forall count,
  respects quiet (post_each payloads count).
Proof.
  induction payloads as [|p rest IH]; intros count; simpl.
  - stays_quiet.
  - stays_quiet. apply IH.
Qed.

Lemma mount_quiet : respects quiet mount.
Proof. unfold mount. stays_quiet. Qed.

Lemma handle_quiet a s :
  consentAi s = false -> a <> CheckConsentAi true -> respects quiet (handle a s).
Proof.
  intros Hai Ha. unfold handle.
  destruct (checking s); [stays_quiet|].
  destruct a as [b|b|b| | | | | | | | | ].
  3: { destruct b; [contradiction|].
       destruct (at_step s 0); [|stays_quiet].
       apply respects_set. intros s' w. now apply quiet_same_world. }
  11: { destruct (at_step s 0).
        { destruct (negb (consentData s) || negb (consentTerms s) || loading s);
            [stays_quiet | now apply submitConsent_quiet]. }
        unfold submitAccount, submitTransactions, submitGoals.
        unfold submitAccount_try, submitTransactions_try, submitGoals_try.
        repeat match goal with
               | |- respects _ (if ?c then _ else _) => destruct c
               end;
          try apply submitting_quiet; stays_quiet. }
  all: unfold addSampleTransactions, addSampleTransactions_try, addConstraint,
         startRun, startRun_try, clearError.
  all: repeat match goal with
              | |- respects _ (if ?c then _ else _) => destruct c
              | |- respects _ (match ?x with _ => _ end) => destruct x
              end;
         try apply submitting_quiet; stays_quiet.
  all: first [ apply handleError_quiet
             | apply post_each_quiet
             | apply getFirstAccountId_quiet ].
Qed.

Lemma act_quiet a st :
  consentAi (fst st) = false -> a <> CheckConsentAi true -> quiet st (act a st).
Proof. intros Hai Ha. apply (handle_quiet a (fst st) Hai Ha st). Qed.

Lemma run_quiet actions : forall st,
  consentAi (fst st) = false ->
  ~ In (CheckConsentAi true) actions ->
  quiet st (run actions st).
Proof.
  induction actions as [|a rest IH]; intros st Hai Hnot; simpl.
  - apply quiet_preorder.
  - assert (Ha : quiet st (act a st)).
    { apply act_quiet; [exact Hai|]. intros ->. apply Hnot. simpl. auto. }
    apply (@PreOrder_Transitive _ _ quiet_preorder _ (act a st)); [exact Ha|].
    apply IH; [now apply Ha|]. intros Hin. apply Hnot. simpl. auto.
Qed.

(** C3.  The AI-memory box starts unchecked.  From the load of the page
    on, as long as the user does not check it, no action leaves it checked
    and no request grants ai_memory consent, whatever the backend answers:
    neither the consent submission nor any later step posts to
    /consent/grant for ai_memory, or sends a body that names it. *)
Theorem ai_memory_consent_defaults_off (actions : list Action) (w : World) :
  ~ In (CheckConsentAi true) actions ->
  consentAi initial = false
  /\ consentAi (fst (run actions (snd (mount (initial, w))))) = false
  /\ exists new,
       sent (snd (run actions (snd (mount (initial, w))))) = sent w ++ new
       /\ forallb (fun r => negb (grants "ai_memory" r)) new = true
       /\ forallb (fun r => negb (carries "ai_memory" r)) new = true.
Proof.
  intros Hnot. split; [reflexivity|].
  destruct (mount_quiet (initial, w)) as [Hm (n1 & E1 & F1)].
  specialize (Hm eq_refl).
  destruct (run_quiet actions (snd (mount (initial, w))) Hm Hnot)
    as [Hr (n2 & E2 & F2)].
  split; [now apply Hr|].
  exists (n1 ++ n2). rewrite E2, E1, <- app_assoc. split; [reflexivity|].
  assert (F : forallb (fun r => negb (carries "ai_memory" r)) (n1 ++ n2) = true)
    by (now rewrite forallb_app, F1, F2).
  split; [now apply no_carrier_no_grant | exact F].
Qed.

Lemma ai_memory_consent_defaults_off_witness :
  List.map req_body
    (sent (snd (run [CheckConsentData true; CheckConsentTerms true; ClickContinue]
                    (snd (mount (initial, accepting))))))
  = [None;
     Some (consent_body "data_access");
     Some (consent_body "terms_of_service");
     None]
  /\ exists new,
       sent (snd (run [CheckConsentData true; CheckConsentTerms true; ClickContinue]
                      (snd (mount (initial, accepting)))))
       = sent accepting ++ new
       /\ forallb (fun r => negb (grants "ai_memory" r)) new = true
       /\ forallb (fun r => negb (carries "ai_memory" r)) new = true.
Proof.
  split; [reflexivity|].
  refine (proj2 (proj2 (ai_memory_consent_defaults_off
    [CheckConsentData true; CheckConsentTerms true; ClickContinue] accepting _))).
  simpl. intros [H|[H|[H|[]]]]; discriminate.
Defined.

(** When the user does check the box, the consent submission grants it. *)
Example ai_memory_granted_when_checked :
  existsb (grants "ai_memory")
    (sent (snd (run [CheckConsentData true; CheckConsentTerms true;
                     CheckConsentAi true; ClickContinue]
                    (snd (mount (initial, accepting))))))
  = true.
Proof. vm_compute. reflexivity. Qed.

End OnboardingFacts.

(** ** The gate of the home page and First Win *)

Module HomeFacts.
Import HomeSpec.

(** Without a completed step there is no First Win: when the call that
    completes the step fails, the handler sends nothing else, in
    particular no advance to first_win, and the banner flag is as it was.
    When it succeeds, the advance to first_win is the next request. *)

Lemma settled_preorder : PreOrder settled.
Proof.
  split.
  - intros st. split; reflexivity.
  - intros a b c [H1 H2] [H3 H4]. split; congruence.
Qed.

Lemma on_error_settled e : respects settled (RunPage.on_error e).
Proof.
  unfold RunPage.on_error.
  respects_with settled_preorder
    ltac:(apply respects_set; intros; split; reflexivity).
Qed.

Ltac settle_error :=
  match goal with
  | |- context [RunPage.on_error ?e ?st] =>
      let H := fresh in
      pose proof (on_error_settled e st) as H; unfold settled in H;
      destruct (RunPage.on_error e st) as [? [? ?]];
      simpl in H |- *; destruct H as [? ?]; subst
  end.

Lemma completeStep1_after_completion runId s w :
  match fst (completion runId w) with
  | Throw _ =>
      RunPage.firstWin (fst (snd (RunPage.completeStep1 runId (s, w))))
      = RunPage.firstWin s
      /\ sent (snd (snd (RunPage.completeStep1 runId (s, w))))
         = sent (snd (completion runId w))
  | Ok _ =>
      RunPage.firstWin (fst (snd (RunPage.completeStep1 runId (s, w)))) = true
      /\ exists r rest,
           sent (snd (snd (RunPage.completeStep1 runId (s, w))))
           = sent (snd (completion runId w)) ++ r :: rest
           /\ req_method r = "POST"
           /\ req_url r = Api.BASE w +:+ "/onboarding/advance?step=first_win"
  end.
Proof.
  unfold RunPage.completeStep1, RunPage.completeStep1_try.
  unfold bind, set, try_finally, try_catch, api. simpl.
  fold (completion runId).
  destruct (completion runId w) as [[reply|e] w1] eqn:Hc; simpl.
  - assert (HB : Api.BASE w1 = Api.BASE w).
    { change w1 with (snd (Ok reply, w1)). rewrite <- Hc.
      unfold completion, Api.post. now rewrite ApiFacts.request_world. }
    unfold Api.post, Api.get.
    pose proof (ApiFacts.request_world "/onboarding/advance?step=first_win"
                  (Api.with_body "POST" VUndef) w1) as Hadv.
    destruct (Api.request "/onboarding/advance?step=first_win" _ w1)
      as [[r1|e1] w2]; simpl in *; subst w2.
    all: match goal with
         | |- context [Api.request ?p ?o ?w0] =>
             pose proof (ApiFacts.request_world p o w0) as Hget;
             destruct (Api.request p o w0) as [[r2|e2] w3]; simpl in *; subst w3
         end.
    all: try settle_error.
    all: split; [first [reflexivity | assumption]|].
    all: eexists; eexists; simpl; rewrite <- app_assoc;
      (split; [reflexivity|]); simpl; rewrite HB; split; reflexivity.
  - settle_error. split; [assumption|reflexivity].
Qed.

(** What the home page does with an error of the state request: a 401
    sends the user to /login, any other error stays on the page. *)
Lemma home_on_error e s w :
  exists s',
    (snd (Home.on_error e (s, w)) = (s', w)
     \/ snd (Home.on_error e (s, w)) = (s', navigate (Replace "/login") w))
    /\ Home.forecast s' = Home.forecast s /\ Home.recs s' = Home.recs s
    /\ Home.loading s' = Home.loading s.
Proof.
  unfold Home.on_error.
  destruct (Api.isApiError e); [|exists s; repeat split; now left].
  unfold bind, lift, router, set.
  destruct (get_prop e "status") as [st|e1]; simpl;
    [|exists s; repeat split; now left].
  destruct (Home.is_num st 401); simpl; [exists s; repeat split; now right|].
  destruct (get_prop e "message") as [m|e2]; simpl;
    [|exists s; repeat split; now left].
  destruct (get_prop e "requestId") as [rid|e3]; simpl;
    eexists; (split; [left; reflexivity|]); repeat split.
Qed.

(** C6.  On a load of /home by a signed-in user the page asks for the
    onboarding state first.  When the state it obtains has no
    first_win_completed_at and a current_step other than "completed", the
    page replaces the route by /onboarding having sent that request only:
    no forecast and no recommendation is requested or stored.  When the
    state cannot be read (the reply holds none, or the call fails) the page
    requests no forecast and no recommendation either, but it does not
    send the user to /onboarding: it leaves the loading screen, and stays
    on the dashboard frame or goes to /login.  And on the run page the First Win banner, the
    advance to first_win and every other request of the handler come only
    after the call that completes a guided step has succeeded. *)
Theorem home_requires_first_win (w : World) :
  Api.hasToken w = true ->
  (exists r,
     req_method r = "GET"
     /\ req_url r = Api.BASE w +:+ "/onboarding/state"
     /\ match fst (Api.get "/onboarding/state" w) with
        | Ok reply =>
            match get_prop (Api.data reply) "first_win_completed_at",
                  get_prop (Api.data reply) "current_step" with
            | Ok first_win, Ok current_step =>
                truthy first_win = false ->
                Onboarding.is_str current_step "completed" = false ->
                snd (Home.mount (Home.initial, w))
                = (Home.setLoading false Home.initial,
                   navigate (Replace "/onboarding") (record_request r w))
            | _, _ =>
                snd (Home.mount (Home.initial, w))
                = (Home.setLoading false Home.initial, record_request r w)
            end
        | Throw e =>
            exists s',
              fst (snd (Home.mount (Home.initial, w))) = Home.setLoading false s'
              /\ Home.forecast s' = VNull /\ Home.recs s' = []
              /\ (snd (snd (Home.mount (Home.initial, w))) = record_request r w
                  \/ snd (snd (Home.mount (Home.initial, w)))
                     = navigate (Replace "/login") (record_request r w))
        end)
  /\ (forall runId s w' new,
        RunPage.firstWin s = false ->
        sent (snd (snd (RunPage.completeStep1 runId (s, w'))))
        = sent (snd (completion runId w')) ++ new ->
        RunPage.firstWin (fst (snd (RunPage.completeStep1 runId (s, w')))) = true
        \/ new <> [] ->
        exists reply, fst (completion runId w') = Ok reply).
Proof.
  intros Htok.
  split.
  - eexists. split; [|split]; [| |].
    3: {
      unfold Home.mount, Home.checkOnboardingAndLoad.
      unfold bind, world, try_finally, try_catch, api, lift, set, router, ret.
      cbn [fst snd]. rewrite Htok. cbn [negb fst snd].
      unfold Api.get.
      pose proof (ApiFacts.request_world "/onboarding/state"
                    {| Api.init_method := "GET"; Api.init_body := None;
                       Api.init_headers := ∅ |} w) as Hw.
      destruct (Api.request "/onboarding/state" _ w) as [[reply|e] w1];
        cbn [fst snd] in *; subst w1.
      - destruct (Api.data reply) as [| |b|q|str|xs|fields|name msg];
          cbn [get_prop fst snd Api.isApiError];
          try reflexivity;
          intros Hfw Hcs; cbn [truthy] in *; rewrite ?Hfw; cbn [fst snd];
          rewrite ?Hcs; cbn [negb fst snd]; try reflexivity.
        all: try discriminate.
      - match goal with
        | |- context [Home.on_error e (Home.initial, ?w0)] =>
            destruct (home_on_error e Home.initial w0) as (s' & Hs & Hf & Hr & _);
            destruct (Home.on_error e (Home.initial, w0)) as [res [s2 w2]]
        end.
        cbn [fst snd] in *. exists s'.
        destruct Hs as [[= -> ->] | [= -> ->]]; destruct res; cbn [fst snd];
          (split; [reflexivity|]); (split; [exact Hf|]);
          (split; [exact Hr|]); auto. }
    all: reflexivity.
  - intros runId s w' new Hs Hnew Hwin.
    pose proof (completeStep1_after_completion runId s w') as H.
    destruct (fst (completion runId w')) as [reply|e]; [now exists reply|].
    destruct H as [Hflag Hsent]. exfalso.
    destruct Hwin as [Hwin | Hwin].
    + congruence.
    + apply Hwin. rewrite Hsent in Hnew.
      rewrite <- (app_nil_r (sent _)) in Hnew at 1.
      now apply app_inv_head in Hnew.
Qed.

Lemma home_requires_first_win_witness :
  navigations (snd (snd (Home.mount (Home.initial, ApiSpec.browser (Responded at_goals)))))
  = [Replace "/onboarding"]
  /\ Home.forecast (fst (snd (Home.mount (Home.initial, ApiSpec.browser (Responded at_goals)))))
     = VNull.
Proof.
  destruct (home_requires_first_win (ApiSpec.browser (Responded at_goals)) eq_refl)
    as [(r & _ & _ & H) _].
  remember (snd (Home.mount (Home.initial, ApiSpec.browser (Responded at_goals))))
    as loaded eqn:Hloaded in H |- *.
  vm_compute in H. specialize (H eq_refl eq_refl). rewrite H.
  split; reflexivity.
Defined.

(** A user without First Win whose state request is refused with a 500:
    the page does not redirect and leaves the loading screen, so the frame
    of the dashboard is rendered, with the error. *)
Lemma home_without_redirect :
  navigations (snd (snd (Home.mount (Home.initial, MoreSpec.failing)))) = []
  /\ Home.loading (fst (snd (Home.mount (Home.initial, MoreSpec.failing)))) = false
  /\ Home.error (fst (snd (Home.mount (Home.initial, MoreSpec.failing))))
     = VStr "Internal server error".
Proof. vm_compute. repeat split. Qed.

(** Once First Win is recorded the dashboard loads its data. *)
Example home_loads_after_first_win :
  let done :=
    {| status := 200; headers := [];
       body := Some (VObj [("current_step", VStr "completed");
                           ("first_win_completed_at", VStr "2026-02-10T09:00:00Z")]) |} in
  let st := snd (Home.mount (Home.initial, ApiSpec.browser (Responded done))) in
  navigations (snd st) = []
  /\ List.map req_url (sent (snd st))
     = ["https://api.example.test/onboarding/state";
        "https://api.example.test/forecast/latest";
        "https://api.example.test/cheat-codes/recommendations"].
Proof. vm_compute. split; reflexivity. Qed.

End HomeFacts.

(** ** More on the API client *)

Module ApiMore.
Import Api ApiSpec.

(** What [request] can throw: the object of a handled failure, with a
    message that is not empty and a status that is no success, or the
    parse error of a success whose body is not JSON. *)
Lemma request_throws path opts w e :
  fst (request path opts w) = Throw e ->
  (exists m rid st,
      e = VObj [("message", m); ("requestId", of_option_string rid);
                ("status", VNum (inject_Z st))]
      /\ truthy m = true
      /\ ~ 200 <= st <= 299)
  \/ (exists name msg res,
        e = VErr name msg
        /\ server w (length (sent w)) = Responded res
        /\ 200 <= status res <= 299
        /\ body res = None).
Proof.
  unfold request.
  destruct (server w (length (sent w))) as [|res] eqn:Hres.
  - intros [= <-]. left. do 3 eexists. split; [reflexivity|].
    split; [|simpl; lia]. simpl.
    destruct (includes (BASE w) "localhost"); reflexivity.
  - destruct (ok res) eqn:Hok; simpl.
    + destruct (status res =? 204); [discriminate|].
      destruct (body res) eqn:Hb; [discriminate|].
      intros [= <-]. right. do 3 eexists.
      split; [reflexivity|]. split; [reflexivity|].
      split; [now apply ApiFacts.ok_iff | exact Hb].
    + intros [= <-]. left. do 3 eexists. split; [reflexivity|].
      split.
      * unfold error_message.
        destruct (body res) as [b|]; [|reflexivity].
        destruct (get_prop b "detail") as [d|]; [|reflexivity].
        destruct (truthy d) eqn:Hd; [exact Hd|].
        destruct (get_prop b "message") as [m|]; [|reflexivity].
        unfold js_or. destruct (truthy m) eqn:Hm; [exact Hm | reflexivity].
      * simpl. intros H. apply ApiFacts.ok_iff in H. congruence.
Qed.

(** X1.  [isApiError] holds exactly of the objects that have a [message]
    and a [status]: not of null (whose [typeof] is "object" too), of
    arrays, of native errors, which have no [status], or of primitives. *)
Theorem isApiError_iff (e : value) :
  isApiError e = true
  <-> exists fields,
        e = VObj fields
        /\ is_Some (assoc "message" fields)
        /\ is_Some (assoc "status" fields).
Proof.
  split.
  - unfold isApiError.
    destruct e; simpl; try discriminate.
    rewrite !andb_true_iff, !bool_decide_eq_true.
    intros [Hm Hs]. exists fields. tauto.
  - intros (fields & -> & Hm & Hs). now apply ApiFacts.isApiError_fields.
Qed.

Lemma request_header_lookups opts w :
  request_headers w opts !! "X-Session-Token"
  = (if hasToken w then getToken w
     else init_headers opts !! "X-Session-Token")
  /\ request_headers w opts !! "Content-Type"
     = Some (default "application/json" (init_headers opts !! "Content-Type"))
  /\ forall k, k <> "X-Session-Token" -> k <> "Content-Type" ->
               request_headers w opts !! k = init_headers opts !! k.
Proof.
  assert (Hbase : forall k,
            (init_headers opts ∪ {["Content-Type" := "application/json"]}) !! k
            = if decide (k = "Content-Type")
              then Some (default "application/json" (init_headers opts !! k))
              else init_headers opts !! k).
  { intros k. rewrite lookup_union.
    destruct (decide (k = "Content-Type")) as [->|Hk].
    - rewrite lookup_singleton_eq. now destruct (init_headers opts !! _).
    - rewrite lookup_singleton_ne by congruence.
      now destruct (init_headers opts !! k). }
  unfold request_headers, hasToken.
  destruct (getToken w) as [t|] eqn:Ht; simpl.
  - destruct (String.eqb t "") eqn:Hempty; simpl.
    + rewrite !Hbase. simpl. split; [reflexivity|]. split; [reflexivity|].
      intros k H1 H2. rewrite Hbase. now destruct (decide _).
    + rewrite lookup_insert_eq. split; [reflexivity|].
      rewrite lookup_insert_ne by discriminate. rewrite Hbase. simpl.
      split; [reflexivity|].
      intros k H1 H2. rewrite lookup_insert_ne by congruence.
      rewrite Hbase. now destruct (decide _).
  - rewrite !Hbase. simpl. split; [reflexivity|]. split; [reflexivity|].
    intros k H1 H2. rewrite Hbase. now destruct (decide _).
Qed.

(** X2.  Every call hands one request to [fetch].  When [hasToken()]
    holds its session header is the stored token, in place of a header of
    that name given by the caller; when it does not, the header is the
    caller's, if the caller gave one.  So for a caller that gives none, as
    the methods of [api] do, the header is sent exactly when [hasToken()]
    holds.  [Content-Type] is application/json unless the caller gives
    one; every other header is the caller's. *)
Theorem request_session_header (path : string) (opts : RequestInit) (w : World) :
  exists r,
    sent (snd (request path opts w)) = sent w ++ [r]
    /\ req_headers r !! "X-Session-Token"
       = (if hasToken w then getToken w
          else init_headers opts !! "X-Session-Token")
    /\ (init_headers opts !! "X-Session-Token" = None ->
        (is_Some (req_headers r !! "X-Session-Token") <-> hasToken w = true))
    /\ req_headers r !! "Content-Type"
       = Some (default "application/json" (init_headers opts !! "Content-Type"))
    /\ forall k, k <> "X-Session-Token" -> k <> "Content-Type" ->
                 req_headers r !! k = init_headers opts !! k.
Proof.
  eexists. rewrite ApiFacts.request_sent. split; [reflexivity|]. simpl.
  destruct (request_header_lookups opts w) as (Hs & Hc & Hk).
  split; [exact Hs|]. split; [|split; [exact Hc | exact Hk]].
  intros Hnone. rewrite Hs. unfold hasToken.
  destruct (getToken w) as [t|]; simpl.
  - destruct (negb (String.eqb t "")); [|rewrite Hnone].
    + split; [reflexivity | intros _; now exists t].
    + split; [intros [x H]; discriminate | discriminate].
  - rewrite Hnone. split; [intros [x H]; discriminate | discriminate].
Qed.

(** X3.  In a browser [setToken] and [clearToken] touch one key of the
    storage and write one cookie each: every other key reads as before.
    Storing the empty string leaves the user signed out: [hasToken()] is
    false exactly for the empty token. *)
Theorem token_storage_frame (t : string) (w : World) :
  window_defined w = true ->
  (forall k, k <> "session_token" ->
     localStorage (snd (setToken t w)) !! k = localStorage w !! k
     /\ localStorage (snd (clearToken w)) !! k = localStorage w !! k)
  /\ hasToken (snd (setToken t w)) = negb (String.eqb t "")
  /\ cookie_writes (snd (setToken t w))
     = cookie_writes w ++ ["session_token=" +:+ t +:+ "; path=/; SameSite=Lax"]
  /\ cookie_writes (snd (clearToken (snd (setToken t w))))
     = cookie_writes w
       ++ ["session_token=" +:+ t +:+ "; path=/; SameSite=Lax";
           "session_token=; path=/; expires=Thu, 01 Jan 1970 00:00:00 GMT"]
  /\ sent (snd (clearToken (snd (setToken t w)))) = sent w
  /\ navigations (snd (clearToken (snd (setToken t w)))) = navigations w.
Proof.
  intros Hwin. unfold setToken, clearToken. rewrite Hwin. simpl. rewrite Hwin.
  simpl. split.
  { intros k Hk. split.
    - apply lookup_insert_ne. unfold session_key. congruence.
    - apply lookup_delete_ne. unfold session_key. congruence. }
  split.
  { unfold hasToken, getToken. simpl. rewrite Hwin.
    rewrite lookup_insert_eq. reflexivity. }
  split; [reflexivity|].
  split; [now rewrite <- app_assoc|].
  split; reflexivity.
Qed.

Lemma token_storage_frame_witness :
  localStorage (snd (setToken "" (browser NetworkFailure))) !! "theme"
  = localStorage (browser NetworkFailure) !! "theme"
  /\ hasToken (snd (setToken "" (browser NetworkFailure))) = false.
Proof.
  destruct (token_storage_frame "" (browser NetworkFailure) eq_refl)
    as (Hk & Hhas & _).
  split; [apply (Hk "theme"); discriminate | exact Hhas].
Defined.

(** X4.  The raw fetch hands back whatever response arrives, of any
    status, and lets a network failure through as the error of [fetch],
    which is no [ApiError]; it sends a GET with the session header at
    most, without [Content-Type]. *)
Theorem raw_does_not_standardize (path : string) (w : World) :
  match server w (length (sent w)) with
  | Responded res => fst (raw path w) = Ok res
  | NetworkFailure =>
      exists e, fst (raw path w) = Throw e /\ isApiError e = false
  end
  /\ exists r,
       sent (snd (raw path w)) = sent w ++ [r]
       /\ req_method r = "GET"
       /\ req_url r = BASE w +:+ path
       /\ req_body r = None
       /\ req_headers r !! "Content-Type" = None
       /\ req_headers r !! "X-Session-Token"
          = (if hasToken w then getToken w else None).
Proof.
  unfold raw. split.
  - destruct (server w (length (sent w))); [|reflexivity].
    eexists. split; reflexivity.
  - eexists. split.
    { destruct (server w (length (sent w))); reflexivity. }
    simpl. repeat split.
    + unfold hasToken. destruct (getToken w) as [t|]; simpl; [|reflexivity].
      destruct (negb (String.eqb t "")); [|reflexivity].
      now rewrite lookup_singleton_ne.
    + unfold hasToken. destruct (getToken w) as [t|]; simpl; [|reflexivity].
      destruct (negb (String.eqb t "")); [|reflexivity].
      now rewrite lookup_singleton_eq.
Qed.

(** X5.  Whatever [request] throws that [isApiError] accepts has a message
    that is not empty (so the error box shows) and a status that is 0 or
    another number outside 200..299; anything else it throws comes from a
    2xx response without a JSON body. *)
Theorem thrown_ApiError_is_displayable (path : string) (opts : RequestInit)
    (w : World) (e : value) :
  fst (request path opts w) = Throw e ->
  (isApiError e = true ->
     exists m st,
       get_prop e "message" = Ok m /\ truthy m = true
       /\ get_prop e "status" = Ok (VNum (inject_Z st))
       /\ ~ 200 <= st <= 299)
  /\ (isApiError e = false ->
      exists res, server w (length (sent w)) = Responded res
                  /\ 200 <= status res <= 299 /\ status res <> 204
                  /\ body res = None).
Proof.
  intros Hthrow.
  destruct (request_throws path opts w e Hthrow)
    as [(m & rid & st & -> & Hm & Hst) | (name & msg & res & -> & Hres & Hok & Hb)].
  - split; [|discriminate].
    intros _. exists m, st. repeat split; assumption.
  - split; [discriminate|].
    intros _. exists res. repeat split; try assumption; try lia.
    intros H204. unfold request in Hthrow. rewrite Hres in Hthrow.
    apply ApiFacts.ok_iff in Hok. rewrite Hok in Hthrow. simpl in Hthrow.
    rewrite H204 in Hthrow. discriminate.
Qed.

Lemma thrown_ApiError_is_displayable_witness :
  exists m st,
    get_prop (VObj [("message", VStr "amount must be positive");
                    ("requestId", VStr "req-7");
                    ("status", VNum (inject_Z 422))]) "message" = Ok m
    /\ truthy m = true
    /\ get_prop (VObj [("message", VStr "amount must be positive");
                       ("requestId", VStr "req-7");
                       ("status", VNum (inject_Z 422))]) "status"
       = Ok (VNum (inject_Z st))
    /\ ~ 200 <= st <= 299.
Proof.
  refine (proj1 (thrown_ApiError_is_displayable "/transactions"
                   (with_body "POST" VNull) (browser (Responded unprocessable))
                   _ eq_refl) eq_refl).
Defined.

End ApiMore.

(** ** More on the onboarding wizard *)

Module OnboardingMore.
Import Onboarding OnboardingSpec MoreSpec.

(** *** The busy flag *)

Lemma idle_preorder : PreOrder idle.
Proof.
  split.
  - intros st H. exact H.
  - intros a b c Hab Hbc H. auto.
Qed.

Ltac idle_leaf :=
  first [ apply respects_api; intros ? ? H; exact H
        | apply respects_set; intros ? ? H; exact H
        | apply respects_router; intros ? ? H; exact H ].

Ltac stays_idle := respects_with idle_preorder idle_leaf.

(** The frame of the step handlers ends with [setLoading(false)]. *)
Lemma submitting_not_busy t st : loading (fst (snd (submitting t st))) = false.
Proof.
  unfold submitting, clearError, bind, set, try_finally. simpl.
  destruct (try_catch t handleError _) as [r st1]. reflexivity.
Qed.

Lemma submitting_idle t : respects idle (submitting t).
Proof. intros st _. apply submitting_not_busy. Qed.

Lemma handleError_idle err : respects idle (handleError err).
Proof. unfold handleError. stays_idle. Qed.

Lemma handle_idle a s : respects idle (handle a s).
Proof.
  unfold handle, submitConsent, submitAccount, submitTransactions, submitGoals,
    addSampleTransactions, startRun, addConstraint, clearError.
  destruct a;
    repeat match goal with
           | |- respects _ (if ?c then _ else _) => destruct c
           | |- respects _ (match ?x with _ => _ end) => destruct x
           end;
    first [ apply submitting_idle | stays_idle ].
  all: apply handleError_idle.
Qed.

Lemma run_idle actions : forall st,
  loading (fst st) = false -> loading (fst (run actions st)) = false.
Proof.
  induction actions as [|a rest IH]; intros st H; simpl; [exact H|].
  apply IH. apply (handle_idle a (fst st) st H).
Qed.

Lemma mount_idle : respects idle mount.
Proof. unfold mount. stays_idle. Qed.

Lemma run_while_checking actions : forall st,
  checking (fst st) = true -> run actions st = st.
Proof.
  induction actions as [|a rest IH]; intros [s w] H; simpl; [reflexivity|].
  assert (Ha : act a (s, w) = (s, w)).
  { unfold act, handle. simpl in *. now rewrite H. }
  rewrite Ha. now apply IH.
Qed.

(** X6.  A handler whose calls have all settled, each answered or failed,
    has left the wizard not busy: whatever the backend answered, [loading]
    is false after every sequence of actions of which each has returned
    before the next, so no button stays disabled by a handler that has
    returned.  With a token the mount effect, once its call has settled,
    ends the "Loading..." screen; without one the screen stays and every
    action is ignored. *)
Theorem wizard_never_stays_busy (actions : list Action) (w : World) :
  loading (fst (run actions (snd (mount (initial, w))))) = false
  /\ (Api.hasToken w = true -> checking (fst (snd (mount (initial, w)))) = false)
  /\ (Api.hasToken w = false ->
      run actions (snd (mount (initial, w)))
      = (initial, navigate (Replace "/login") w)).
Proof.
  split; [|split].
  - apply run_idle. now apply (mount_idle (initial, w)).
  - intros Htok. unfold mount, bind, world, try_finally. simpl. rewrite Htok.
    simpl. destruct (try_catch _ _ _) as [r st1]. reflexivity.
  - intros Htok.
    assert (Hm : snd (mount (initial, w)) = (initial, navigate (Replace "/login") w)).
    { unfold mount, bind, world. simpl. now rewrite Htok. }
    rewrite Hm. now apply run_while_checking.
Qed.

(** *** What a failed submission shows *)

Section ThrowsOnly.

Context {S : Type} (Q : value -> Prop).





End ThrowsOnly.






Lemma throws_request path opts : throws_only displayable (Api.request path opts).
Proof.
  intros w e w' He.
  assert (Hf : fst (Api.request path opts w) = Throw e) by now rewrite He.
  destruct (ApiMore.request_throws path opts w e Hf)
    as [(m & rid & st & -> & Hm & _) | (name & msg & res & -> & _)].
  - intros _. eexists. split; [reflexivity | exact Hm].
  - intros Habs. discriminate.
Qed.











(** *** Sample transactions *)

Lemma same_lists_preorder : PreOrder same_lists.
Proof.
  split.
  - intros st. split; reflexivity.
  - intros a b c [H1 H2] [H3 H4]. split; congruence.
Qed.

Ltac same_lists_leaf :=
  first [ apply respects_api; intros; split; reflexivity
        | apply respects_set; intros; split; reflexivity
        | apply respects_router; intros; split; reflexivity ].

Ltac keeps_lists := respects_with same_lists_preorder same_lists_leaf.

Lemma handleError_same_lists err : respects same_lists (handleError err).
Proof. unfold handleError. keeps_lists. Qed.

(** A call of the client leaves the world as it was but for the request
    it hands to [fetch]. *)
Lemma request_with_sent path opts w :
  exists r,
    snd (Api.request path opts w) = with_sent (sent w ++ [r]) w
    /\ req_method r = Api.init_method opts
    /\ req_url r = Api.BASE w +:+ path
    /\ req_headers r = Api.request_headers w opts
    /\ req_body r = Api.init_body opts.
Proof.
  eexists. rewrite ApiFacts.request_world. split; [reflexivity|].
  repeat split.
Qed.

(** [request] returns exactly when the call is accepted. *)
Lemma request_returns path opts w :
  (exists reply, fst (Api.request path opts w) = Ok reply)
  <-> accepted w (length (sent w)).
Proof.
  unfold Api.request, accepted.
  destruct (server w (length (sent w))) as [|res] eqn:Hres.
  - split; [intros [reply H]; discriminate | intros (res & H & _); discriminate].
  - destruct (Api.ok res) eqn:Hok; simpl.
    + apply ApiFacts.ok_iff in Hok.
      destruct (Z.eqb_spec (status res) 204) as [E|E].
      * split; [|intros _; eexists; reflexivity].
        intros _. exists res. split; [reflexivity|]. split; [exact Hok | now left].
      * destruct (body res) as [d|] eqn:Hd.
        -- split; [|intros _; eexists; reflexivity].
           intros _. exists res. split; [reflexivity|].
           split; [exact Hok|]. right. congruence.
        -- split; [intros [reply H]; discriminate|].
           intros (res' & [= <-] & _ & [H | H]); congruence.
    + split; [intros [reply H]; discriminate|].
      intros (res' & [= <-] & H & _). apply ApiFacts.ok_iff in H. congruence.
Qed.

Lemma post_each_spec payloads : forall count s w,
  exists k,
    (k <= length payloads)%nat
    /\ snd (post_each payloads count (s, w))
       = (s, with_sent (sent w ++ List.map (txn_request w) (firstn k payloads)) w)
    /\ match fst (post_each payloads count (s, w)) with
       | Ok n =>
           n = count + Z.of_nat (length payloads) /\ k = length payloads
           /\ forall i, (i < length payloads)%nat ->
                        accepted w (length (sent w) + i)
       | Throw _ =>
           exists i, (i < length payloads)%nat
                     /\ ~ accepted w (length (sent w) + i)
       end.
Proof.
  induction payloads as [|p rest IH]; intros count s w.
  - exists 0%nat. simpl. split; [lia|]. split; [|split; [lia|split; [lia|]]].
    + rewrite app_nil_r. now destruct w.
    + intros i Hi. lia.
  - simpl. unfold bind, api. simpl.
    destruct (request_with_sent "/transactions"
                (Api.with_body "POST" (SampleTransactions.payload_obj p)) w)
      as (r & Hw & Hm & Hu & Hh & Hb).
    assert (Hr : r = txn_request w p).
    { destruct r. simpl in *. subst. reflexivity. }
    subst r. unfold Api.post.
    pose proof (request_returns "/transactions"
                  (Api.with_body "POST" (SampleTransactions.payload_obj p)) w)
      as Hacc.
    destruct (Api.request "/transactions" _ w) as [[reply|e] w1]; simpl in *;
      subst w1.
    + destruct (IH (count + 1) s (with_sent (sent w ++ [txn_request w p]) w))
        as (k & Hk & Hsnd & Hfst).
      exists (S k). split; [simpl; lia|]. rewrite Hsnd. simpl.
      split; [now rewrite <- app_assoc|].
      destruct (fst (post_each rest (count + 1) _)).
      * destruct Hfst as (-> & -> & Hall). split; [lia|]. split; [lia|].
        intros [|i] Hi.
        -- rewrite Nat.add_0_r. apply Hacc. now exists reply.
        -- specialize (Hall i ltac:(lia)). unfold accepted in *.
           cbn [sent server with_sent] in Hall. rewrite length_app in Hall.
           cbn [length] in Hall.
           now replace (length (sent w) + S i)%nat
             with (length (sent w) + 1 + i)%nat by lia.
      * destruct Hfst as (i & Hi & Hno). exists (S i). split; [lia|].
        unfold accepted in *.
        cbn [sent server with_sent] in Hno. rewrite length_app in Hno.
        cbn [length] in Hno.
        now replace (length (sent w) + S i)%nat
          with (length (sent w) + 1 + i)%nat by lia.
    + exists 1%nat. split; [simpl; lia|]. split.
      * simpl. now destruct rest.
      * exists 0%nat. split; [lia|]. rewrite Nat.add_0_r.
        intros H. apply Hacc in H as [reply H]. discriminate.
Qed.

(** [getFirstAccountId] never throws and sends one request. *)
Lemma getFirstAccountId_spec s w :
  exists v s' r,
    getFirstAccountId (s, w) = (Ok v, (s', with_sent (sent w ++ [r]) w))
    /\ txnCount s' = txnCount s /\ constraints s' = constraints s
    /\ step s' = step s.
Proof.
  unfold getFirstAccountId, try_catch, bind, api, Api.get. simpl.
  destruct (request_with_sent "/accounts"
              {| Api.init_method := "GET"; Api.init_body := None;
                 Api.init_headers := ∅ |} w) as (r & Hw & _).
  destruct (Api.request "/accounts" _ w) as [[reply|e] w1]; simpl in *; subst w1.
  - destruct (Api.data reply) as [| | | | |[|first xs]| |];
      try (do 3 eexists; split; [reflexivity|]; repeat split).
    unfold lift. destruct (get_prop first "id") as [id|e'];
      do 3 eexists; (split; [reflexivity|]); repeat split.
  - do 3 eexists. split; [reflexivity|]. repeat split.
Qed.

#[local] Arguments post_each : simpl never.
#[local] Arguments SampleTransactions.buildTransactionPayload : simpl never.

Lemma addSampleTransactions_try_spec s s1 w :
  match addSampleTransactions_try s (s1, w) with
  | (Ok _, (s', w')) =>
      txnCount s' = txnCount s1
      \/ (txnCount s' = 10
          /\ exists aid pre,
               truthy aid = true
               /\ (length pre <= 1)%nat
               /\ (truthy (accountId s) = true -> aid = accountId s /\ pre = [])
               /\ sent w'
                  = sent w ++ pre
                    ++ List.map (txn_request w)
                         (SampleTransactions.buildTransactionPayload w aid)
               /\ forall i, (i < 10)%nat ->
                            accepted w (length (sent w) + length pre + i))
  | (Throw _, (s', w')) => txnCount s' = txnCount s1
  end.
Proof.
  unfold addSampleTransactions_try, bind.
  destruct (truthy (accountId s)) eqn:Hacc.
  - unfold ret, world. cbn [fst snd]. rewrite Hacc. cbn [fst snd negb].
    destruct (post_each_spec
                (SampleTransactions.buildTransactionPayload w (accountId s)) 0 s1 w)
      as (k & Hk & Hsnd & Hfst).
    destruct (post_each _ 0 (s1, w)) as [[n|e] st1]; cbn [fst snd] in *;
      subst st1; [|reflexivity].
    destruct Hfst as (-> & -> & Hall). right. split; [reflexivity|].
    exists (accountId s), []. split; [exact Hacc|]. split; [simpl; lia|].
    split; [tauto|]. cbn [fst snd sent with_sent app].
    split; [now rewrite firstn_all|].
    intros i Hi. simpl. rewrite Nat.add_0_r. apply Hall. exact Hi.
  - destruct (getFirstAccountId_spec s1 w) as (v & s2 & r & Hget & Ht & _).
    rewrite Hget. cbn [fst snd].
    destruct (truthy v) eqn:Hv; cbn [fst snd negb].
    + unfold world. cbn [fst snd].
      destruct (post_each_spec
                  (SampleTransactions.buildTransactionPayload
                     (with_sent (sent w ++ [r]) w) v) 0 s2
                  (with_sent (sent w ++ [r]) w))
        as (k & Hk & Hsnd & Hfst).
      destruct (post_each _ 0 (s2, _)) as [[n|e] st1]; cbn [fst snd] in *;
        subst st1; [|exact Ht].
      destruct Hfst as (-> & -> & Hall). right. split; [reflexivity|].
      exists v, [r]. split; [exact Hv|]. split; [simpl; lia|].
      split; [discriminate|]. cbn [fst snd sent with_sent].
      split; [rewrite firstn_all; now rewrite <- app_assoc|].
      intros i Hi. specialize (Hall i Hi). unfold accepted in *.
      cbn [sent server with_sent] in Hall. rewrite length_app in Hall.
      exact Hall.
    + left. cbn. exact Ht.
Qed.

(** With the account id on the page, ten accepted posts set the count. *)
Lemma addSampleTransactions_try_accepted s s1 w :
  truthy (accountId s) = true ->
  (forall i, (i < 10)%nat -> accepted w (length (sent w) + i)) ->
  exists s' w',
    addSampleTransactions_try s (s1, w) = (Ok tt, (s', w'))
    /\ txnCount s' = 10.
Proof.
  intros Hacc Hall.
  unfold addSampleTransactions_try, bind. rewrite Hacc.
  unfold ret, world. cbn [fst snd]. rewrite Hacc. cbn [fst snd negb].
  destruct (post_each_spec
              (SampleTransactions.buildTransactionPayload w (accountId s)) 0 s1 w)
    as (k & Hk & Hsnd & Hfst).
  destruct (post_each _ 0 (s1, w)) as [[n|e] st1]; cbn [fst snd] in *; subst st1.
  - destruct Hfst as (-> & _). do 2 eexists. split; reflexivity.
  - destruct Hfst as (i & Hi & Hno). exfalso. apply Hno, Hall. exact Hi.
Qed.

(** X8.  "Add sample transactions" sets the count only when all ten
    posts went through, each answered by a success, and then to 10, after
    posting the ten payloads of one account in order (preceded by the
    lookup of the first account when the page holds no account id); in
    every other case the count is what it was.  With an account id on the
    page, ten accepted posts do set it.  The step does not move and the
    wizard is not left busy. *)
Theorem sample_transactions_all_or_nothing (s : State) (w : World) :
  (txnCount (fst (snd (addSampleTransactions s (s, w)))) = txnCount s
   \/ (txnCount (fst (snd (addSampleTransactions s (s, w)))) = 10
       /\ exists aid pre,
            truthy aid = true
            /\ (length pre <= 1)%nat
            /\ (truthy (accountId s) = true -> aid = accountId s /\ pre = [])
            /\ sent (snd (snd (addSampleTransactions s (s, w))))
               = sent w ++ pre
                 ++ List.map (txn_request w)
                      (SampleTransactions.buildTransactionPayload w aid)
            /\ forall i, (i < 10)%nat ->
                         accepted w (length (sent w) + length pre + i)))
  /\ (truthy (accountId s) = true ->
      (forall i, (i < 10)%nat -> accepted w (length (sent w) + i)) ->
      txnCount (fst (snd (addSampleTransactions s (s, w)))) = 10)
  /\ step (fst (snd (addSampleTransactions s (s, w)))) = step s
  /\ loading (fst (snd (addSampleTransactions s (s, w)))) = false.
Proof.
  split; [|split; [|split;
    [ apply (OnboardingFacts.addSampleTransactions_same_step s (s, w))
    | apply submitting_not_busy ]]].
  - pose proof (addSampleTransactions_try_spec s
                  (setLoading true (setRequestId VNull (setError (VStr "") s))) w)
      as Htry.
    unfold addSampleTransactions, submitting, clearError.
    unfold bind, try_finally, try_catch, set. cbn [fst snd].
    destruct (addSampleTransactions_try s _) as [[u|e] [s' w']]; cbn [fst snd].
    + exact Htry.
    + left. destruct (handleError_same_lists e (s', w')) as [_ Ht].
      destruct (handleError e (s', w')) as [r st2]. simpl in *. congruence.
  - intros Hacc Hall.
    destruct (addSampleTransactions_try_accepted s
                (setLoading true (setRequestId VNull (setError (VStr "") s))) w
                Hacc Hall) as (s' & w' & Htry & Hn).
    unfold addSampleTransactions, submitting, clearError.
    unfold bind, try_finally, try_catch, set. cbn [fst snd].
    rewrite Htry. cbn [fst snd]. exact Hn.
Qed.

(** With an account id on the page and a backend that accepts, the count
    becomes 10 after ten posts. *)
Example sample_transactions_posted :
  let st := snd (addSampleTransactions
                   (setAccountId (VStr "0b1e") initial)
                   (setAccountId (VStr "0b1e") initial, accepting)) in
  txnCount (fst st) = 10 /\ length (sent (snd st)) = 10%nat.
Proof. vm_compute. split; reflexivity. Qed.

(** *** Constraints *)

Lemma handle_other_same_lists a s :
  a <> ClickAddConstraint -> a <> ClickAddSample -> respects same_lists (handle a s).
Proof.
  intros Ha Hb. unfold handle.
  destruct a; try contradiction;
    unfold submitConsent, submitAccount, submitTransactions, submitGoals,
      startRun, submitting, clearError, submitConsent_try, when;
    keeps_lists.
  all: apply handleError_same_lists.
Qed.

Lemma addSampleTransactions_constraints s st :
  constraints (fst (snd (addSampleTransactions s st))) = constraints (fst st).
Proof.
  revert st.
  assert (H : respects (fun st st' : State * World =>
                          constraints (fst st') = constraints (fst st))
                       (addSampleTransactions s)).
  { assert (HR : PreOrder (fun st st' : State * World =>
                             constraints (fst st') = constraints (fst st))).
    { split; [intros ?; reflexivity | intros a b c H1 H2; congruence]. }
    unfold addSampleTransactions, submitting, clearError,
      addSampleTransactions_try, getFirstAccountId, handleError.
    respects_with HR
      ltac:(first [ apply respects_api; intros; reflexivity
                  | apply respects_set; intros; reflexivity
                  | apply respects_router; intros; reflexivity ]).
    all: match goal with
         | |- respects _ (post_each ?l ?c) =>
             generalize c; induction l; intros; simpl;
             respects_with HR
               ltac:(first [ apply respects_api; intros; reflexivity
                           | apply respects_set; intros; reflexivity ]);
             auto
         end. }
  exact H.
Qed.

(** One action adds at most one constraint, a label that is not blank. *)
Lemma act_constraints a s w :
  constraints (fst (act a (s, w))) = constraints s
  \/ exists label,
       label <> ""
       /\ label = trim (constraintLabel s)
       /\ constraints (fst (act a (s, w))) = constraints s ++ [label].
Proof.
  destruct a;
    try (left; apply (handle_other_same_lists _ s); discriminate).
  - left. unfold act, handle. simpl.
    destruct (checking s); [reflexivity|].
    destruct ((at_step s 2) && negb (loading s)); [|reflexivity].
    apply addSampleTransactions_constraints.
  - unfold act, handle, addConstraint. simpl.
    destruct (checking s); [now left|].
    destruct (at_step s 3); [|now left].
    destruct (String.eqb_spec (trim (constraintLabel s)) "") as [E|E];
      simpl; [now left|].
    unfold bind, try_catch, clearError, set, api. simpl.
    destruct (Api.post "/goals/constraints" _ w) as [[r|e] w1]; simpl.
    + right. exists (trim (constraintLabel s)). repeat split; assumption.
    + left. destruct (handleError_same_lists e
                        (setRequestId VNull (setError (VStr "") s), w1)) as [H _].
      exact H.
Qed.

(** What the handler writes comes from the render it was started from. *)
Lemma addConstraint_writes s0 st :
  constraints (fst (snd (addConstraint s0 st))) = constraints (fst st)
  \/ (trim (constraintLabel s0) <> ""
      /\ constraints (fst (snd (addConstraint s0 st)))
         = constraints s0 ++ [trim (constraintLabel s0)]).
Proof.
  destruct st as [s w]. unfold addConstraint. cbn [truthy].
  destruct (String.eqb_spec (trim (constraintLabel s0)) "") as [E|E];
    simpl; [now left|].
  unfold bind, try_catch, clearError, set, api. simpl.
  destruct (Api.post "/goals/constraints" _ w) as [[r|e] w1]; simpl.
  - right. split; [exact E | reflexivity].
  - left. destruct (handleError_same_lists e
                      (setRequestId VNull (setError (VStr "") s), w1)) as [H _].
    exact H.
Qed.

(** X9.  When each click is handled before the next, the list of
    constraints only grows at its end, by one label per action at most and
    never by a label that trims to the empty string.  The handler writes
    the list of the render it was started from with its label added: one
    started before an earlier one has finished drops what that one
    stored. *)
Theorem constraints_only_grow (actions : list Action) (s : State) (w : World) :
  (exists added,
     constraints (fst (run actions (s, w))) = constraints s ++ added
     /\ Forall (fun label => label <> "") added
     /\ (length added <= length actions)%nat)
  /\ (forall (s0 : State) (st : State * World),
        constraints (fst (snd (addConstraint s0 st))) = constraints (fst st)
        \/ (trim (constraintLabel s0) <> ""
            /\ constraints (fst (snd (addConstraint s0 st)))
               = constraints s0 ++ [trim (constraintLabel s0)])).
Proof.
  split; [|apply addConstraint_writes].
  revert s w. induction actions as [|a rest IH]; intros s w; simpl.
  - exists []. rewrite app_nil_r.
    split; [reflexivity|]. split; [apply Forall_nil_2 | simpl; lia].
  - destruct (act a (s, w)) as [s1 w1] eqn:Ha.
    destruct (IH s1 w1) as (added & Hrun & Hall & Hlen).
    pose proof (act_constraints a s w) as H. rewrite Ha in H. simpl in H.
    destruct H as [H | (label & Hne & _ & H)]; rewrite Hrun, H.
    + exists added. split; [reflexivity|]. split; [exact Hall | simpl; lia].
    + exists (label :: added). rewrite <- app_assoc. simpl.
      split; [reflexivity|]. split; [now apply Forall_cons_2 | simpl; lia].
Qed.

(** A blank label at the goals step, of spaces and a no-break space:
    nothing is sent, nothing changes. *)
Example blank_constraint_ignored :
  let s := setConstraintLabel (" " +:+ no_break_space +:+ " ")
             (setStep (VNum 3) (setChecking false initial)) in
  act ClickAddConstraint (s, accepting) = (s, accepting).
Proof. vm_compute. reflexivity. Qed.

(** Two clicks on Add, the second made while the first awaits its reply:
    both handlers start from a render without constraints, and the label
    of the first is lost. *)
Example overlapping_adds_lose_a_label :
  let s0 := setConstraintLabel "rent" (setStep (VNum 3) (setChecking false initial)) in
  let s1 := setConstraintLabel "food" s0 in
  let st := snd (addConstraint s1 (snd (addConstraint s0 (s1, accepting)))) in
  constraints (fst st) = ["food"] /\ length (sent (snd st)) = 2%nat.
Proof. vm_compute. split; reflexivity. Qed.

(** *** Navigation *)

Lemma to_runs_only_preorder : PreOrder to_runs_only.
Proof.
  split.
  - intros st. exists []. now rewrite app_nil_r.
  - intros a b c (n1 & E1 & F1) (n2 & E2 & F2). exists (n1 ++ n2).
    rewrite E2, E1, <- app_assoc. split; [reflexivity|].
    now rewrite forallb_app, F1, F2.
Qed.

Lemma request_navigations path opts w :
  navigations (snd (Api.request path opts w)) = navigations w.
Proof. now rewrite ApiFacts.request_world. Qed.

Ltac to_runs_leaf :=
  first [ apply respects_api; intros; exists []; simpl;
          rewrite app_nil_r;
          split; [first [ apply request_navigations
                        | apply (request_navigations _ (Api.with_body _ _)) ]
                 | reflexivity]
        | apply respects_set; intros; exists []; simpl;
          now rewrite app_nil_r
        | apply respects_router; intros; eexists [_]; simpl;
          split; reflexivity ].

Ltac runs_only := respects_with to_runs_only_preorder to_runs_leaf.


Lemma handle_to_runs_only a s : respects to_runs_only (handle a s).
Proof.
  unfold handle, submitConsent, submitAccount, submitTransactions, submitGoals,
    addSampleTransactions, startRun, addConstraint, submitting, clearError,
    submitConsent_try, submitAccount_try, submitTransactions_try,
    submitGoals_try, addSampleTransactions_try, startRun_try,
    getFirstAccountId, handleError, when.
  destruct a; runs_only.
  all: match goal with
       | |- respects _ (post_each ?l ?c) =>
           generalize c; induction l; intros; simpl; runs_only; auto
       end.
Qed.

Lemma handle_stays a s :
  (forall card, a <> ClickStart card) ->
  forall st, navigations (snd (snd (handle a s st))) = navigations (snd st).
Proof.
  intros Ha.
  assert (HR : PreOrder (fun st st' : State * World =>
                           navigations (snd st') = navigations (snd st))).
  { split; [intros ?; reflexivity | intros a0 b c H1 H2; congruence]. }
  assert (H : respects (fun st st' : State * World =>
                          navigations (snd st') = navigations (snd st))
                       (handle a s)).
  { unfold handle, submitConsent, submitAccount, submitTransactions, submitGoals,
      addSampleTransactions, addConstraint, submitting, clearError,
      submitConsent_try, submitAccount_try, submitTransactions_try,
      submitGoals_try, addSampleTransactions_try,
      getFirstAccountId, handleError, when.
    destruct a; try (exfalso; eapply Ha; reflexivity);
      respects_with HR
        ltac:(first [ apply respects_api; intros; simpl;
                      first [ apply request_navigations
                            | apply (request_navigations _ (Api.with_body _ _)) ]
                    | apply respects_set; intros; reflexivity ]).
    all: match goal with
         | |- respects _ (post_each ?l ?c) =>
             generalize c; induction l; intros; simpl;
             respects_with HR
               ltac:(first [ apply respects_api; intros; simpl;
                             apply (request_navigations _ (Api.with_body _ _))
                           | apply respects_set; intros; reflexivity ]);
             auto
         end. }
  exact H.
Qed.

(** X10.  The wizard never redirects by itself: over every sequence of
    actions and whatever the backend answers, the only navigations are
    pushes of a run page, and there is none at all without a click on a
    Start button. *)
Theorem wizard_leaves_for_runs_only (actions : list Action) (st : State * World) :
  (exists new,
     navigations (snd (run actions st)) = navigations (snd st) ++ new
     /\ forallb is_push_run new = true)
  /\ ((forall a card, In a actions -> a <> ClickStart card) ->
      navigations (snd (run actions st)) = navigations (snd st)).
Proof.
  split.
  - revert st. induction actions as [|a rest IH]; intros st; simpl.
    + exists []. now rewrite app_nil_r.
    + destruct (handle_to_runs_only a (fst st) st) as (n1 & E1 & F1).
      destruct (IH (act a st)) as (n2 & E2 & F2).
      exists (n1 ++ n2). rewrite E2. unfold act. rewrite E1, <- app_assoc.
      split; [reflexivity|]. now rewrite forallb_app, F1, F2.
  - revert st. induction actions as [|a rest IH]; intros st Hno; simpl.
    + reflexivity.
    + rewrite IH.
      * apply handle_stays. intros card. apply Hno. simpl. auto.
      * intros a' card Hin. apply Hno. simpl. auto.
Qed.


End OnboardingMore.

(** ** More on the pages *)

Module PagesMore.
Import MoreSpec.

(** The outcomes of a call, with the world each leaves. *)
Lemma request_replied path opts w res d :
  server w (length (sent w)) = Responded res ->
  200 <= status res <= 299 ->
  status res <> 204 ->
  body res = Some d ->
  exists rid r,
    Api.request path opts w
    = (Ok {| Api.data := d; Api.reply_requestId := rid |},
       with_sent (sent w ++ [r]) w)
    /\ req_method r = Api.init_method opts
    /\ req_url r = Api.BASE w +:+ path.
Proof.
  intros Hres Hst Hne Hd.
  destruct (OnboardingMore.request_with_sent path opts w) as (r & Hw & Hm & Hu & _).
  exists (Api.or_header (Api.headers_get (headers res) "x-request-id")
                        (Api.headers_get (headers res) "X-Request-ID")), r.
  split; [|split; assumption].
  rewrite <- Hw. unfold Api.request. rewrite Hres.
  apply ApiFacts.ok_iff in Hst. rewrite Hst. simpl.
  destruct (Z.eqb_spec (status res) 204) as [E|_]; [contradiction|].
  now rewrite Hd.
Qed.

Lemma request_refused path opts w res :
  server w (length (sent w)) = Responded res ->
  ~ 200 <= status res <= 299 ->
  exists r,
    Api.request path opts w
    = (Throw (VObj [("message", Api.error_message res);
                    ("requestId",
                     of_option_string (Api.headers_get (headers res) "x-request-id"));
                    ("status", VNum (inject_Z (status res)))]),
       with_sent (sent w ++ [r]) w)
    /\ req_method r = Api.init_method opts
    /\ req_url r = Api.BASE w +:+ path.
Proof.
  intros Hres Hst.
  destruct (OnboardingMore.request_with_sent path opts w) as (r & Hw & Hm & Hu & _).
  exists r. split; [|split; assumption].
  rewrite <- Hw. unfold Api.request. rewrite Hres.
  assert (Hok : Api.ok res = false).
  { destruct (Api.ok res) eqn:E; [|reflexivity]. apply ApiFacts.ok_iff in E. tauto. }
  rewrite Hok. simpl.
  now rewrite ApiFacts.headers_get_request_id, ApiFacts.or_header_same.
Qed.




(** The two loads of the dashboard never throw, send one request each
    and touch their own cell only. *)
Lemma loadForecast_spec s w :
  exists s' r,
    Home.loadForecast (s, w) = (Ok tt, (s', with_sent (sent w ++ [r]) w))
    /\ req_url r = Api.BASE w +:+ "/forecast/latest"
    /\ (s' = s \/ exists d, s' = Home.setForecast d s).
Proof.
  unfold Home.loadForecast, try_catch, bind, api, set, ret, Api.get. simpl.
  destruct (OnboardingMore.request_with_sent "/forecast/latest"
              {| Api.init_method := "GET"; Api.init_body := None;
                 Api.init_headers := ∅ |} w) as (r & Hw & _ & Hu & _).
  destruct (Api.request "/forecast/latest" _ w) as [[reply|e] w1];
    simpl in *; subst w1; do 2 eexists; (split; [reflexivity|]);
    (split; [exact Hu|]); eauto.
Qed.

Lemma loadRecs_spec s w :
  exists s' r,
    Home.loadRecs (s, w) = (Ok tt, (s', with_sent (sent w ++ [r]) w))
    /\ req_url r = Api.BASE w +:+ "/cheat-codes/recommendations"
    /\ (s' = s \/ exists xs, s' = Home.setRecs xs s).
Proof.
  unfold Home.loadRecs, try_catch, bind, api, set, ret, Api.get. simpl.
  destruct (OnboardingMore.request_with_sent "/cheat-codes/recommendations"
              {| Api.init_method := "GET"; Api.init_body := None;
                 Api.init_headers := ∅ |} w) as (r & Hw & _ & Hu & _).
  destruct (Api.request "/cheat-codes/recommendations" _ w) as [[reply|e] w1];
    simpl in *; subst w1; do 2 eexists; (split; [reflexivity|]);
    (split; [exact Hu|]); eauto.
Qed.

(** The load of the home page once the onboarding state has arrived. *)
Lemma home_with_state w res state :
  Api.hasToken w = true ->
  server w (length (sent w)) = Responded res ->
  200 <= status res <= 299 ->
  status res <> 204 ->
  body res = Some (VObj state) ->
  if negb (truthy (field "first_win_completed_at" state))
     && negb (Onboarding.is_str (field "current_step" state) "completed")
  then
    exists r,
      snd (Home.mount (Home.initial, w))
      = (Home.setLoading false Home.initial,
         navigate (Replace "/onboarding") (with_sent (sent w ++ [r]) w))
  else
    exists s' r1 r2 r3,
      snd (Home.mount (Home.initial, w))
      = (Home.setLoading false s', with_sent (sent w ++ [r1; r2; r3]) w)
      /\ Home.error s' = VStr "" /\ Home.requestId s' = VNull
      /\ req_url r1 = Api.BASE w +:+ "/onboarding/state"
      /\ req_url r2 = Api.BASE w +:+ "/forecast/latest"
      /\ req_url r3 = Api.BASE w +:+ "/cheat-codes/recommendations".
Proof.
  intros Htok Hres Hst Hne Hbody.
  destruct (request_replied "/onboarding/state"
              {| Api.init_method := "GET"; Api.init_body := None;
                 Api.init_headers := ∅ |} w res (VObj state) Hres Hst Hne Hbody)
    as (rid & r & Hget & _ & Hu).
  unfold Home.mount, Home.checkOnboardingAndLoad.
  unfold bind, world, try_finally, try_catch, api, lift, set, router, ret, Api.get.
  cbn [fst snd]. rewrite Htok. cbn [negb fst snd]. rewrite Hget. cbn [fst snd].
  cbn [Api.data get_prop].
  destruct (truthy (field "first_win_completed_at" state)); cbn [negb andb];
    [|destruct (Onboarding.is_str (field "current_step" state) "completed");
      cbn [negb andb]].
  3: { eexists. reflexivity. }
  all: destruct (loadForecast_spec Home.initial (with_sent (sent w ++ [r]) w))
         as (s1 & r2 & Hf & Hu2 & Hs1); rewrite Hf; cbn [fst snd].
  all: destruct (loadRecs_spec s1
                   (with_sent (sent (with_sent (sent w ++ [r]) w) ++ [r2])
                              (with_sent (sent w ++ [r]) w)))
         as (s2 & r3 & Hr & Hu3 & Hs2).
  all: rewrite Hr; cbn [fst snd].
  all: exists s2, r, r2, r3.
  all: split; [unfold with_sent; simpl; rewrite <- !app_assoc; reflexivity|].
  all: destruct Hs1 as [-> | [d ->]], Hs2 as [-> | [xs ->]];
    repeat split; assumption.
Qed.

(** The two loads of the dashboard, one after the other. *)
Lemma home_loads s0 w0 :
  exists s' r2 r3,
    bind Home.loadForecast (fun _ => Home.loadRecs) (s0, w0)
    = (Ok tt, (s', with_sent (sent w0 ++ [r2; r3]) w0)).
Proof.
  unfold bind.
  destruct (loadForecast_spec s0 w0) as (s1 & r2 & Hf & _). rewrite Hf.
  destruct (loadRecs_spec s1 (with_sent (sent w0 ++ [r2]) w0))
    as (s2 & r3 & Hr & _). rewrite Hr.
  exists s2, r2, r3. unfold with_sent. simpl. now rewrite <- app_assoc.
Qed.

(** Where the home page goes for a reply to the state request. *)
Lemma home_navigations w reply w1 :
  Api.hasToken w = true ->
  Api.get "/onboarding/state" w = (Ok reply, w1) ->
  navigations (snd (snd (Home.mount (Home.initial, w))))
  = navigations w
    ++ match get_prop (Api.data reply) "first_win_completed_at",
             get_prop (Api.data reply) "current_step" with
       | Ok first_win, Ok current_step =>
           if truthy first_win || Onboarding.is_str current_step "completed"
           then [] else [Replace "/onboarding"]
       | _, _ => []
       end.
Proof.
  intros Htok Hget.
  destruct (OnboardingMore.request_with_sent "/onboarding/state"
              {| Api.init_method := "GET"; Api.init_body := None;
                 Api.init_headers := ∅ |} w) as (r & Hw & _).
  unfold Home.mount, Home.checkOnboardingAndLoad.
  set (loads := bind Home.loadForecast (fun _ => Home.loadRecs)).
  assert (Hloads : forall s0 w0, exists s' r2 r3,
             loads (s0, w0) = (Ok tt, (s', with_sent (sent w0 ++ [r2; r3]) w0)))
    by apply home_loads.
  clearbody loads.
  unfold bind, world, try_finally, try_catch, api, lift, set, router, ret.
  cbn [fst snd]. rewrite Htok. cbn [negb fst snd]. rewrite Hget.
  unfold Api.get in Hget. rewrite Hget in Hw. cbn [fst snd] in *. subst w1.
  destruct (Hloads Home.initial (with_sent (sent w ++ [r]) w))
    as (s' & r2 & r3 & Hl).
  destruct (get_prop (Api.data reply) "first_win_completed_at") as [fw|e1] eqn:Hfw.
  - assert (Hcs : exists cs, get_prop (Api.data reply) "current_step" = Ok cs).
    { destruct (Api.data reply); try discriminate; eexists; reflexivity. }
    destruct Hcs as [cs Hcs]. rewrite Hcs. cbn [fst snd].
    destruct (truthy fw); cbn [orb fst snd].
    + rewrite Hl. cbn. now rewrite app_nil_r.
    + destruct (Onboarding.is_str cs "completed"); cbn [negb fst snd].
      * rewrite Hl. cbn. now rewrite app_nil_r.
      * reflexivity.
  - assert (He : e1 = type_error "Cannot read properties").
    { destruct (Api.data reply); simpl in Hfw; congruence. }
    subst e1. cbn. now rewrite app_nil_r.
Qed.

(** Where the onboarding page goes for a reply to the state request. *)
Lemma onboarding_navigations w reply w1 :
  Api.hasToken w = true ->
  Api.get "/onboarding/state" w = (Ok reply, w1) ->
  navigations (snd (snd (Onboarding.mount (Onboarding.initial, w))))
  = navigations w
    ++ match get_prop (Api.data reply) "first_win_completed_at",
             get_prop (Api.data reply) "current_step" with
       | Ok first_win, Ok current_step =>
           if truthy first_win || Onboarding.is_str current_step "completed"
           then [Replace "/home"] else []
       | _, _ => []
       end.
Proof.
  intros Htok Hget.
  destruct (OnboardingMore.request_with_sent "/onboarding/state"
              {| Api.init_method := "GET"; Api.init_body := None;
                 Api.init_headers := ∅ |} w) as (r & Hw & _).
  unfold Onboarding.mount.
  assert (Htail : forall s st, snd (snd (Onboarding.setStep_of_map w s st)) = snd st).
  { intros s [s0 w0]. unfold Onboarding.setStep_of_map, bind, lift, set.
    destruct (property_key s) as [[name|]|e]; simpl; try reflexivity.
    destruct (Onboarding.map !! name); simpl; [reflexivity|].
    destruct (Object_prototype w name); reflexivity. }
  unfold bind, world, try_finally, try_catch, api, lift, set, router, ret.
  cbn [fst snd]. rewrite Htok. cbn [negb fst snd]. rewrite Hget.
  unfold Api.get in Hget. rewrite Hget in Hw. cbn [fst snd] in *. subst w1.
  destruct (get_prop (Api.data reply) "current_step") as [cs|e1] eqn:Hcs.
  - assert (Hfw : exists fw, get_prop (Api.data reply) "first_win_completed_at" = Ok fw).
    { destruct (Api.data reply); try discriminate; eexists; reflexivity. }
    destruct Hfw as [fw Hfw]. rewrite Hfw. cbn [fst snd].
    destruct (Onboarding.is_str cs "completed"); cbn [fst snd].
    + rewrite orb_true_r. reflexivity.
    + rewrite orb_false_r. destruct (truthy fw); cbn [fst snd]; [reflexivity|].
      destruct (Onboarding.in_map w cs) as [[|]|e]; cbn [fst snd];
        try (cbn; now rewrite app_nil_r).
      destruct (Onboarding.is_str cs "account_link"); cbn [fst snd];
        [cbn; now rewrite app_nil_r|].
      destruct (Onboarding.is_str cs "goals"); cbn [fst snd];
        [cbn; now rewrite app_nil_r|].
      destruct (Onboarding.is_str cs "top_3" || Onboarding.is_str cs "first_win");
        cbn [fst snd]; [cbn; now rewrite app_nil_r|].
      pose proof (Htail cs (Onboarding.initial, with_sent (sent w ++ [r]) w)) as Ht.
      destruct (Onboarding.setStep_of_map w cs _) as [[u|e] [s2 w2]];
        cbn [fst snd] in *; subst w2; cbn; now rewrite app_nil_r.
  - assert (Hfw : get_prop (Api.data reply) "first_win_completed_at" = Throw e1).
    { destruct (Api.data reply); simpl in Hcs |- *; congruence. }
    rewrite Hfw. cbn. now rewrite app_nil_r.
Qed.

(** X13.  For one and the same reply to the state request, the two pages
    never send the user to each other in turn: when the state read has a
    First Win or the step "completed", the onboarding page goes to /home
    and the home page stays; when it has neither, the home page goes to
    /onboarding and the onboarding page stays; when the reply holds no
    state (null, or nothing at all) both pages stay.  When the call fails
    the onboarding page stays, and the home page stays or goes to
    /login. *)
Theorem home_and_onboarding_agree (w : World) :
  Api.hasToken w = true ->
  match fst (Api.get "/onboarding/state" w) with
  | Ok reply =>
      match get_prop (Api.data reply) "first_win_completed_at",
            get_prop (Api.data reply) "current_step" with
      | Ok first_win, Ok current_step =>
          if truthy first_win || Onboarding.is_str current_step "completed"
          then
            navigations (snd (snd (Home.mount (Home.initial, w)))) = navigations w
            /\ navigations (snd (snd (Onboarding.mount (Onboarding.initial, w))))
               = navigations w ++ [Replace "/home"]
          else
            navigations (snd (snd (Home.mount (Home.initial, w))))
            = navigations w ++ [Replace "/onboarding"]
            /\ navigations (snd (snd (Onboarding.mount (Onboarding.initial, w))))
               = navigations w
      | _, _ =>
          navigations (snd (snd (Home.mount (Home.initial, w)))) = navigations w
          /\ navigations (snd (snd (Onboarding.mount (Onboarding.initial, w))))
             = navigations w
      end
  | Throw _ =>
      (navigations (snd (snd (Home.mount (Home.initial, w)))) = navigations w
       \/ navigations (snd (snd (Home.mount (Home.initial, w))))
          = navigations w ++ [Replace "/login"])
      /\ navigations (snd (snd (Onboarding.mount (Onboarding.initial, w))))
         = navigations w
  end.
Proof.
  intros Htok.
  destruct (Api.get "/onboarding/state" w) as [[reply|e] w1] eqn:Hget;
    cbn [fst].
  - rewrite (home_navigations w reply w1 Htok Hget),
      (onboarding_navigations w reply w1 Htok Hget).
    destruct (get_prop (Api.data reply) "first_win_completed_at") as [fw|];
      [|split; now rewrite app_nil_r].
    destruct (get_prop (Api.data reply) "current_step") as [cs|];
      [|split; now rewrite app_nil_r].
    destruct (truthy fw || Onboarding.is_str cs "completed");
      split; now rewrite ?app_nil_r.
  - destruct (OnboardingMore.request_with_sent "/onboarding/state"
                {| Api.init_method := "GET"; Api.init_body := None;
                   Api.init_headers := ∅ |} w) as (r & Hw & _).
    unfold Api.get in Hget. rewrite Hget in Hw. cbn [snd] in Hw. subst w1.
    split.
    + unfold Home.mount, Home.checkOnboardingAndLoad.
      unfold bind, world, try_finally, try_catch, api, lift, set, router, ret.
      cbn [fst snd]. rewrite Htok. cbn [negb fst snd].
      unfold Api.get. rewrite Hget. cbn [fst snd].
      destruct (HomeFacts.home_on_error e Home.initial
                  (with_sent (sent w ++ [r]) w)) as (s' & Hs & _).
      destruct (Home.on_error e _) as [res [s2 w2]]. cbn [fst snd] in *.
      destruct Hs as [[= -> ->] | [= -> ->]]; [left | right]; reflexivity.
    + unfold Onboarding.mount.
      unfold bind, world, try_finally, try_catch, api, lift, set, router, ret.
      cbn [fst snd]. rewrite Htok. cbn [negb fst snd].
      unfold Api.get. rewrite Hget. reflexivity.
Qed.

(** X14.  Once the onboarding state shows First Win or the step
    "completed", the dashboard sends exactly its three requests and
    neither of its two loads can disturb it: whatever the forecast and the
    recommendation calls answer, no error is shown, nothing is navigated
    and the page leaves the loading state. *)
Theorem dashboard_loads_are_silent (w : World) (res : Response)
    (state : list (string * value)) :
  Api.hasToken w = true ->
  server w (length (sent w)) = Responded res ->
  200 <= status res <= 299 ->
  status res <> 204 ->
  body res = Some (VObj state) ->
  truthy (field "first_win_completed_at" state) = true
  \/ field "current_step" state = VStr "completed" ->
  Home.error (fst (snd (Home.mount (Home.initial, w)))) = VStr ""
  /\ Home.loading (fst (snd (Home.mount (Home.initial, w)))) = false
  /\ navigations (snd (snd (Home.mount (Home.initial, w)))) = navigations w
  /\ exists r1 r2 r3,
       sent (snd (snd (Home.mount (Home.initial, w)))) = sent w ++ [r1; r2; r3]
       /\ req_url r1 = Api.BASE w +:+ "/onboarding/state"
       /\ req_url r2 = Api.BASE w +:+ "/forecast/latest"
       /\ req_url r3 = Api.BASE w +:+ "/cheat-codes/recommendations".
Proof.
  intros Htok Hres Hst Hne Hbody Hdone.
  pose proof (home_with_state w res state Htok Hres Hst Hne Hbody) as Hh.
  assert (Hgate : negb (truthy (field "first_win_completed_at" state))
                  && negb (Onboarding.is_str (field "current_step" state) "completed")
                  = false).
  { destruct Hdone as [-> | ->]; [reflexivity|]. simpl. apply andb_false_r. }
  rewrite Hgate in Hh.
  destruct Hh as (s' & r1 & r2 & r3 & -> & He & _ & H1 & H2 & H3).
  split; [exact He|]. split; [reflexivity|]. split; [reflexivity|].
  exists r1, r2, r3. repeat split; assumption.
Qed.

Lemma home_and_onboarding_agree_witness :
  navigations (snd (snd (Home.mount
                           (Home.initial, ApiSpec.browser (Responded HomeSpec.at_goals)))))
  = [Replace "/onboarding"]
  /\ navigations (snd (snd (Onboarding.mount
                              (Onboarding.initial,
                               ApiSpec.browser (Responded HomeSpec.at_goals)))))
     = [].
Proof.
  pose proof (home_and_onboarding_agree
                (ApiSpec.browser (Responded HomeSpec.at_goals)) eq_refl) as H.
  remember (Home.mount (Home.initial, ApiSpec.browser (Responded HomeSpec.at_goals)))
    as home eqn:Hhome in H |- *.
  remember (Onboarding.mount
              (Onboarding.initial, ApiSpec.browser (Responded HomeSpec.at_goals)))
    as onboarding eqn:Honboarding in H |- *.
  vm_compute in H. exact H.
Defined.

Lemma dashboard_loads_are_silent_witness :
  Home.error (fst (snd (Home.mount
                          (Home.initial, ApiSpec.browser (Responded after_first_win)))))
  = VStr ""
  /\ length (sent (snd (snd (Home.mount
                               (Home.initial,
                                ApiSpec.browser (Responded after_first_win))))))
     = 3%nat.
Proof.
  assert (Hst : 200 <= status after_first_win <= 299) by (simpl; lia).
  assert (Hne : status after_first_win <> 204) by discriminate.
  destruct (dashboard_loads_are_silent (ApiSpec.browser (Responded after_first_win))
              after_first_win
              [("current_step", VStr "first_win");
               ("first_win_completed_at", VStr "2026-02-10T09:00:00Z")]
              eq_refl eq_refl Hst Hne eq_refl (or_introl eq_refl))
    as (He & _ & _ & r1 & r2 & r3 & Hs & _).
  split; [exact He|]. now rewrite Hs.
Defined.

Lemma is_num_inject st n : Home.is_num (VNum (inject_Z st)) n = (st =? n).
Proof.
  unfold Home.is_num, Qeq_bool, inject_Z. simpl.
  now rewrite !Z.mul_1_r.
Qed.

#[local] Arguments Home.is_num : simpl never.

(** X15.  A 401 on the onboarding state sends the user to /login without
    an error box and without clearing the token: the stored token is
    still there afterwards. *)
Theorem home_unauthorized_goes_to_login (w : World) (res : Response) :
  Api.hasToken w = true ->
  server w (length (sent w)) = Responded res ->
  status res = 401 ->
  exists r,
    snd (Home.mount (Home.initial, w))
    = (Home.setLoading false Home.initial,
       navigate (Replace "/login") (with_sent (sent w ++ [r]) w))
    /\ req_url r = Api.BASE w +:+ "/onboarding/state"
    /\ Api.hasToken (snd (snd (Home.mount (Home.initial, w)))) = true.
Proof.
  intros Htok Hres Hst.
  destruct (request_refused "/onboarding/state"
              {| Api.init_method := "GET"; Api.init_body := None;
                 Api.init_headers := ∅ |} w res Hres ltac:(lia))
    as (r & Hget & _ & Hu).
  exists r.
  unfold Home.mount, Home.checkOnboardingAndLoad, Home.on_error.
  unfold bind, world, try_finally, try_catch, api, lift, set, router, ret, Api.get.
  cbn [fst snd]. rewrite Htok. cbn [negb fst snd]. rewrite Hget. cbn [fst snd].
  simpl. cbn [field assoc String.eqb Ascii.eqb Bool.eqb].
  rewrite is_num_inject, Hst. simpl.
  split; [reflexivity|]. split; [exact Hu | exact Htok].
Qed.

Lemma home_unauthorized_goes_to_login_witness :
  navigations (snd (snd (Home.mount (Home.initial,
                                      ApiSpec.browser (Responded unauthorized)))))
  = [Replace "/login"]
  /\ Home.error (fst (snd (Home.mount (Home.initial,
                                        ApiSpec.browser (Responded unauthorized)))))
     = VStr "".
Proof.
  destruct (home_unauthorized_goes_to_login (ApiSpec.browser (Responded unauthorized))
              unauthorized eq_refl eq_refl eq_refl) as (r & H & _).
  rewrite H. split; reflexivity.
Defined.



(** *** The run page *)

(** The [catch] of the run page never throws, leaves the world alone and
    shows what it is given only when that is an [ApiError]. *)
Lemma run_on_error_spec e s w :
  displayable e ->
  exists s',
    RunPage.on_error e (s, w) = (Ok tt, (s', w))
    /\ RunPage.firstWin s' = RunPage.firstWin s
    /\ RunPage.completing s' = RunPage.completing s
    /\ RunPage.run s' = RunPage.run s
    /\ RunPage.title s' = RunPage.title s
    /\ RunPage.loading s' = RunPage.loading s
    /\ (if Api.isApiError e then truthy (RunPage.error s') = true else s' = s).
Proof.
  intros He. unfold RunPage.on_error.
  destruct (Api.isApiError e) eqn:Hapi.
  - destruct (He Hapi) as (fields & -> & Hm).
    eexists. split; [reflexivity|]. repeat split. exact Hm.
  - exists s. repeat split.
Qed.

(** X17.  "Complete step 1" ends with [completing] false.  When the
    completion call succeeds the banner flag is set and the button is gone
    whatever the two later calls answer: the advance to first_win, whose
    failure is swallowed, and the reload of the run, both of which are
    always sent.  When it fails nothing else is sent and the flag is as it
    was; the failure is shown when it is an [ApiError] and passes in
    silence otherwise. *)
Theorem completeStep1_outcome (runId : string) (s : RunPage.State) (w : World) :
  RunPage.completing (fst (snd (RunPage.completeStep1 runId (s, w)))) = false
  /\ match HomeSpec.completion runId w with
     | (Ok _, w1) =>
         RunPage.firstWin (fst (snd (RunPage.completeStep1 runId (s, w)))) = true
         /\ RunPage.complete_enabled (fst (snd (RunPage.completeStep1 runId (s, w))))
            = false
         /\ exists r2 r3,
              sent (snd (snd (RunPage.completeStep1 runId (s, w))))
              = sent w1 ++ [r2; r3]
              /\ req_url r2 = Api.BASE w +:+ "/onboarding/advance?step=first_win"
              /\ req_method r3 = "GET"
              /\ req_url r3 = Api.BASE w +:+ RunPage.run_path runId
     | (Throw e, w1) =>
         RunPage.firstWin (fst (snd (RunPage.completeStep1 runId (s, w))))
         = RunPage.firstWin s
         /\ snd (snd (RunPage.completeStep1 runId (s, w))) = w1
         /\ if Api.isApiError e
            then truthy (RunPage.error
                           (fst (snd (RunPage.completeStep1 runId (s, w))))) = true
            else RunPage.error (fst (snd (RunPage.completeStep1 runId (s, w))))
                 = VStr ""
     end.
Proof.
  unfold RunPage.completeStep1, RunPage.completeStep1_try.
  unfold bind, set, try_finally, try_catch, api, ret. cbn [fst snd].
  fold (HomeSpec.completion runId).
  pose proof (OnboardingMore.throws_request (RunPage.complete_path runId)
                (Api.with_body "POST"
                   (VObj [("step_number", VNum 1); ("notes", VStr "Completed step 1")]))
                w) as Hthrow.
  pose proof (OnboardingMore.request_with_sent (RunPage.complete_path runId)
                (Api.with_body "POST"
                   (VObj [("step_number", VNum 1); ("notes", VStr "Completed step 1")]))
                w) as (r1 & Hw1 & _).
  unfold HomeSpec.completion, Api.post in *.
  destruct (Api.request (RunPage.complete_path runId) _ w) as [[reply|e] w1];
    cbn [fst snd] in *; subst w1.
  - destruct (OnboardingMore.request_with_sent "/onboarding/advance?step=first_win"
                (Api.with_body "POST" VUndef) (with_sent (sent w ++ [r1]) w))
      as (r2 & Hw2 & _ & Hu2 & _).
    destruct (Api.request "/onboarding/advance?step=first_win" _ _)
      as [[reply2|e2] w2]; cbn [fst snd] in *; subst w2.
    all: pose proof (OnboardingMore.throws_request (RunPage.run_path runId)
                       {| Api.init_method := "GET"; Api.init_body := None;
                          Api.init_headers := ∅ |}
                       (with_sent (sent (with_sent (sent w ++ [r1]) w) ++ [r2])
                                  (with_sent (sent w ++ [r1]) w))) as Hthrow3.
    all: destruct (OnboardingMore.request_with_sent (RunPage.run_path runId)
                     {| Api.init_method := "GET"; Api.init_body := None;
                        Api.init_headers := ∅ |}
                     (with_sent (sent (with_sent (sent w ++ [r1]) w) ++ [r2])
                                (with_sent (sent w ++ [r1]) w)))
           as (r3 & Hw3 & Hm3 & Hu3 & _).
    all: unfold Api.get.
    all: destruct (Api.request (RunPage.run_path runId) _ _) as [[reply3|e3] w3];
      cbn [fst snd] in *; subst w3.
    all: try (destruct (run_on_error_spec e3
                          (RunPage.setFirstWin true
                             (RunPage.setCompleting true
                                (RunPage.setRequestId VNull
                                   (RunPage.setError (VStr "") s))))
                          (with_sent
                             (sent (with_sent (sent (with_sent (sent w ++ [r1]) w) ++ [r2])
                                              (with_sent (sent w ++ [r1]) w)) ++ [r3])
                             (with_sent (sent (with_sent (sent w ++ [r1]) w) ++ [r2])
                                        (with_sent (sent w ++ [r1]) w)))
                          (Hthrow3 _ _ eq_refl))
                as (s' & Herr & Hfw & Hc & _);
              rewrite Herr; cbn [fst snd]).
    all: split; [reflexivity|]; split; [first [reflexivity | exact Hfw]|].
    all: split;
      [ unfold RunPage.complete_enabled; cbn;
        rewrite ?Hfw; cbn; now rewrite ?andb_false_r |].
    all: exists r2, r3; split;
      [ unfold with_sent; cbn; now rewrite <- !app_assoc |].
    all: repeat split; assumption.
  - destruct (run_on_error_spec e
                (RunPage.setCompleting true
                   (RunPage.setRequestId VNull (RunPage.setError (VStr "") s)))
                (with_sent (sent w ++ [r1]) w) (Hthrow _ _ eq_refl))
      as (s' & Herr & Hfw & Hc & _ & _ & _ & Hshow).
    rewrite Herr. cbn [fst snd]. split; [reflexivity|].
    split; [exact Hfw|]. split; [reflexivity|].
    destruct (Api.isApiError e); [exact Hshow | now subst s'].
Qed.

Lemma cheat_code_title_throws d e :
  RunPage.cheat_code_title d = Throw e -> e = type_error "Cannot read properties".
Proof.
  unfold RunPage.cheat_code_title.
  destruct (get_prop d "cheat_code") as [cc|e'] eqn:Hcc.
  - destruct cc; simpl; congruence.
  - destruct d; simpl in Hcc; congruence.
Qed.

(** X18.  The load of a run stores the reply as it is and takes the title
    from [cheat_code.title] when that is truthy; a run without a cheat
    code, or without a title, keeps the title it had and raises no error,
    nor does a reply that is null.  The page always leaves the loading
    state. *)
Theorem loadRun_title_fallback (runId : string) (s : RunPage.State) (w : World) :
  RunPage.loading (fst (snd (RunPage.loadRun runId (s, w)))) = false
  /\ match Api.get (RunPage.run_path runId) w with
     | (Ok reply, w1) =>
         RunPage.run (fst (snd (RunPage.loadRun runId (s, w)))) = Api.data reply
         /\ RunPage.error (fst (snd (RunPage.loadRun runId (s, w)))) = RunPage.error s
         /\ RunPage.title (fst (snd (RunPage.loadRun runId (s, w))))
            = match RunPage.cheat_code_title (Api.data reply) with
              | Ok t => if truthy t then t else RunPage.title s
              | Throw _ => RunPage.title s
              end
     | (Throw e, w1) =>
         RunPage.run (fst (snd (RunPage.loadRun runId (s, w)))) = RunPage.run s
         /\ RunPage.title (fst (snd (RunPage.loadRun runId (s, w)))) = RunPage.title s
     end.
Proof.
  unfold RunPage.loadRun.
  unfold bind, set, try_finally, try_catch, api, ret, lift. cbn [fst snd].
  pose proof (OnboardingMore.throws_request (RunPage.run_path runId)
                {| Api.init_method := "GET"; Api.init_body := None;
                   Api.init_headers := ∅ |} w) as Hthrow.
  unfold Api.get in *.
  destruct (Api.request (RunPage.run_path runId) _ w) as [[reply|e] w1];
    cbn [fst snd] in *.
  - destruct (RunPage.cheat_code_title (Api.data reply)) as [t|e] eqn:Ht;
      cbn [fst snd].
    + destruct (truthy t); cbn; repeat split.
    + assert (He : e = type_error "Cannot read properties")
        by (eapply cheat_code_title_throws; exact Ht).
      subst e. cbn. repeat split.
  - destruct (run_on_error_spec e s w1 (Hthrow _ _ eq_refl))
      as (s' & Herr & _ & _ & Hrun & Htitle & _).
    rewrite Herr. cbn. repeat split; assumption.
Qed.

(** A run whose reply names no cheat code keeps the default title. *)
Example loadRun_without_cheat_code :
  let st := snd (RunPage.mount "41" (RunPage.initial, OnboardingSpec.accepting)) in
  RunPage.title (fst st) = VStr "Cheat Code Run"
  /\ RunPage.error (fst st) = VStr ""
  /\ RunPage.loading (fst st) = false.
Proof. vm_compute. repeat split. Qed.

(** *** The settings page *)

Lemma on_delete_error_spec e s w :
  displayable e ->
  exists s',
    Settings.on_delete_error e (s, w) = (Ok tt, (s', w))
    /\ truthy (Settings.error s') = true
    /\ Settings.deleting s' = Settings.deleting s
    /\ Settings.confirmDelete s' = Settings.confirmDelete s.
Proof.
  intros He. unfold Settings.on_delete_error.
  destruct (Api.isApiError e) eqn:Hapi.
  - destruct (He Hapi) as (fields & -> & Hm).
    eexists. split; [reflexivity|]. repeat split. exact Hm.
  - eexists. split; [reflexivity|]. repeat split.
Qed.

(** X19.  Deleting the account signs the user out only when the backend
    has confirmed: after a successful DELETE the token is removed, the
    cookie is expired and /login is pushed; after a failed one the token
    is kept, nothing is navigated and the failure is shown.  Either way
    the page is not left in the deleting state. *)
Theorem handleDelete_signs_out_on_success (s : Settings.State) (w : World) :
  window_defined w = true ->
  Settings.deleting (fst (snd (Settings.handleDelete (s, w)))) = false
  /\ match Api.delete "/user/delete" w with
     | (Ok _, w1) =>
         snd (snd (Settings.handleDelete (s, w)))
         = navigate (Push "/login") (snd (Api.clearToken w1))
         /\ Api.hasToken (snd (snd (Settings.handleDelete (s, w)))) = false
         /\ Settings.error (fst (snd (Settings.handleDelete (s, w)))) = VStr ""
     | (Throw e, w1) =>
         snd (snd (Settings.handleDelete (s, w))) = w1
         /\ Api.getToken (snd (snd (Settings.handleDelete (s, w)))) = Api.getToken w
         /\ navigations (snd (snd (Settings.handleDelete (s, w)))) = navigations w
         /\ truthy (Settings.error (fst (snd (Settings.handleDelete (s, w))))) = true
     end.
Proof.
  intros Hwin.
  unfold Settings.handleDelete, Settings.handleDelete_try.
  unfold bind, set, try_finally, try_catch, api, ret, router. cbn [fst snd].
  pose proof (OnboardingMore.throws_request "/user/delete"
                {| Api.init_method := "DELETE"; Api.init_body := None;
                   Api.init_headers := ∅ |} w) as Hthrow.
  destruct (OnboardingMore.request_with_sent "/user/delete"
              {| Api.init_method := "DELETE"; Api.init_body := None;
                 Api.init_headers := ∅ |} w) as (r & Hw & _).
  unfold Api.delete in *.
  destruct (Api.request "/user/delete" _ w) as [[reply|e] w1];
    cbn [fst snd] in *; subst w1.
  - unfold Api.clearToken. cbn [window_defined with_sent]. rewrite Hwin.
    cbn [fst snd]. split; [reflexivity|]. split; [reflexivity|].
    split; [|reflexivity].
    unfold Api.hasToken, Api.getToken. cbn. rewrite Hwin.
    now rewrite lookup_delete_eq.
  - destruct (on_delete_error_spec e
                (Settings.setDeleting true
                   (Settings.setRequestId VNull (Settings.setError (VStr "") s)))
                (with_sent (sent w ++ [r]) w) (Hthrow _ _ eq_refl))
      as (s' & Herr & Hshow & _).
    rewrite Herr. cbn [fst snd]. repeat split. exact Hshow.
Qed.

Lemma handleDelete_signs_out_on_success_witness :
  Api.hasToken (snd (snd (Settings.handleDelete
                            (Settings.initial, OnboardingSpec.accepting)))) = false
  /\ navigations (snd (snd (Settings.handleDelete
                              (Settings.initial, OnboardingSpec.accepting))))
     = [Push "/login"].
Proof.
  destruct (handleDelete_signs_out_on_success Settings.initial
              OnboardingSpec.accepting eq_refl) as [_ H].
  destruct (Api.delete "/user/delete" OnboardingSpec.accepting)
    as [[reply|e] w1] eqn:Hdel; [|discriminate Hdel].
  destruct H as (Hw & Hhas & _).
  split; [exact Hhas|].
  rewrite Hw. vm_compute in Hdel. injection Hdel as _ <-. reflexivity.
Defined.

Lemma settings_idle_without_delete a s w :
  Settings.confirmDelete s = false -> a <> Settings.ClickDelete ->
  Settings.act a (s, w) = (s, w).
Proof.
  intros Hc Ha. unfold Settings.act, Settings.handle. simpl.
  destruct a; try contradiction; now rewrite Hc.
Qed.

(** X20.  No account is deleted without "Delete account" being clicked
    first: on a page that does not show the confirmation, a sequence of
    clicks on "Confirm delete" and "Cancel" sends nothing and changes
    nothing. *)
Theorem delete_needs_confirmation (actions : list Settings.Action)
    (s : Settings.State) (w : World) :
  Settings.confirmDelete s = false ->
  ~ In Settings.ClickDelete actions ->
  Settings.run actions (s, w) = (s, w).
Proof.
  revert s w. induction actions as [|a rest IH]; intros s w Hc Hno; simpl.
  - reflexivity.
  - rewrite settings_idle_without_delete.
    + apply IH; [exact Hc|]. intros Hin. apply Hno. simpl. auto.
    + exact Hc.
    + intros ->. apply Hno. simpl. auto.
Qed.

Lemma delete_needs_confirmation_witness :
  Settings.run [Settings.ClickConfirmDelete; Settings.ClickCancel;
                Settings.ClickConfirmDelete]
               (Settings.initial, OnboardingSpec.accepting)
  = (Settings.initial, OnboardingSpec.accepting).
Proof.
  apply delete_needs_confirmation; [reflexivity|].
  simpl. intros [H|[H|[H|[]]]]; discriminate.
Defined.

(** With the confirmation the account is deleted and the user signed out. *)
Example delete_after_confirmation :
  let st := Settings.run [Settings.ClickDelete; Settings.ClickConfirmDelete]
                         (Settings.initial, OnboardingSpec.accepting) in
  List.map req_method (sent (snd st)) = ["DELETE"]
  /\ Api.hasToken (snd st) = false
  /\ navigations (snd st) = [Push "/login"].
Proof. vm_compute. repeat split. Qed.

(** *** The register page *)

Section RegisterSubmit.

Variable ToString : value -> string.



End RegisterSubmit.


(** *** An unreachable backend *)

(** X22.  When [fetch] itself fails, [request] throws an [ApiError] with
    status 0 and no request id after that one attempt; its message is
    "Cannot reach the server.", followed by the hint on
    NEXT_PUBLIC_API_BASE_URL exactly when the base URL contains
    "localhost", as it does when the variable is not set.  The error box
    shows the message without a request id line. *)
Theorem unreachable_backend_report (path : string) (opts : Api.RequestInit)
    (w : World) :
  server w (length (sent w)) = NetworkFailure ->
  exists e m,
    fst (Api.request path opts w) = Throw e
    /\ length (sent (snd (Api.request path opts w))) = S (length (sent w))
    /\ Api.isApiError e = true
    /\ get_prop e "message" = Ok (VStr m)
    /\ get_prop e "requestId" = Ok VNull
    /\ get_prop e "status" = Ok (VNum (inject_Z 0))
    /\ (Api.includes (Api.BASE w) "localhost" = false
        -> m = "Cannot reach the server.")
    /\ (Api.includes (Api.BASE w) "localhost" = true
        -> m = "Cannot reach the server. Check that NEXT_PUBLIC_API_BASE_URL is set to your backend URL.")
    /\ (NEXT_PUBLIC_API_BASE_URL w = None
        -> Api.includes (Api.BASE w) "localhost" = true)
    /\ ErrorBoxView.ErrorBox (VStr m) VNull
       = Some {| ErrorBoxView.box_message := VStr m;
                 ErrorBoxView.box_requestId := None |}.
Proof.
  intros Hres.
  unfold Api.request. rewrite Hres. cbn [fst snd].
  eexists. exists ("Cannot reach the server." +:+
                   (if Api.includes (Api.BASE w) "localhost"
                    then " Check that NEXT_PUBLIC_API_BASE_URL is set to your backend URL."
                    else "")).
  split; [reflexivity|].
  split; [simpl; rewrite length_app; simpl; lia|].
  split; [reflexivity|]. split; [reflexivity|].
  split; [reflexivity|]. split; [reflexivity|].
  split; [intros ->; reflexivity|].
  split; [intros ->; reflexivity|].
  split.
  - intros Henv. unfold Api.BASE. rewrite Henv. reflexivity.
  - reflexivity.
Qed.

Lemma unreachable_backend_report_witness :
  exists e,
    fst (Api.request "/onboarding/state"
           {| Api.init_method := "GET"; Api.init_body := None;
              Api.init_headers := ∅ |}
           (ApiSpec.browser NetworkFailure)) = Throw e
    /\ get_prop e "message" = Ok (VStr "Cannot reach the server.").
Proof.
  destruct (unreachable_backend_report "/onboarding/state"
              {| Api.init_method := "GET"; Api.init_body := None;
                 Api.init_headers := ∅ |}
              (ApiSpec.browser NetworkFailure) eq_refl)
    as (e & m & He & _ & _ & Hm & _ & _ & Hno & _).
  exists e. split; [exact He|].
  rewrite Hm, (Hno eq_refl). reflexivity.
Defined.

End PagesMore.
